(** * Weather Data Service: the request pipeline of [app.py] and its two clients

    A shallow embedding of the Flask service of this repository: the
    storage-key derivation and the date validator of [app.py], the three
    endpoints, the Open-Meteo client of [open_meteo_client.py] and the
    Cloud Storage client of [gcs_client.py].

    Python values are an inductive type, text is a [string] (code points below
    256; on that range the regular-expression class [\d] is the ten ASCII
    digits), a float is an IEEE binary64 value of [SpecFloat], an exception is
    a [Raise] result, and the calls to the outside (the archive API and the
    bucket) go through a state monad that records every call. Logging and
    printing have no part in any answer and are left out. *)

From Stdlib Require Import ZArith List String Ascii Bool Lia.
From Stdlib Require Import DecimalString DecimalPos DecimalN SpecFloat.
Import ListNotations.

Local Open Scope string_scope.
Local Open Scope Z_scope.

(** ** Python values, exceptions and results *)

(** The values [request.get_json()] and [json.loads] produce. A dict is its
    list of items in insertion order; the keys of a parsed object are
    distinct. *)
#[warnings="-register-all"]
Inductive pyval : Type :=
| PNone
| PBool (b : bool)
| PInt (n : Z)
| PFloat (x : spec_float)
| PStr (s : string)
| PList (l : list pyval)
| PDict (d : list (string * pyval)).

(** The exception classes the three modules name or can meet. *)
Inductive exn : Type :=
| TypeError | ValueError | AttributeError | OverflowError | UnboundLocalError
| BadRequest | JSONDecodeError
| Timeout | ConnectionError | HTTPError | RequestException
| NotFound | Forbidden
| OtherException.

Inductive res (A : Type) : Type :=
| Ret (a : A)
| Raise (e : exn).
Arguments Ret {A} a.
Arguments Raise {A} e.

Definition rbind {A B} (r : res A) (k : A -> res B) : res B :=
  match r with
  | Ret a => k a
  | Raise e => Raise e
  end.

Declare Scope res_scope.
Delimit Scope res_scope with res.
Notation "'let!' x ':=' r 'in' k" := (rbind r (fun x => k))
  (at level 10, x name, r at level 100, k at level 200) : res_scope.
Local Open Scope res_scope.

(** [bool(v)]: what [not v] tests. *)
Definition truthy (v : pyval) : bool :=
  match v with
  | PNone => false
  | PBool b => b
  | PInt n => negb (n =? 0)
  | PFloat (S754_zero _) => false
  | PFloat _ => true
  | PStr s => negb (String.eqb s "")
  | PList l => match l with [] => false | _ => true end
  | PDict d => match d with [] => false | _ => true end
  end.

Definition is_none (v : pyval) : bool :=
  match v with PNone => true | _ => false end.

(** [isinstance(v, (int, float))]; [bool] is a subclass of [int]. *)
Definition isinstance_int_float (v : pyval) : bool :=
  match v with
  | PBool _ | PInt _ | PFloat _ => true
  | _ => false
  end.

Definition isinstance_str (v : pyval) : bool :=
  match v with PStr _ => true | _ => false end.

Fixpoint dict_lookup (d : list (string * pyval)) (k : string) : option pyval :=
  match d with
  | [] => None
  | (k', v) :: d' => if String.eqb k' k then Some v else dict_lookup d' k
  end.

(** [v.get(k)]: only a dict has the method. *)
Definition py_get (v : pyval) (k : string) : res pyval :=
  match v with
  | PDict d => Ret (match dict_lookup d k with Some x => x | None => PNone end)
  | _ => Raise AttributeError
  end.

(** ** Text *)

(** [s.replace(old, new)] for a one-character [old], the only use in [app.py]. *)
Fixpoint str_replace (old : ascii) (new : string) (s : string) : string :=
  match s with
  | EmptyString => EmptyString
  | String c s' =>
      if Ascii.eqb c old then new ++ str_replace old new s'
      else String c (str_replace old new s')
  end.

Definition digit_char (n : Z) : ascii := ascii_of_N (Z.to_N (48 + n)).

Definition is_digit (c : ascii) : bool :=
  ((48 <=? N.of_nat (nat_of_ascii c)) && (N.of_nat (nat_of_ascii c) <=? 57))%N.

Definition digit_value (c : ascii) : Z := Z.of_nat (nat_of_ascii c) - 48.

(** Decimal digits of a natural number, no leading zero, ["0"] for zero. *)
Definition digits (n : Z) : string := NilEmpty.string_of_uint (N.to_uint (Z.to_N n)).

(** ** [format(x, ".2f")] *)

Definition prec : Z := 53.
Definition emax : Z := 1024.

(** [float(n)] for an [int]: nearest binary64, ties to even; a magnitude
    that rounds past the largest double raises [OverflowError]. *)
Definition float_of_int (n : Z) : res spec_float :=
  match binary_normalize prec emax n 0 false with
  | S754_infinity _ => Raise OverflowError
  | S754_nan => Raise OverflowError
  | x => Ret x
  end.

(** [n / d] to the nearest integer, ties to even ([0 < d]). *)
Definition round_half_even (n d : Z) : Z :=
  let q := n / d in
  match (2 * (n mod d) ?= d) with
  | Lt => q
  | Gt => q + 1
  | Eq => if Z.even q then q else q + 1
  end.

(** [m * 2^e * 100] to the nearest integer: the hundredths of a finite
    double's magnitude, correctly rounded from its exact binary value. *)
Definition hundredths (m : positive) (e : Z) : Z :=
  match e with
  | Zneg k => round_half_even (100 * Zpos m) (2 ^ Zpos k)
  | _ => 100 * Zpos m * 2 ^ e
  end.

Definition two_digits (n : Z) : string :=
  String (digit_char (n / 10)) (String (digit_char (n mod 10)) EmptyString).

Definition fixed2 (neg : bool) (h : Z) : string :=
  (if neg then "-" else "") ++ digits (h / 100) ++ "." ++ two_digits (h mod 100).

Definition float_format_2f (x : spec_float) : string :=
  match x with
  | S754_nan => "nan"
  | S754_infinity s => if s then "-inf" else "inf"
  | S754_zero s => fixed2 s 0
  | S754_finite s m e => fixed2 s (hundredths m e)
  end.

(** The double a number is formatted as: a [float] itself, an [int] or
    [bool] through [float()]. *)
Definition as_float (v : pyval) : res spec_float :=
  match v with
  | PFloat x => Ret x
  | PInt n => float_of_int n
  | PBool b => float_of_int (if b then 1 else 0)
  | PStr _ => Raise ValueError
  | _ => Raise TypeError
  end.

(** [f"{v:.2f}"]. *)
Definition format_2f (v : pyval) : res string :=
  let! x := as_float v in Ret (float_format_2f x).

(** ** [app.py]: [generate_filename] *)

Definition py_replace (v : pyval) (old : ascii) (new : string) : res string :=
  match v with
  | PStr s => Ret (str_replace old new s)
  | _ => Raise AttributeError
  end.

Definition generate_filename (latitude longitude start_date_str end_date_str : pyval)
  : res string :=
  let! start_date_fn := py_replace start_date_str "-" "" in
  let! end_date_fn := py_replace end_date_str "-" "" in
  let! lat_txt := format_2f latitude in
  let lat_str := str_replace "." "_" lat_txt in
  let! lon_txt := format_2f longitude in
  let lon_str := str_replace "." "_" lon_txt in
  Ret ("weather_lat" ++ lat_str ++ "_lon" ++ lon_str
       ++ "_from" ++ start_date_fn ++ "_to" ++ end_date_fn ++ ".json").

(** The literal [a/b] as Python reads it when [a] and [b] are exact doubles:
    the division of two doubles is correctly rounded. *)
Definition float_lit (a b : Z) : spec_float :=
  SFdiv prec emax (binary_normalize prec emax a 0 false)
                  (binary_normalize prec emax b 0 false).


(** ** [datetime.strptime(s, "%Y-%m-%d")]

    The standard library compiles the format to the regular expression
    [(?P<Y>\d\d\d\d)-(?P<m>1[0-2]|0[1-9]|[1-9])-(?P<d>3[0-1]|[1-2]\d|0[1-9]|[1-9]| [1-9])],
    matches it at the start of the text, refuses text that is left over, and
    builds a date from the three groups. *)

Inductive cclass : Type :=
| CLit (c : ascii)
| CRange (lo hi : ascii)
| CDigit.

Definition cclass_test (k : cclass) (c : ascii) : bool :=
  match k with
  | CLit c' => Ascii.eqb c c'
  | CRange lo hi =>
      ((N.of_nat (nat_of_ascii lo) <=? N.of_nat (nat_of_ascii c))
       && (N.of_nat (nat_of_ascii c) <=? N.of_nat (nat_of_ascii hi)))%N
  | CDigit => is_digit c
  end.

(** A pattern is a sequence of literal characters and named groups; a group
    is an ordered choice between sequences of character classes. *)
Inductive item : Type :=
| ILit (c : ascii)
| IGroup (name : string) (alts : list (list cclass)).

Definition format_regex : list item :=
  [ IGroup "Y" [[CDigit; CDigit; CDigit; CDigit]];
    ILit "-";
    IGroup "m" [[CLit "1"; CRange "0" "2"]; [CLit "0"; CRange "1" "9"]; [CRange "1" "9"]];
    ILit "-";
    IGroup "d" [[CLit "3"; CRange "0" "1"]; [CRange "1" "2"; CDigit];
                [CLit "0"; CRange "1" "9"]; [CRange "1" "9"]; [CLit " "; CRange "1" "9"]] ].

(** One alternative against the head of the text: the matched text and the rest. *)
Fixpoint match_seq (ks : list cclass) (s : string) : option (string * string) :=
  match ks with
  | [] => Some (EmptyString, s)
  | k :: ks' =>
      match s with
      | String c s' =>
          if cclass_test k c then
            match match_seq ks' s' with
            | Some (w, r) => Some (String c w, r)
            | None => None
            end
          else None
      | EmptyString => None
      end
  end.

(** The first alternative, in order, on which [f] succeeds. *)
Fixpoint first_match {A : Type} (f : list cclass -> option A) (alts : list (list cclass))
  : option A :=
  match alts with
  | [] => None
  | a :: alts' =>
      match f a with
      | Some x => Some x
      | None => first_match f alts'
      end
  end.

(** [re.match]: backtracking, the alternatives of a group tried in order; the
    first way to match the whole pattern wins, with its groups and the
    unmatched rest of the text. *)
Fixpoint re_match (p : list item) (s : string) : option (list (string * string) * string) :=
  match p with
  | [] => Some ([], s)
  | ILit c :: p' =>
      match s with
      | String c' s' => if Ascii.eqb c' c then re_match p' s' else None
      | EmptyString => None
      end
  | IGroup name alts :: p' =>
      first_match
        (fun a =>
           match match_seq a s with
           | Some (w, r) =>
               match re_match p' r with
               | Some (caps, rest) => Some ((name, w) :: caps, rest)
               | None => None
               end
           | None => None
           end) alts
  end.

Fixpoint group (found : list (string * string)) (name : string) : string :=
  match found with
  | [] => EmptyString
  | (n, w) :: found' => if String.eqb n name then w else group found' name
  end.

Fixpoint int_of_digits (acc : Z) (s : string) : res Z :=
  match s with
  | EmptyString => Ret acc
  | String c s' =>
      if is_digit c then int_of_digits (10 * acc + digit_value c) s'
      else Raise ValueError
  end.

Fixpoint lstrip_spaces (s : string) : string :=
  match s with
  | String " " s' => lstrip_spaces s'
  | _ => s
  end.

(** [int(s)] on the text of a group: leading blanks are skipped, then decimal
    digits are read (signs and underscores never occur in a group). *)
Definition py_int (s : string) : res Z :=
  match lstrip_spaces s with
  | EmptyString => Raise ValueError
  | t => int_of_digits 0 t
  end.

Definition is_leap (y : Z) : bool :=
  (y mod 4 =? 0) && (negb (y mod 100 =? 0) || (y mod 400 =? 0)).

Definition days_in_month (y m : Z) : Z :=
  match m with
  | 2 => if is_leap y then 29 else 28
  | 4 | 6 | 9 | 11 => 30
  | _ => 31
  end.

(** [datetime.date(y, m, d)] accepts exactly these triples. *)
Definition date_ok (y m d : Z) : bool :=
  (1 <=? y) && (y <=? 9999) && (1 <=? m) && (m <=? 12)
  && (1 <=? d) && (d <=? days_in_month y m).

Definition strptime_ymd (data_string : pyval) : res (Z * Z * Z) :=
  match data_string with
  | PStr s =>
      match re_match format_regex s with
      | None => Raise ValueError
      | Some (found, rest) =>
          if negb (String.eqb rest "") then Raise ValueError
          else
            let! year := py_int (group found "Y") in
            let! month := py_int (group found "m") in
            let! day := py_int (group found "d") in
            if date_ok year month day then Ret (year, month, day)
            else Raise ValueError
      end
  | _ => Raise TypeError
  end.

(** ** [app.py]: [validate_date_format] *)

Definition validate_date_format (date_str : pyval) : res bool :=
  match strptime_ymd date_str with
  | Ret _ => Ret true
  | Raise ValueError => Ret false
  | Raise e => Raise e
  end.

(** ** The outside world

    [requests], the Cloud Storage SDK and the [json] module are libraries the
    repository calls. Their behaviour is a parameter: any answer, any
    exception, any change of the remote state. *)

Record http_response : Type := { status_code : Z; text : string }.

(** [json.dumps(v, indent=2)] and [json.loads(s)]. *)
Class Json : Type := {
  json_dumps_indent2 : pyval -> res string;
  json_loads : string -> res pyval
}.

Class Outside : Type := {
  (** state of the archive API and of the buckets *)
  cloud : Type;
  (** [requests.get(url, params=params, timeout=timeout)] *)
  requests_get : string -> pyval -> Z -> cloud -> res http_response * cloud;
  (** [bucket(b).blob(k).upload_from_string(data, content_type=ct)] *)
  blob_upload_from_string : string -> string -> string -> string -> cloud -> res unit * cloud;
  (** the names yielded by iterating [list_blobs(b, prefix=p)] *)
  client_list_blobs : string -> option string -> cloud -> res (list string) * cloud;
  (** [bucket(b).blob(k).exists()] *)
  blob_exists : string -> string -> cloud -> res bool * cloud;
  (** [bucket(b).blob(k).download_as_text()] *)
  blob_download_as_text : string -> string -> cloud -> res string * cloud
}.

(** Every call that leaves the process. *)
Inductive call : Type :=
| HttpGet (url : string) (params : pyval) (timeout : Z)
| UploadFromString (bucket blob data content_type : string)
| ListBlobs (bucket : string) (prefix : option string)
| BlobExists (bucket blob : string)
| DownloadAsText (bucket blob : string).

Definition is_upload (c : call) : bool :=
  match c with UploadFromString _ _ _ _ => true | _ => false end.

Section Service.

Context {O : Outside}.

(** The remote state and the calls made so far, newest first. *)
Record world : Type := { remote : cloud; calls : list call }.

Definition M (A : Type) : Type := world -> res A * world.

Definition ret {A} (a : A) : M A := fun w => (Ret a, w).
Definition raise {A} (e : exn) : M A := fun w => (Raise e, w).
Definition lift {A} (r : res A) : M A := fun w => (r, w).

Definition bind {A B} (m : M A) (k : A -> M B) : M B :=
  fun w =>
    match m w with
    | (Ret a, w') => k a w'
    | (Raise e, w') => (Raise e, w')
    end.

(** The body of a [try]: its exception, if any, is handed to the handlers. *)
Definition attempt {A} (m : M A) : M (res A) :=
  fun w => let (r, w') := m w in (Ret r, w').

Definition outside_call {A} (c : call) (op : cloud -> res A * cloud) : M A :=
  fun w =>
    let (r, q) := op (remote w) in
    (r, {| remote := q; calls := c :: calls w |}).

End Service.

Declare Scope io_scope.
Delimit Scope io_scope with io.
Notation "x <- m ;; k" := (bind m (fun x => k))
  (at level 61, m at next level, right associativity) : io_scope.

Section Clients.

Context {J : Json} {O : Outside}.
Local Open Scope io_scope.

(** ** [open_meteo_client.py] *)

Definition BASE_URL : string := "https://archive-api.open-meteo.com/v1/archive".

Definition DAILY_VARIABLES : list string :=
  [ "temperature_2m_max"; "temperature_2m_min"; "temperature_2m_mean";
    "apparent_temperature_max"; "apparent_temperature_min"; "apparent_temperature_mean" ].

(** [response.raise_for_status()] *)
Definition raise_for_status (response : http_response) : res unit :=
  if (400 <=? status_code response) && (status_code response <? 600)
  then Raise HTTPError else Ret tt.

(** [response.json()]; its decoding error is both a [RequestException] and a
    [JSONDecodeError]. *)
Definition response_json (response : http_response) : res pyval :=
  match json_loads (text response) with
  | Ret v => Ret v
  | Raise _ => Raise JSONDecodeError
  end.

(** The [params] dict of [fetch_weather_data]. *)
Definition query_params (latitude longitude start_date end_date : pyval) : pyval :=
  PDict [ ("latitude", latitude); ("longitude", longitude);
          ("start_date", start_date); ("end_date", end_date);
          ("daily", PStr (String.concat "," DAILY_VARIABLES));
          ("timezone", PStr "GMT") ].

Definition fetch_weather_data (latitude longitude start_date end_date : pyval) : M pyval :=
  let params := query_params latitude longitude start_date end_date in
  got <- attempt (outside_call (HttpGet BASE_URL params 10) (requests_get BASE_URL params 10)) ;;
  match got with
  | Ret response =>
      match (let! _ := raise_for_status response in response_json response) with
      | Ret weather_data => ret weather_data
      | Raise (Timeout | ConnectionError | HTTPError | RequestException | JSONDecodeError) =>
          ret PNone
      | Raise e => raise e
      end
  | Raise Timeout =>
      (* the handler prints [response.text], and [response] was never bound *)
      raise UnboundLocalError
  | Raise (ConnectionError | HTTPError | RequestException | JSONDecodeError) => ret PNone
  | Raise e => raise e
  end.

(** ** [gcs_client.py] *)

(** Whether [storage.Client()] succeeded when the module was loaded. *)
Variable storage_client : bool.

Definition upload_to_gcs (bucket_name destination_blob_name data_json_string : string)
  : M bool :=
  if negb storage_client then ret false
  else
    r <- attempt (outside_call
           (UploadFromString bucket_name destination_blob_name data_json_string "application/json")
           (blob_upload_from_string bucket_name destination_blob_name data_json_string
              "application/json")) ;;
    match r with
    | Ret _ => ret true
    | Raise _ => ret false
    end.

(** [None] is [None]; a listing is [Some]. *)
Definition list_gcs_files (bucket_name : string) (prefix : option string)
  : M (option (list string)) :=
  if negb storage_client then ret None
  else
    r <- attempt (outside_call (ListBlobs bucket_name prefix)
                    (client_list_blobs bucket_name prefix)) ;;
    match r with
    | Ret file_names => ret (Some file_names)
    | Raise _ => ret None
    end.

Definition get_gcs_file_content (bucket_name blob_name : string) : M pyval :=
  if negb storage_client then ret PNone
  else
    r <- attempt
           (found <- outside_call (BlobExists bucket_name blob_name)
                       (blob_exists bucket_name blob_name) ;;
            if negb found then ret PNone
            else
              content_string <- outside_call (DownloadAsText bucket_name blob_name)
                                  (blob_download_as_text bucket_name blob_name) ;;
              json_content <- lift (json_loads content_string) ;;
              ret json_content) ;;
    match r with
    | Ret v => ret v
    | Raise _ => ret PNone
    end.

(** ** [app.py]: the endpoints *)

(** The environment variable read at start-up. *)
Variable GCS_BUCKET_NAME : option string.

(** The bucket the endpoints work on; [None] when [not GCS_BUCKET_NAME]
    holds (the variable is unset or empty). *)
Definition configured_bucket : option string :=
  match GCS_BUCKET_NAME with
  | Some b => if String.eqb b "" then None else Some b
  | None => None
  end.

(** What a view function returns: [jsonify(body), status]. *)
Record response : Type := { body : pyval; status : Z }.

Definition jsonify_error (msg : string) (code : Z) : response :=
  {| body := PDict [("error", PStr msg)]; status := code |}.

Definition index : M response :=
  ret {| body := PDict [("message", PStr "Welcome to the Weather Data Service API!")];
         status := 200 |}.

Definition server_misconfigured : response :=
  jsonify_error "Server configuration error: GCS bucket not set." 500.

Definition required_params (latitude longitude start_date end_date : pyval)
  : list (string * pyval) :=
  [ ("latitude", latitude); ("longitude", longitude);
    ("start_date", start_date); ("end_date", end_date) ].

Definition missing_params (required : list (string * pyval)) : list string :=
  map fst (filter (fun kv => is_none (snd kv)) required).

(** [isinstance(v, str) and validate_date_format(v)] *)
Definition date_field_ok (v : pyval) : res bool :=
  if isinstance_str v then validate_date_format v else Ret false.

(** [get_json] is what [request.get_json()] did: the parsed body, or the
    exception it raised. *)
Definition store_weather_data_endpoint (get_json : res pyval) : M response :=
  match configured_bucket with
  | None => ret server_misconfigured
  | Some bucket_name =>
    match get_json with
    | Raise _ => ret (jsonify_error "Invalid request: Malformed JSON." 400)
    | Ret req_data =>
        if negb (truthy req_data)
        then ret (jsonify_error "Invalid request: No JSON payload received." 400)
        else
          latitude <- lift (py_get req_data "latitude") ;;
          longitude <- lift (py_get req_data "longitude") ;;
          start_date <- lift (py_get req_data "start_date") ;;
          end_date <- lift (py_get req_data "end_date") ;;
          let missing := missing_params (required_params latitude longitude start_date end_date) in
          match missing with
          | _ :: _ =>
              ret (jsonify_error ("Missing parameters: " ++ String.concat ", " missing) 400)
          | [] =>
              if negb (isinstance_int_float latitude && isinstance_int_float longitude)
              then ret (jsonify_error
                     "Invalid data type for latitude or longitude. Must be float or integer." 400)
              else
                start_ok <- lift (date_field_ok start_date) ;;
                end_ok <- (if start_ok then lift (date_field_ok end_date) else ret false) ;;
                if negb end_ok
                then ret (jsonify_error
                       "Invalid date format for start_date or end_date. Use YYYY-MM-DD." 400)
                else
                  weather_api_data <- fetch_weather_data latitude longitude start_date end_date ;;
                  if is_none weather_api_data
                  then ret (jsonify_error "Failed to fetch weather data from external API." 502)
                  else
                    file_name <- lift (generate_filename latitude longitude start_date end_date) ;;
                    weather_data_json_string <- lift (json_dumps_indent2 weather_api_data) ;;
                    uploaded <- upload_to_gcs bucket_name file_name weather_data_json_string ;;
                    if uploaded
                    then ret {| body := PDict
                                  [ ("message", PStr "Weather data fetched and stored successfully.");
                                    ("file_name", PStr file_name);
                                    ("gcs_path", PStr ("gs://" ++ bucket_name ++ "/" ++ file_name)) ];
                                status := 201 |}
                    else ret (jsonify_error "Failed to store weather data in GCS." 500)
          end
    end
  end.

Definition list_weather_files_endpoint : M response :=
  match configured_bucket with
  | None => ret server_misconfigured
  | Some bucket_name =>
    let file_prefix := "weather_" in
    files <- list_gcs_files bucket_name (Some file_prefix) ;;
    match files with
    | None => ret (jsonify_error "Failed to retrieve file list from GCS." 500)
    | Some names =>
        ret {| body := PDict [ ("files", PList (map PStr names));
                               ("bucket", PStr bucket_name) ];
               status := 200 |}
    end
  end.

Definition weather_file_content_endpoint (file_name : string) : M response :=
  match configured_bucket with
  | None => ret server_misconfigured
  | Some bucket_name =>
    if String.eqb file_name "" then ret (jsonify_error "File name cannot be empty." 400)
    else
      content <- get_gcs_file_content bucket_name file_name ;;
      if is_none content
      then ret (jsonify_error
             ("File '" ++ file_name ++ "' not found or unable to retrieve/parse content.") 404)
      else ret {| body := content; status := 200 |}
  end.

End Clients.

(** ** A reference instance of the outside world

    An archive API with one canned answer, buckets held in memory, and a JSON
    codec for values without floats. It gives the statements below concrete
    worlds to run in. *)

Module InMemory.

Definition dquote : ascii := ascii_of_nat 34.
Definition backslash : ascii := ascii_of_nat 92.
Definition newline : ascii := ascii_of_nat 10.

Definition hex_char (n : N) : ascii :=
  if (n <? 10)%N then ascii_of_N (48 + n) else ascii_of_N (87 + n).

Definition hex_value (c : ascii) : option N :=
  let n := N_of_ascii c in
  if ((48 <=? n) && (n <=? 57))%N then Some (n - 48)%N
  else if ((97 <=? n) && (n <=? 102))%N then Some (n - 87)%N
  else if ((65 <=? n) && (n <=? 70))%N then Some (n - 55)%N
  else None.

(** One character inside a JSON string, escaped as [ensure_ascii] does. *)
Definition escape_char (c : ascii) : string :=
  let n := N_of_ascii c in
  if Ascii.eqb c dquote then String backslash (String dquote EmptyString)
  else if Ascii.eqb c backslash then String backslash (String backslash EmptyString)
  else if (n =? 10)%N then String backslash "n"
  else if (n =? 13)%N then String backslash "r"
  else if (n =? 9)%N then String backslash "t"
  else if (n =? 8)%N then String backslash "b"
  else if (n =? 12)%N then String backslash "f"
  else if ((32 <=? n) && (n <=? 126))%N then String c EmptyString
  else String backslash
         (String "u" (String "0" (String "0"
            (String (hex_char (n / 16)) (String (hex_char (n mod 16)) EmptyString))))).

Fixpoint escape (s : string) : string :=
  match s with
  | EmptyString => EmptyString
  | String c s' => escape_char c ++ escape s'
  end.

Definition quote (s : string) : string :=
  String dquote (escape s ++ String dquote EmptyString).

Definition int_text (n : Z) : string :=
  if n <? 0 then "-" ++ digits (- n) else digits n.

Fixpoint spaces (n : nat) : string :=
  match n with
  | O => EmptyString
  | S n' => String " " (spaces n')
  end.

Definition line (lvl : nat) : string := String newline (spaces (2 * lvl)).

Fixpoint res_map {A B : Type} (f : A -> res B) (l : list A) : res (list B) :=
  match l with
  | [] => Ret []
  | x :: l' =>
      let! t := f x in
      let! ts := res_map f l' in
      Ret (t :: ts)
  end.

(** [json.dumps(v, indent=2)] for values without floats. *)
Fixpoint encode (lvl : nat) (v : pyval) {struct v} : res string :=
  match v with
  | PNone => Ret "null"
  | PBool true => Ret "true"
  | PBool false => Ret "false"
  | PInt n => Ret (int_text n)
  | PFloat _ => Raise ValueError
  | PStr s => Ret (quote s)
  | PList [] => Ret "[]"
  | PList l =>
      let! items := res_map (encode (S lvl)) l in
      Ret ("[" ++ line (S lvl) ++ String.concat ("," ++ line (S lvl)) items ++ line lvl ++ "]")
  | PDict [] => Ret "{}"
  | PDict d =>
      let! items :=
        res_map (fun kv => let! t := encode (S lvl) (snd kv) in
                           Ret (quote (fst kv) ++ ": " ++ t)) d in
      Ret ("{" ++ line (S lvl) ++ String.concat ("," ++ line (S lvl)) items ++ line lvl ++ "}")
  end.

Fixpoint skip_ws (s : string) : string :=
  match s with
  | String c s' =>
      let n := N_of_ascii c in
      if ((n =? 32) || (n =? 9) || (n =? 10) || (n =? 13))%N then skip_ws s' else s
  | EmptyString => s
  end.

(** The text of a JSON string after its opening quote. *)
Fixpoint scan_string (s : string) : res (string * string) :=
  match s with
  | EmptyString => Raise JSONDecodeError
  | String c s' =>
      if Ascii.eqb c dquote then Ret (EmptyString, s')
      else if Ascii.eqb c backslash then
        match s' with
        | String e s'' =>
            let simple (x : ascii) :=
              let! r := scan_string s'' in Ret (String x (fst r), snd r) in
            if Ascii.eqb e dquote then simple dquote
            else if Ascii.eqb e backslash then simple backslash
            else if Ascii.eqb e "/" then simple "/"%char
            else if Ascii.eqb e "n" then simple newline
            else if Ascii.eqb e "r" then simple (ascii_of_nat 13)
            else if Ascii.eqb e "t" then simple (ascii_of_nat 9)
            else if Ascii.eqb e "b" then simple (ascii_of_nat 8)
            else if Ascii.eqb e "f" then simple (ascii_of_nat 12)
            else if Ascii.eqb e "u" then
              match s'' with
              | String h1 (String h2 (String h3 (String h4 s3))) =>
                  match hex_value h1, hex_value h2, hex_value h3, hex_value h4 with
                  | Some 0%N, Some 0%N, Some a, Some b =>
                      let! r := scan_string s3 in
                      Ret (String (ascii_of_N (16 * a + b)) (fst r), snd r)
                  | _, _, _, _ => Raise JSONDecodeError
                  end
              | _ => Raise JSONDecodeError
              end
            else Raise JSONDecodeError
        | EmptyString => Raise JSONDecodeError
        end
      else if (N_of_ascii c <? 32)%N then Raise JSONDecodeError
      else let! r := scan_string s' in Ret (String c (fst r), snd r)
  end.

Fixpoint take_digits (s : string) : string * string :=
  match s with
  | String c s' =>
      if is_digit c then let (d, r) := take_digits s' in (String c d, r) else (EmptyString, s)
  | EmptyString => (EmptyString, s)
  end.

Definition leading_zero (d : string) : bool :=
  match d with
  | String c (String _ _) => Ascii.eqb c "0"
  | _ => false
  end.

Definition starts_fraction (r : string) : bool :=
  match r with
  | String c _ => Ascii.eqb c "." || Ascii.eqb c "e" || Ascii.eqb c "E"
  | EmptyString => false
  end.

(** An integer literal; a fraction or an exponent is outside this codec. *)
Definition scan_int (neg : bool) (s : string) : res (pyval * string) :=
  let (d, r) := take_digits s in
  if String.eqb d "" then Raise JSONDecodeError
  else if leading_zero d then Raise JSONDecodeError
  else if starts_fraction r then Raise JSONDecodeError
  else
    let! n := int_of_digits 0 d in
    Ret (PInt (if neg then - n else n), r).

(** A repeated key keeps its place and takes the later value. *)
Fixpoint dict_set (d : list (string * pyval)) (k : string) (v : pyval) : list (string * pyval) :=
  match d with
  | [] => [(k, v)]
  | (k', v') :: d' => if String.eqb k' k then (k, v) :: d' else (k', v') :: dict_set d' k v
  end.

Fixpoint strip_prefix (p s : string) : option string :=
  match p, s with
  | EmptyString, _ => Some s
  | String a p', String b s' => if Ascii.eqb a b then strip_prefix p' s' else None
  | String _ _, EmptyString => None
  end.

(** The items of an array after its bracket, at most [n] of them. *)
Fixpoint decode_items (value : string -> res (pyval * string)) (n : nat) (acc : list pyval)
  (s : string) {struct n} : res (pyval * string) :=
  match n with
  | O => Raise JSONDecodeError
  | S n' =>
      let! r := value s in
      match skip_ws (snd r) with
      | String c s' =>
          if Ascii.eqb c "," then decode_items value n' (fst r :: acc) s'
          else if Ascii.eqb c "]" then Ret (PList (rev (fst r :: acc)), s')
          else Raise JSONDecodeError
      | EmptyString => Raise JSONDecodeError
      end
  end.

(** The members of an object after its brace, at most [n] of them. *)
Fixpoint decode_members (value : string -> res (pyval * string)) (n : nat)
  (acc : list (string * pyval)) (s : string) {struct n} : res (pyval * string) :=
  match n with
  | O => Raise JSONDecodeError
  | S n' =>
      match skip_ws s with
      | String q s1 =>
          if Ascii.eqb q dquote then
            let! k := scan_string s1 in
            match skip_ws (snd k) with
            | String colon s2 =>
                if Ascii.eqb colon ":" then
                  let! r := value s2 in
                  match skip_ws (snd r) with
                  | String c s' =>
                      if Ascii.eqb c ","
                      then decode_members value n' (dict_set acc (fst k) (fst r)) s'
                      else if Ascii.eqb c "}"
                      then Ret (PDict (dict_set acc (fst k) (fst r)), s')
                      else Raise JSONDecodeError
                  | EmptyString => Raise JSONDecodeError
                  end
                else Raise JSONDecodeError
            | EmptyString => Raise JSONDecodeError
            end
          else Raise JSONDecodeError
      | EmptyString => Raise JSONDecodeError
      end
  end.

Fixpoint decode_value (fuel : nat) (s : string) {struct fuel} : res (pyval * string) :=
  match fuel with
  | O => Raise JSONDecodeError
  | S fuel' =>
      match skip_ws s with
      | EmptyString => Raise JSONDecodeError
      | String c s' =>
          if Ascii.eqb c dquote then
            let! r := scan_string s' in Ret (PStr (fst r), snd r)
          else if Ascii.eqb c "[" then
            match skip_ws s' with
            | String c2 s'' =>
                if Ascii.eqb c2 "]" then Ret (PList [], s'')
                else decode_items (decode_value fuel') (String.length s') [] s'
            | EmptyString => Raise JSONDecodeError
            end
          else if Ascii.eqb c "{" then
            match skip_ws s' with
            | String c2 s'' =>
                if Ascii.eqb c2 "}" then Ret (PDict [], s'')
                else decode_members (decode_value fuel') (String.length s') [] s'
            | EmptyString => Raise JSONDecodeError
            end
          else if Ascii.eqb c "-" then scan_int true s'
          else if is_digit c then scan_int false (String c s')
          else
            match strip_prefix "null" (String c s'), strip_prefix "true" (String c s'),
                  strip_prefix "false" (String c s') with
            | Some r, _, _ => Ret (PNone, r)
            | _, Some r, _ => Ret (PBool true, r)
            | _, _, Some r => Ret (PBool false, r)
            | _, _, _ => Raise JSONDecodeError
            end
      end
  end.

(** [json.loads(s)] for texts without float literals. *)
Definition decode (s : string) : res pyval :=
  let! r := decode_value (S (String.length s)) s in
  match skip_ws (snd r) with
  | EmptyString => Ret (fst r)
  | _ => Raise JSONDecodeError
  end.

Definition json : Json :=
  {| json_dumps_indent2 := encode 0; json_loads := decode |}.

(** What the archive API answers, and the objects of each bucket. *)
Record store : Type := {
  archive_answer : res http_response;
  buckets : list (string * list (string * string))
}.

Fixpoint find_bucket (bs : list (string * list (string * string))) (b : string)
  : option (list (string * string)) :=
  match bs with
  | [] => None
  | (b', objs) :: bs' => if String.eqb b' b then Some objs else find_bucket bs' b
  end.

Fixpoint find_object (objs : list (string * string)) (k : string) : option string :=
  match objs with
  | [] => None
  | (k', data) :: objs' => if String.eqb k' k then Some data else find_object objs' k
  end.

Fixpoint put_object (objs : list (string * string)) (k data : string) : list (string * string) :=
  match objs with
  | [] => [(k, data)]
  | (k', d') :: objs' =>
      if String.eqb k' k then (k, data) :: objs' else (k', d') :: put_object objs' k data
  end.

Fixpoint set_bucket (bs : list (string * list (string * string))) (b : string)
  (objs : list (string * string)) : list (string * list (string * string)) :=
  match bs with
  | [] => []
  | (b', o) :: bs' => if String.eqb b' b then (b', objs) :: bs' else (b', o) :: set_bucket bs' b objs
  end.

Definition upload (b k data ct : string) (c : store) : res unit * store :=
  match find_bucket (buckets c) b with
  | None => (Raise NotFound, c)
  | Some objs =>
      (Ret tt, {| archive_answer := archive_answer c;
                  buckets := set_bucket (buckets c) b (put_object objs k data) |})
  end.

Definition list_names (b : string) (prefix : option string) (c : store)
  : res (list string) * store :=
  match find_bucket (buckets c) b with
  | None => (Raise NotFound, c)
  | Some objs =>
      (Ret (filter (fun k => match prefix with Some p => String.prefix p k | None => true end)
              (map fst objs)), c)
  end.

Definition exists_ (b k : string) (c : store) : res bool * store :=
  match find_bucket (buckets c) b with
  | None => (Ret false, c)
  | Some objs => (Ret (match find_object objs k with Some _ => true | None => false end), c)
  end.

Definition download (b k : string) (c : store) : res string * store :=
  match find_bucket (buckets c) b with
  | None => (Raise NotFound, c)
  | Some objs =>
      match find_object objs k with
      | Some data => (Ret data, c)
      | None => (Raise NotFound, c)
      end
  end.

Definition outside : Outside :=
  {| cloud := store;
     requests_get := fun _ _ _ c => (archive_answer c, c);
     blob_upload_from_string := upload;
     client_list_blobs := list_names;
     blob_exists := exists_;
     blob_download_as_text := download |}.

End InMemory.

Definition sample_record : pyval :=
  PDict [ ("latitude", PInt 52); ("timezone", PStr "GMT");
          ("daily", PDict [ ("time", PList [PStr "2023-03-01"; PStr "2023-03-02"]);
                            ("temperature_2m_max", PList [PInt 12; PInt (-3); PNone]) ]);
          ("note", PStr (String "a" (String InMemory.dquote (String InMemory.newline "\b")))) ].


Definition sample_store : InMemory.store :=
  {| InMemory.archive_answer := Raise ConnectionError;
     InMemory.buckets := [("weather-bucket", [("weather_old.json", "not json")])] |}.

Definition sample_world : @world InMemory.outside :=
  @Build_world InMemory.outside sample_store [].

Definition sample_request : pyval :=
  PDict [ ("latitude", PFloat (float_lit 5252 100)); ("longitude", PFloat (float_lit 1341 100));
          ("start_date", PStr "2023-03-01"); ("end_date", PStr "2023-03-03") ].

(** ** Vocabulary of the statements *)

Definition is_dict (v : pyval) : bool :=
  match v with PDict _ => true | _ => false end.

(** A key of the body that [req_data.get] maps to [None]: not there, or
    there with the value [null]. *)
Definition absent_or_null (d : list (string * pyval)) (k : string) : Prop :=
  dict_lookup d k = None \/ dict_lookup d k = Some PNone.

(** A body that passes the four checks of [store_weather_data_endpoint]: a
    JSON object whose coordinates are numbers and whose dates the validator
    accepts. *)
Definition validated (req_data latitude longitude : pyval) (start_date end_date : string)
  : Prop :=
  exists d,
    req_data = PDict d
    /\ dict_lookup d "latitude" = Some latitude
    /\ dict_lookup d "longitude" = Some longitude
    /\ dict_lookup d "start_date" = Some (PStr start_date)
    /\ dict_lookup d "end_date" = Some (PStr end_date)
    /\ isinstance_int_float latitude = true
    /\ isinstance_int_float longitude = true
    /\ validate_date_format (PStr start_date) = Ret true
    /\ validate_date_format (PStr end_date) = Ret true.

Definition missing_parameters_response (names : list string) : response :=
  jsonify_error ("Missing parameters: " ++ String.concat ", " names) 400.

Definition invalid_type_response : response :=
  jsonify_error "Invalid data type for latitude or longitude. Must be float or integer." 400.

Definition invalid_date_response : response :=
  jsonify_error "Invalid date format for start_date or end_date. Use YYYY-MM-DD." 400.

Definition no_payload_response : response :=
  jsonify_error "Invalid request: No JSON payload received." 400.

Definition malformed_json_response : response :=
  jsonify_error "Invalid request: Malformed JSON." 400.

Definition upstream_failed_response : response :=
  jsonify_error "Failed to fetch weather data from external API." 502.

Definition list_failed_response : response :=
  jsonify_error "Failed to retrieve file list from GCS." 500.

Definition not_found_response (file_name : string) : response :=
  jsonify_error ("File '" ++ file_name ++ "' not found or unable to retrieve/parse content.") 404.

Definition four_keys : list string := ["latitude"; "longitude"; "start_date"; "end_date"].

Definition file_content_response (file_name : string) (content : pyval) : response :=
  if is_none content then not_found_response file_name
  else {| body := content; status := 200 |}.

Definition listing_response (bucket : string) (files : option (list string)) : response :=
  match files with
  | None => list_failed_response
  | Some names =>
      {| body := PDict [("files", PList (map PStr names)); ("bucket", PStr bucket)];
         status := 200 |}
  end.

(** *** The key derivation in the words of the specification *)

Fixpoint all_chars (p : ascii -> bool) (s : string) : bool :=
  match s with
  | EmptyString => true
  | String c s' => p c && all_chars p s'
  end.

(** "Strip hyphens from both dates." *)
Definition strip_hyphens (s : string) : string :=
  string_of_list_ascii (filter (fun c => negb (Ascii.eqb c "-")) (list_ascii_of_string s)).

Definition is_finite (x : spec_float) : bool :=
  match x with
  | S754_zero _ | S754_finite _ _ _ => true
  | _ => false
  end.

(** [h] hundredths, with sign [neg], is the multiple of 0.01 nearest to the
    double [x]: exact when the double is an integer, within half a hundredth
    of its exact value [m * 2^e] otherwise. *)
Definition nearest_hundredth (x : spec_float) (neg : bool) (h : Z) : Prop :=
  match x with
  | S754_zero s => neg = s /\ h = 0
  | S754_finite s m e =>
      neg = s
      /\ 0 <= h
      /\ (if 0 <=? e then h = 100 * Zpos m * 2 ^ e
          else 2 * Z.abs (100 * Zpos m - h * 2 ^ (- e)) <= 2 ^ (- e))
  | _ => False
  end.

(** "Format to exactly 2 decimal places, then replace the decimal point with
    an underscore": an optional minus sign, the digits of the integer part (at
    least one), an underscore, exactly two digits. *)
Definition two_places_underscore (x : spec_float) (t : string) : Prop :=
  exists (neg : bool) (h : Z) (int_part : string) (d1 d2 : ascii),
    nearest_hundredth x neg h
    /\ t = (if neg then "-" else "") ++ int_part ++ "_" ++ String d1 (String d2 EmptyString)
    /\ int_part = digits (h / 100)
    /\ int_part <> EmptyString
    /\ all_chars is_digit int_part = true
    /\ d1 = digit_char (h mod 100 / 10) /\ is_digit d1 = true
    /\ d2 = digit_char (h mod 100 mod 10) /\ is_digit d2 = true.

(** "Compose: weather_lat{LAT}_lon{LON}_from{START}_to{END}.json". *)
Definition compose_key (LAT LON START END_ : string) : string :=
  "weather_lat" ++ LAT ++ "_lon" ++ LON ++ "_from" ++ START ++ "_to" ++ END_ ++ ".json".

(** *** The accepted dates in the words of the specification *)

(** A text is exactly one word of a sequence of character classes. *)
Fixpoint seq_matches (ks : list cclass) (w : string) : bool :=
  match ks, w with
  | [], EmptyString => true
  | k :: ks', String c w' => cclass_test k c && seq_matches ks' w'
  | _, _ => false
  end.

(** A text is a word of a pattern, with the text of each group. *)
Inductive pattern_matches : list item -> string -> list (string * string) -> Prop :=
| pm_nil : pattern_matches [] EmptyString []
| pm_lit : forall c p w caps,
    pattern_matches p w caps -> pattern_matches (ILit c :: p) (String c w) caps
| pm_group : forall n alts a g p w caps,
    In a alts -> seq_matches a g = true -> pattern_matches p w caps ->
    pattern_matches (IGroup n alts :: p) (g ++ w) ((n, g) :: caps).

Definition zrange (lo hi : Z) : list Z :=
  map (fun i => lo + Z.of_nat i) (seq 0 (Z.to_nat (hi - lo + 1))).

Definition one_digit (n : Z) : string := String (digit_char n) EmptyString.

(** Zero-padded months and days: "01" to "12", "01" to "31". *)
Definition padded_months : list (string * Z) := map (fun m => (two_digits m, m)) (zrange 1 12).
Definition padded_days : list (string * Z) := map (fun d => (two_digits d, d)) (zrange 1 31).

(** All the ways [strptime] lets a month and a day be written: zero-padded,
    a single digit, and for the day a blank before a single digit. *)
Definition month_texts : list (string * Z) :=
  padded_months ++ map (fun m => (one_digit m, m)) (zrange 1 9).
Definition day_texts : list (string * Z) :=
  padded_days ++ map (fun d => (one_digit d, d)) (zrange 1 9)
  ++ map (fun d => (String " " (one_digit d), d)) (zrange 1 9).

(** A date text: four digits of year, a month and a day from the given
    tables, hyphens between, naming a day of the calendar. *)
Definition date_text (months days : list (string * Z)) (s : string) : Prop :=
  exists (y1 y2 y3 y4 : ascii) (M D : string) (m d : Z),
    is_digit y1 = true /\ is_digit y2 = true /\ is_digit y3 = true /\ is_digit y4 = true
    /\ In (M, m) months /\ In (D, d) days
    /\ s = String y1 (String y2 (String y3 (String y4 ("-" ++ M ++ "-" ++ D))))
    /\ date_ok (1000 * digit_value y1 + 100 * digit_value y2 + 10 * digit_value y3
                + digit_value y4) m d = true.

(** "The exact calendar pattern YYYY-MM-DD (zero-padded, four-digit year,
    real calendar date)". *)
Definition iso_date_text : string -> Prop := date_text padded_months padded_days.

(** What the validator accepts. *)
Definition accepted_date_text : string -> Prop := date_text month_texts day_texts.

Fixpoint lookup_text (texts : list (string * Z)) (g : string) : option Z :=
  match texts with
  | [] => None
  | (t, n) :: texts' => if String.eqb t g then Some n else lookup_text texts' g
  end.

Definition chars_between (lo hi : ascii) : list ascii :=
  map ascii_of_nat (seq (nat_of_ascii lo) (S (nat_of_ascii hi) - nat_of_ascii lo)).

(** The pattern after the year group. *)
Definition month_day_regex : list item := tl format_regex.

Definition res_is {A} (eqb : A -> A -> bool) (r : res A) (a : A) : bool :=
  match r with Ret x => eqb x a | Raise _ => false end.

(** [M] and [D], hyphens before each, match the rest of the pattern up to the
    end of the text, as the groups [m] and [d], and read as [m] and [d]. *)
Definition month_day_ok (Mm Dd : string * Z) : bool :=
  match re_match month_day_regex ("-" ++ fst Mm ++ "-" ++ fst Dd) with
  | Some ([(n1, M'); (n2, D')], EmptyString) =>
      String.eqb n1 "m" && String.eqb M' (fst Mm) && String.eqb n2 "d" && String.eqb D' (fst Dd)
      && res_is Z.eqb (py_int (fst Mm)) (snd Mm) && res_is Z.eqb (py_int (fst Dd)) (snd Dd)
  | _ => false
  end.

(** *** Round trip through the bucket *)

(** A value survives JSON: it can be serialised, and the text parses back to
    the same value. *)
Definition json_representable {J : Json} (w : pyval) : Prop :=
  exists text, json_dumps_indent2 w = Ret text /\ json_loads text = Ret w.

(** The bucket gives back what was put: after an upload that succeeded the
    object exists, and its text is the uploaded one. *)
Definition read_after_write (O : Outside) : Prop :=
  forall b k data ct c c',
    blob_upload_from_string b k data ct c = (Ret tt, c') ->
    exists c1 c2,
      blob_exists b k c' = (Ret true, c1)
      /\ blob_download_as_text b k c1 = (Ret data, c2).

Definition unpadded_request : pyval :=
  PDict [ ("latitude", PFloat (float_lit 5252 100)); ("longitude", PFloat (float_lit 1341 100));
          ("start_date", PStr "2023-3-1"); ("end_date", PStr "2023-03-03") ].

Definition boolean_request : pyval :=
  PDict [ ("latitude", PBool true); ("longitude", PFloat (float_lit 1341 100));
          ("start_date", PStr "2023-03-01"); ("end_date", PStr "2023-03-03") ].

Definition empty_bucket_world : @world InMemory.outside :=
  @Build_world InMemory.outside
    {| InMemory.archive_answer := Raise ConnectionError;
       InMemory.buckets := [("weather-bucket", [])] |} [].

(** *** Values of the reference codec *)

Fixpoint distinct (keys : list string) : bool :=
  match keys with
  | [] => true
  | k :: keys' => negb (existsb (String.eqb k) keys') && distinct keys'
  end.

(** A JSON value without floats: null, booleans, integers, strings, arrays
    and objects with distinct keys. *)
Fixpoint plain_json (v : pyval) : bool :=
  match v with
  | PFloat _ => false
  | PList l => forallb plain_json l
  | PDict d => distinct (map fst d) && forallb (fun kv => plain_json (snd kv)) d
  | _ => true
  end.

Fixpoint depth (v : pyval) : nat :=
  match v with
  | PList l => S (fold_right (fun x m => Nat.max (depth x) m) O l)
  | PDict d => S (fold_right (fun kv m => Nat.max (depth (snd kv)) m) O d)
  | _ => O
  end.

Definition is_ws (c : ascii) : bool :=
  let n := N_of_ascii c in ((n =? 32) || (n =? 9) || (n =? 10) || (n =? 13))%N.

(** What may follow a value in a text: not a digit, not the start of a
    fraction or of an exponent. *)
Definition tail_ok (rest : string) : bool :=
  match rest with
  | String c _ => negb (is_digit c) && negb (InMemory.starts_fraction rest)
  | EmptyString => true
  end.

(** The first character of the text of a value. *)
Definition value_start (c : ascii) : bool :=
  existsb (Ascii.eqb c)
    (InMemory.dquote :: list_ascii_of_string "[{-ntf0123456789").

(** *** Vocabulary of the further properties *)

(** What [req_data.get(k)] gives on an object. *)
Definition lookup_or_none (d : list (string * pyval)) (k : string) : pyval :=
  match dict_lookup d k with Some x => x | None => PNone end.

(** The required keys an object leaves out or sets to null, in the order of
    [required_params]. *)
Definition missing_keys (d : list (string * pyval)) : list string :=
  filter (fun k => is_none (lookup_or_none d k)) four_keys.

Definition storage_failed_response : response :=
  jsonify_error "Failed to store weather data in GCS." 500.

Definition created_response (bucket file_name : string) : response :=
  {| body := PDict [ ("message", PStr "Weather data fetched and stored successfully.");
                     ("file_name", PStr file_name);
                     ("gcs_path", PStr ("gs://" ++ bucket ++ "/" ++ file_name)) ];
     status := 201 |}.

Definition empty_file_name_response : response :=
  jsonify_error "File name cannot be empty." 400.

(** The reference world with a given answer of the archive and given objects
    in the bucket. *)
Definition world_with (answer : res http_response) (objects : list (string * string))
  : @world InMemory.outside :=
  @Build_world InMemory.outside
    {| InMemory.archive_answer := answer;
       InMemory.buckets := [("weather-bucket", objects)] |} [].

(** An archive that answers 200 with a JSON body. *)
Definition answering_world : @world InMemory.outside :=
  world_with (Ret {| status_code := 200; text := "[12, -3, null]" |}) [].

(** An archive that does not answer in time. *)
Definition timeout_world : @world InMemory.outside := world_with (Raise Timeout) [].

(** A bucket in which one object holds the JSON text [null]. *)
Definition null_object_world : @world InMemory.outside :=
  world_with (Raise ConnectionError) [("weather_null.json", "null")].

Definition huge_request : pyval :=
  PDict [ ("latitude", PInt (2 ^ 1024)); ("longitude", PInt 13);
          ("start_date", PStr "2023-03-01"); ("end_date", PStr "2023-03-03") ].

(** *** Zero-padded date texts *)

Definition two_digit_value (a b : ascii) : Z := 10 * digit_value a + digit_value b.

Definition padded_date (y1 y2 y3 y4 m1 m2 d1 d2 : ascii) : string :=
  String y1 (String y2 (String y3 (String y4
    (String "-" (String m1 (String m2 (String "-" (String d1 (String d2 EmptyString))))))))).

(** What the rest of the pattern makes of two digits of month and two of day:
    it reads them as the numbers they write, or, when it does not match them
    all, they name no month from 1 to 12 or no day from 1 to 31. *)
Definition padded_month_day_ok (m1 m2 d1 d2 : ascii) : bool :=
  let in_range :=
    (1 <=? two_digit_value m1 m2) && (two_digit_value m1 m2 <=? 12)
    && (1 <=? two_digit_value d1 d2) && (two_digit_value d1 d2 <=? 31) in
  match re_match month_day_regex
          (String "-" (String m1 (String m2 (String "-" (String d1 (String d2 EmptyString))))))
  with
  | Some (found, rest) =>
      if String.eqb rest ""
      then res_is Z.eqb (py_int (group found "m")) (two_digit_value m1 m2)
           && res_is Z.eqb (py_int (group found "d")) (two_digit_value d1 d2)
      else negb in_range
  | None => negb in_range
  end.

(** * Properties *)

Ltac run :=
  unfold bind, ret, raise, lift, attempt, outside_call in *; simpl in *.

Ltac split_tests H :=
  repeat match type of H with
         | (_ && _) = true => let H' := fresh "T" in apply andb_true_iff in H as [H' H]
         end.

Ltac group_cases H :=
  cbn [seq_matches] in H; try discriminate H; split_tests H; try discriminate H.

Ltac enumerate H :=
  simpl in H; repeat (destruct H as [<- | H]); [.. | contradiction].


Section Misconfigured.

Context {J : Json} {O : Outside}.
Variable storage_client : bool.

Lemma configured_bucket_unset :
  forall b, b = None \/ b = Some EmptyString -> configured_bucket b = None.
Proof. intros b [-> | ->]; reflexivity. Qed.

Lemma configured_bucket_set :
  forall b, b <> EmptyString -> configured_bucket (Some b) = Some b.
Proof.
  intros b Hb. unfold configured_bucket.
  destruct (String.eqb_spec b ""); [contradiction | reflexivity].
Qed.

(** C5. With the bucket variable unset (or empty) the three bucket-dependent
    endpoints answer 500 "Server configuration error" and leave the world as
    it was: no call to the archive API or to the bucket is made. The health
    check answers 200 whatever the variable is. *)
Theorem unset_bucket_fails_before_any_call :
  forall (GCS_BUCKET_NAME : option string) (get_json : res pyval) (file_name : string)
         (w : world),
    GCS_BUCKET_NAME = None \/ GCS_BUCKET_NAME = Some EmptyString ->
    store_weather_data_endpoint storage_client GCS_BUCKET_NAME get_json w
      = (Ret server_misconfigured, w)
    /\ list_weather_files_endpoint storage_client GCS_BUCKET_NAME w
      = (Ret server_misconfigured, w)
    /\ weather_file_content_endpoint storage_client GCS_BUCKET_NAME file_name w
      = (Ret server_misconfigured, w)
    /\ status server_misconfigured = 500
    /\ (exists r, index w = (Ret r, w) /\ status r = 200).
Proof.
  intros b get_json file_name w Hb.
  unfold store_weather_data_endpoint, list_weather_files_endpoint,
    weather_file_content_endpoint.
  rewrite (configured_bucket_unset b Hb).
  repeat split; try reflexivity.
  eexists; split; reflexivity.
Qed.

End Misconfigured.

Lemma unset_bucket_fails_before_any_call_witness :
  store_weather_data_endpoint (J := InMemory.json) true None (Ret sample_request) sample_world
    = (Ret server_misconfigured, sample_world)
  /\ calls sample_world = [].
Proof.
  split; [| reflexivity].
  apply (unset_bucket_fails_before_any_call (J := InMemory.json) true None
           (Ret sample_request) "x.json" sample_world).
  left; reflexivity.
Defined.

Section Endpoints.

Context {J : Json} {O : Outside}.
Variable storage_client : bool.
Variable bucket : string.
Hypothesis bucket_set : bucket <> EmptyString.

Local Abbreviation store := (store_weather_data_endpoint storage_client (Some bucket)).

Lemma fetch_weather_data_calls :
  forall latitude longitude start_date end_date (w w' : world) r,
    fetch_weather_data latitude longitude start_date end_date w = (r, w') ->
    calls w' = HttpGet BASE_URL (query_params latitude longitude start_date end_date) 10
                 :: calls w.
Proof.
  intros la lo s e w w' r. unfold fetch_weather_data. run.
  destruct (requests_get _ _ _ (remote w)) as [[resp | ex] q]; simpl.
  - destruct (raise_for_status resp); simpl.
    + destruct (response_json resp) as [v | []]; simpl; intros H; inversion H; reflexivity.
    + destruct e0; simpl; intros H; inversion H; reflexivity.
  - destruct ex; simpl; intros H; inversion H; reflexivity.
Qed.

(** What the client makes of each answer of the archive: a connection error,
    an error status and a body that is not JSON give [None]; a timeout does
    not, because its handler prints [response.text] while [response] is still
    unbound. *)
Lemma fetch_weather_data_outcomes :
  forall latitude longitude start_date end_date (w : world) q,
    let params := query_params latitude longitude start_date end_date in
    (requests_get BASE_URL params 10 (remote w) = (Raise ConnectionError, q) ->
     fst (fetch_weather_data latitude longitude start_date end_date w) = Ret PNone)
    /\ (forall response,
          requests_get BASE_URL params 10 (remote w) = (Ret response, q) ->
          400 <= status_code response < 600 ->
          fst (fetch_weather_data latitude longitude start_date end_date w) = Ret PNone)
    /\ (forall response e,
          requests_get BASE_URL params 10 (remote w) = (Ret response, q) ->
          json_loads (text response) = Raise e ->
          fst (fetch_weather_data latitude longitude start_date end_date w) = Ret PNone)
    /\ (forall response v,
          requests_get BASE_URL params 10 (remote w) = (Ret response, q) ->
          raise_for_status response = Ret tt ->
          json_loads (text response) = Ret v ->
          fst (fetch_weather_data latitude longitude start_date end_date w) = Ret v)
    /\ (requests_get BASE_URL params 10 (remote w) = (Raise Timeout, q) ->
        fst (fetch_weather_data latitude longitude start_date end_date w)
        = Raise UnboundLocalError).
Proof.
  intros la lo s e w q params. unfold fetch_weather_data. fold params. run.
  repeat split.
  - intros E. rewrite E. reflexivity.
  - intros resp E Hst. rewrite E. simpl. unfold raise_for_status.
    destruct (Z.leb_spec 400 (status_code resp)); [| lia].
    destruct (Z.ltb_spec (status_code resp) 600); [| lia]. reflexivity.
  - intros resp e0 E Hj. rewrite E. simpl.
    destruct (raise_for_status resp) as [[] | ex] eqn:R; simpl.
    + unfold response_json. rewrite Hj. reflexivity.
    + unfold raise_for_status in R.
      destruct ((400 <=? status_code resp) && (status_code resp <? 600));
        inversion R; reflexivity.
  - intros resp v E R Hj. rewrite E. simpl. rewrite R. simpl.
    unfold response_json. rewrite Hj. reflexivity.
  - intros E. rewrite E. reflexivity.
Qed.

Lemma validated_fields :
  forall req_data latitude longitude start_date end_date,
    validated req_data latitude longitude start_date end_date ->
    truthy req_data = true
    /\ py_get req_data "latitude" = Ret latitude
    /\ py_get req_data "longitude" = Ret longitude
    /\ py_get req_data "start_date" = Ret (PStr start_date)
    /\ py_get req_data "end_date" = Ret (PStr end_date)
    /\ missing_params (required_params latitude longitude (PStr start_date) (PStr end_date)) = [].
Proof.
  intros req la lo s e (d & -> & Hla & Hlo & Hs & He & Tla & Tlo & _).
  simpl. rewrite Hla, Hlo, Hs, He.
  repeat split; try reflexivity.
  - destruct d; [discriminate | reflexivity].
  - unfold missing_params, required_params; simpl.
    destruct la; try discriminate; destruct lo; try discriminate; reflexivity.
Qed.

(** Past the four checks the endpoint is the fetch, the key derivation, the
    serialisation and the upload. *)
Lemma store_validated :
  forall req_data latitude longitude start_date end_date (w : world),
    validated req_data latitude longitude start_date end_date ->
    store (Ret req_data) w =
      bind (fetch_weather_data latitude longitude (PStr start_date) (PStr end_date))
        (fun weather_api_data =>
           if is_none weather_api_data then ret upstream_failed_response
           else
             bind (lift (generate_filename latitude longitude (PStr start_date) (PStr end_date)))
               (fun file_name =>
                  bind (lift (json_dumps_indent2 weather_api_data))
                    (fun data =>
                       bind (upload_to_gcs storage_client bucket file_name data)
                         (fun uploaded =>
                            if uploaded
                            then ret {| body := PDict
                                   [ ("message", PStr "Weather data fetched and stored successfully.");
                                     ("file_name", PStr file_name);
                                     ("gcs_path", PStr ("gs://" ++ bucket ++ "/" ++ file_name)) ];
                                   status := 201 |}
                            else ret (jsonify_error "Failed to store weather data in GCS." 500)))))
        w.
Proof.
  intros req la lo s e w Hv.
  destruct (validated_fields _ _ _ _ _ Hv) as (Ht & Gla & Glo & Gs & Ge & Hm).
  destruct Hv as (d & -> & _ & _ & _ & _ & Tla & Tlo & Vs & Ve).
  unfold store, store_weather_data_endpoint.
  rewrite (configured_bucket_set _ bucket_set), Ht. simpl negb. cbv iota.
  unfold bind at 1, lift at 1. rewrite Gla.
  unfold bind at 1, lift at 1. rewrite Glo.
  unfold bind at 1, lift at 1. rewrite Gs.
  unfold bind at 1, lift at 1. rewrite Ge.
  rewrite Hm, Tla, Tlo. simpl negb. cbv iota.
  unfold date_field_ok. simpl isinstance_str. cbv iota.
  unfold bind at 1, lift at 1. rewrite Vs.
  unfold bind at 1, lift at 1. rewrite Ve.
  reflexivity.
Qed.

(** C4. For a validated request whose fetch returns [None], the endpoint
    answers 502 "Failed to fetch weather data from external API."; the only
    call made is the GET to the archive, so no upload reaches the bucket. *)
Theorem fetch_failure_is_502_without_upload :
  forall req_data latitude longitude start_date end_date (w w' : world),
    validated req_data latitude longitude start_date end_date ->
    fetch_weather_data latitude longitude (PStr start_date) (PStr end_date) w
      = (Ret PNone, w') ->
    store (Ret req_data) w = (Ret upstream_failed_response, w')
    /\ status upstream_failed_response = 502
    /\ calls w' = HttpGet BASE_URL
                    (query_params latitude longitude (PStr start_date) (PStr end_date)) 10
                  :: calls w
    /\ (forall c, In c (calls w') -> is_upload c = true -> In c (calls w)).
Proof.
  intros req la lo s e w w' Hv Hf.
  rewrite (store_validated _ _ _ _ _ w Hv).
  pose proof (fetch_weather_data_calls _ _ _ _ _ _ _ Hf) as Hc.
  split; [| split; [reflexivity | split; [exact Hc |]]].
  - unfold bind at 1. rewrite Hf. reflexivity.
  - intros c Hin Hup. rewrite Hc in Hin. destruct Hin as [<- | Hin]; [discriminate | exact Hin].
Qed.

(** C10. A body that parses to a truthy value other than an object (a
    non-empty array, a non-empty string, a non-zero number, [true]) gets past
    the payload guard and fails at [req_data.get] with an [AttributeError]
    nobody catches: the view returns no response at all, so none of the 400
    responses, and no call is made. *)
Theorem truthy_non_object_body_raises :
  forall (req_data : pyval) (w : world),
    truthy req_data = true ->
    is_dict req_data = false ->
    store (Ret req_data) w = (Raise AttributeError, w)
    /\ (forall r : response, fst (store (Ret req_data) w) <> Ret r).
Proof.
  intros req w Ht Hd.
  assert (E : store (Ret req) w = (Raise AttributeError, w)).
  { unfold store, store_weather_data_endpoint.
    rewrite (configured_bucket_set _ bucket_set), Ht. simpl negb. cbv iota.
    destruct req; try discriminate; reflexivity. }
  split; [exact E |]. intros r. rewrite E. discriminate.
Qed.

Lemma absent_or_null_get :
  forall d k, absent_or_null d k -> py_get (PDict d) k = Ret PNone.
Proof. intros d k [H | H]; simpl; rewrite H; reflexivity. Qed.

(** C1 (amended). The empty object is falsy, so the payload guard answers it:
    400 "Invalid request: No JSON payload received.". The answer that names
    all four keys, 400 "Missing parameters: latitude, longitude, start_date,
    end_date", is given to a non-empty object in which the four keys are
    absent or null. *)
Theorem empty_object_is_no_payload_missing_keys_are_named :
  forall w : world,
    store (Ret (PDict [])) w = (Ret no_payload_response, w)
    /\ status no_payload_response = 400
    /\ (forall d,
          d <> [] ->
          (forall k, In k four_keys -> absent_or_null d k) ->
          store (Ret (PDict d)) w = (Ret (missing_parameters_response four_keys), w)
          /\ status (missing_parameters_response four_keys) = 400).
Proof.
  intros w. unfold store, store_weather_data_endpoint.
  rewrite (configured_bucket_set _ bucket_set).
  split; [reflexivity | split; [reflexivity |]].
  intros d Hd Hk. split; [| reflexivity].
  assert (Ht : truthy (PDict d) = true) by (destruct d; [contradiction | reflexivity]).
  rewrite Ht. simpl negb. cbv iota.
  unfold bind at 1, lift at 1.
  rewrite (absent_or_null_get d "latitude") by (apply Hk; simpl; auto).
  unfold bind at 1, lift at 1.
  rewrite (absent_or_null_get d "longitude") by (apply Hk; simpl; auto).
  unfold bind at 1, lift at 1.
  rewrite (absent_or_null_get d "start_date") by (apply Hk; simpl; auto).
  unfold bind at 1, lift at 1.
  rewrite (absent_or_null_get d "end_date") by (apply Hk; simpl; auto 6).
  reflexivity.
Qed.

Lemma get_gcs_file_content_returns :
  forall blob_name (w : world),
    exists content w',
      get_gcs_file_content storage_client bucket blob_name w = (Ret content, w').
Proof.
  intros k w. unfold get_gcs_file_content.
  destruct storage_client; simpl; [| eexists; eexists; reflexivity].
  run.
  destruct (blob_exists bucket k (remote w)) as [[[|] | ex] q]; simpl;
    try (eexists; eexists; reflexivity).
  destruct (blob_download_as_text bucket k q) as [[text | ex] q']; simpl;
    try (eexists; eexists; reflexivity).
  destruct (json_loads text); simpl; eexists; eexists; reflexivity.
Qed.

(** C6. With the bucket configured and a non-empty file name, the content
    endpoint answers 404 exactly when [get_gcs_file_content] returns [None]
    and otherwise 200 with the parsed content as it is. The client returns
    [None] when the object is absent, when the existence check or the download
    is refused, and when the body does not parse; the 404 is the same in each
    case. It returns the parsed value when all three steps succeed. *)
Theorem file_content_none_is_404_else_verbatim :
  forall (file_name : string) (w : world),
    file_name <> EmptyString ->
    exists content w',
      get_gcs_file_content storage_client bucket file_name w = (Ret content, w')
      /\ weather_file_content_endpoint storage_client (Some bucket) file_name w
          = (Ret (file_content_response file_name content), w')
      /\ (content = PNone ->
          file_content_response file_name content = not_found_response file_name
          /\ status (not_found_response file_name) = 404)
      /\ (content <> PNone ->
          file_content_response file_name content = {| body := content; status := 200 |})
      /\ (forall q, blob_exists bucket file_name (remote w) = (Ret false, q) ->
          content = PNone)
      /\ (forall q, blob_exists bucket file_name (remote w) = (Raise Forbidden, q) ->
          content = PNone)
      /\ (forall q q',
          blob_exists bucket file_name (remote w) = (Ret true, q) ->
          blob_download_as_text bucket file_name q = (Raise Forbidden, q') ->
          content = PNone)
      /\ (forall q q' body_text e,
          blob_exists bucket file_name (remote w) = (Ret true, q) ->
          blob_download_as_text bucket file_name q = (Ret body_text, q') ->
          json_loads body_text = Raise e ->
          content = PNone)
      /\ (forall q q' body_text v,
          storage_client = true ->
          blob_exists bucket file_name (remote w) = (Ret true, q) ->
          blob_download_as_text bucket file_name q = (Ret body_text, q') ->
          json_loads body_text = Ret v ->
          content = v).
Proof.
  intros k w Hk.
  destruct (get_gcs_file_content_returns k w) as (content & w' & Hg).
  exists content, w'. split; [exact Hg |].
  split.
  { unfold weather_file_content_endpoint.
    rewrite (configured_bucket_set _ bucket_set).
    destruct (String.eqb_spec k ""); [contradiction |].
    unfold bind. rewrite Hg. unfold file_content_response, not_found_response.
    destruct (is_none content); reflexivity. }
  split; [intros ->; split; reflexivity |].
  split; [intros Hc; unfold file_content_response; destruct content; try reflexivity;
          contradiction |].
  revert Hg. unfold get_gcs_file_content.
  destruct storage_client; simpl.
  - run. intros Hg.
    repeat split.
    + intros q E. rewrite E in Hg. simpl in Hg. congruence.
    + intros q E. rewrite E in Hg. simpl in Hg. congruence.
    + intros q q' E1 E2. rewrite E1 in Hg. simpl in Hg. rewrite E2 in Hg. simpl in Hg.
      congruence.
    + intros q q' t e E1 E2 E3. rewrite E1 in Hg. simpl in Hg. rewrite E2 in Hg. simpl in Hg.
      rewrite E3 in Hg. simpl in Hg. congruence.
    + intros q q' t v _ E1 E2 E3. rewrite E1 in Hg. simpl in Hg. rewrite E2 in Hg.
      simpl in Hg. rewrite E3 in Hg. simpl in Hg. congruence.
  - unfold ret. intros Hg. assert (content = PNone) by congruence. subst content.
    repeat split; try reflexivity; intros; try reflexivity. discriminate.
Qed.

End Endpoints.

Section Listing.

Context {O : Outside}.
Variable storage_client : bool.
Variable bucket : string.
Hypothesis bucket_set : bucket <> EmptyString.

Lemma list_gcs_files_returns :
  forall prefix (w : world),
    exists files w', list_gcs_files storage_client bucket prefix w = (Ret files, w').
Proof.
  intros p w. unfold list_gcs_files.
  destruct storage_client; simpl; [| eexists; eexists; reflexivity].
  run. destruct (client_list_blobs bucket p (remote w)) as [[names | ex] q]; simpl;
    eexists; eexists; reflexivity.
Qed.

(** C7. With the bucket configured, the listing endpoint answers 500
    "Failed to retrieve file list from GCS." exactly when [list_gcs_files]
    returns [None]; any list, the empty one included, is answered 200 with
    [{files, bucket}]. A bucket that lists no name under the prefix gives the
    empty list, hence 200 with [files = []]. *)
Theorem listing_none_is_500_empty_is_200 :
  forall w : world,
    exists files w',
      list_gcs_files storage_client bucket (Some "weather_") w = (Ret files, w')
      /\ list_weather_files_endpoint storage_client (Some bucket) w
          = (Ret (listing_response bucket files), w')
      /\ (status (listing_response bucket files) = 500 <-> files = None)
      /\ (files = None -> listing_response bucket files = list_failed_response)
      /\ (files = Some [] ->
          listing_response bucket files
          = {| body := PDict [("files", PList []); ("bucket", PStr bucket)]; status := 200 |})
      /\ (forall q,
          storage_client = true ->
          client_list_blobs bucket (Some "weather_") (remote w) = (Ret [], q) ->
          files = Some []).
Proof.
  intros w.
  destruct (list_gcs_files_returns (Some "weather_") w) as (files & w' & Hl).
  exists files, w'. split; [exact Hl |].
  split.
  { unfold list_weather_files_endpoint.
    rewrite (configured_bucket_set _ bucket_set).
    unfold bind. rewrite Hl. destruct files; reflexivity. }
  split.
  { destruct files; simpl; split; intros H; try discriminate; reflexivity. }
  split; [intros ->; reflexivity |].
  split; [intros ->; reflexivity |].
  intros q Hsc E. revert Hl. unfold list_gcs_files. rewrite Hsc. simpl. run.
  rewrite E. simpl. congruence.
Qed.

End Listing.

(** ** The storage key *)

Section Key.

Lemma string_app_assoc : forall a b c : string, (a ++ b) ++ c = a ++ (b ++ c).
Proof. induction a; intros; simpl; [reflexivity | rewrite IHa; reflexivity]. Qed.

Lemma str_replace_app :
  forall old new a b,
    str_replace old new (a ++ b) = str_replace old new a ++ str_replace old new b.
Proof.
  intros old new a b. induction a as [| c a IH]; simpl; [reflexivity |].
  rewrite IH. destruct (Ascii.eqb c old); simpl; [| reflexivity].
  symmetry. apply string_app_assoc.
Qed.

Lemma is_digit_not :
  forall c old, is_digit c = true -> is_digit old = false -> Ascii.eqb c old = false.
Proof.
  intros c old Hc Ho. destruct (Ascii.eqb_spec c old); [subst; congruence | reflexivity].
Qed.

Lemma str_replace_digits :
  forall old new s,
    is_digit old = false -> all_chars is_digit s = true -> str_replace old new s = s.
Proof.
  intros old new s Ho. induction s as [| c s IH]; simpl; [reflexivity |].
  intros H. apply andb_true_iff in H as [Hc Hs].
  rewrite (is_digit_not c old Hc Ho), (IH Hs). reflexivity.
Qed.

Lemma str_replace_hyphens : forall s, str_replace "-" "" s = strip_hyphens s.
Proof.
  unfold strip_hyphens. induction s as [| c s IH]; simpl; [reflexivity |].
  destruct (Ascii.eqb c "-"); simpl; rewrite IH; reflexivity.
Qed.

Lemma string_of_uint_digits :
  forall u, all_chars is_digit (NilEmpty.string_of_uint u) = true.
Proof. induction u; simpl; try rewrite IHu; reflexivity. Qed.

Lemma digits_all_digits : forall n, all_chars is_digit (digits n) = true.
Proof. intros n. apply string_of_uint_digits. Qed.

Lemma digits_nonempty : forall n, digits n <> EmptyString.
Proof.
  intros n. unfold digits. destruct (Z.to_N n) as [| p]; simpl; [discriminate |].
  pose proof (DecimalPos.Unsigned.to_uint_nonnil p) as Hp.
  destruct (Pos.to_uint p); simpl; try discriminate. contradiction.
Qed.

(** The digits read back as the number they were printed from. *)
Lemma digits_value :
  forall n, 0 <= n ->
    option_map (fun u => Z.of_N (N.of_uint u)) (NilEmpty.uint_of_string (digits n)) = Some n.
Proof.
  intros n Hn. unfold digits. rewrite NilEmpty.usu. simpl.
  rewrite DecimalN.Unsigned.of_to. rewrite Z2N.id by exact Hn. reflexivity.
Qed.

Lemma is_digit_digit_char : forall k, 0 <= k <= 9 -> is_digit (digit_char k) = true.
Proof.
  intros k Hk.
  assert (E : k = 0 \/ k = 1 \/ k = 2 \/ k = 3 \/ k = 4 \/ k = 5 \/ k = 6 \/ k = 7
              \/ k = 8 \/ k = 9) by lia.
  repeat (destruct E as [-> | E]; [reflexivity |]). subst; reflexivity.
Qed.

Lemma round_half_even_nearest :
  forall n d, 0 < d -> 2 * Z.abs (n - round_half_even n d * d) <= d.
Proof.
  intros n d Hd. unfold round_half_even.
  pose proof (Z.div_mod n d ltac:(lia)) as E.
  pose proof (Z.mod_pos_bound n d Hd) as B.
  set (q := n / d) in *. set (r := n mod d) in *.
  destruct (Z.compare_spec (2 * r) d) as [C | C | C].
  - destruct (Z.even q); nia.
  - nia.
  - nia.
Qed.

Lemma round_half_even_nonneg :
  forall n d, 0 <= n -> 0 < d -> 0 <= round_half_even n d.
Proof.
  intros n d Hn Hd. unfold round_half_even.
  pose proof (Z.div_pos n d Hn Hd) as Q.
  destruct (2 * (n mod d) ?= d); [destruct (Z.even (n / d)) | |]; lia.
Qed.

Lemma hundredths_nearest :
  forall s m e, nearest_hundredth (S754_finite s m e) s (hundredths m e).
Proof.
  intros s m e. unfold nearest_hundredth, hundredths.
  split; [reflexivity |].
  destruct e as [| k | k]; simpl Z.leb; cbv iota.
  - split; [lia | reflexivity].
  - split; [| reflexivity]. pose proof (Z.pow_pos_nonneg 2 (Zpos k)). lia.
  - assert (P : 0 < 2 ^ Zpos k) by (apply Z.pow_pos_nonneg; lia).
    split.
    + apply round_half_even_nonneg; lia.
    + change (- Zneg k) with (Zpos k). apply round_half_even_nearest. exact P.
Qed.

Lemma two_digits_range : forall h, 0 <= h mod 100 / 10 <= 9 /\ 0 <= h mod 100 mod 10 <= 9.
Proof.
  intros h. pose proof (Z.mod_pos_bound h 100 ltac:(lia)) as B.
  split.
  - pose proof (Z.div_pos (h mod 100) 10 ltac:(lia) ltac:(lia)).
    pose proof (Z.div_lt_upper_bound (h mod 100) 10 10 ltac:(lia) ltac:(lia)). lia.
  - pose proof (Z.mod_pos_bound (h mod 100) 10 ltac:(lia)). lia.
Qed.

(** Python's ".2f" text of a finite double, once the point is replaced, is the
    two-place text of the specification. *)
Lemma float_format_2f_two_places :
  forall x, is_finite x = true ->
    two_places_underscore x (str_replace "." "_" (float_format_2f x)).
Proof.
  intros x Hx.
  assert (G : forall neg h,
             nearest_hundredth x neg h ->
             two_places_underscore x (str_replace "." "_" (fixed2 neg h))).
  { intros neg h Hn. exists neg, h, (digits (h / 100)),
      (digit_char (h mod 100 / 10)), (digit_char (h mod 100 mod 10)).
    destruct (two_digits_range h) as [R1 R2].
    split; [exact Hn |].
    split.
    { unfold fixed2, two_digits. rewrite !str_replace_app.
      rewrite (str_replace_digits "." "_" (digits (h / 100)))
        by (reflexivity || apply digits_all_digits).
      assert (Es : str_replace "." "_" (if neg then "-" else "") = (if neg then "-" else ""))
        by (destruct neg; reflexivity).
      rewrite Es. f_equal. f_equal. simpl.
      rewrite (is_digit_not _ "."%char (is_digit_digit_char _ R1) eq_refl).
      rewrite (is_digit_not _ "."%char (is_digit_digit_char _ R2) eq_refl).
      reflexivity. }
    split; [reflexivity |].
    split; [apply digits_nonempty |].
    split; [apply digits_all_digits |].
    split; [reflexivity |].
    split; [apply is_digit_digit_char; exact R1 |].
    split; [reflexivity | apply is_digit_digit_char; exact R2]. }
  destruct x as [s | s | | s m e]; try discriminate; simpl.
  - apply G. simpl. split; reflexivity.
  - apply G. apply hundredths_nearest.
Qed.

(** C3. For coordinates that are finite numbers, [generate_filename] returns
    [weather_lat{LAT}_lon{LON}_from{START}_to{END}.json] where [LAT] and [LON]
    write the coordinate with exactly two decimal places and an underscore for
    the point, and [START] and [END] are the dates without their hyphens. It
    is a function: the same arguments give the same key. On
    (52.52, 13.41, "2023-03-01", "2023-03-03") the key is
    "weather_lat52_52_lon13_41_from20230301_to20230303.json". *)
Theorem generate_filename_derivation :
  (forall latitude longitude start_date end_date x y,
      as_float latitude = Ret x -> is_finite x = true ->
      as_float longitude = Ret y -> is_finite y = true ->
      exists LAT LON,
        generate_filename latitude longitude (PStr start_date) (PStr end_date)
          = Ret (compose_key LAT LON (strip_hyphens start_date) (strip_hyphens end_date))
        /\ two_places_underscore x LAT
        /\ two_places_underscore y LON)
  /\ generate_filename (PFloat (float_lit 5252 100)) (PFloat (float_lit 1341 100))
        (PStr "2023-03-01") (PStr "2023-03-03")
      = Ret "weather_lat52_52_lon13_41_from20230301_to20230303.json"
  /\ float_lit 5252 100 = S754_finite false 7391532888421827 (-47)
  /\ float_lit 1341 100 = S754_finite false 7549158875379794 (-49).
Proof.
  split; [| repeat split; vm_compute; reflexivity].
  intros la lo s e x y Hx Fx Hy Fy.
  exists (str_replace "." "_" (float_format_2f x)), (str_replace "." "_" (float_format_2f y)).
  split.
  - unfold generate_filename, format_2f. simpl py_replace. rewrite Hx, Hy. simpl rbind.
    rewrite !str_replace_hyphens. reflexivity.
  - split; apply float_format_2f_two_places; assumption.
Qed.

End Key.

(** ** Booleans as coordinates *)

Section Booleans.

Context {J : Json} {O : Outside}.
Variable storage_client : bool.
Variable bucket : string.
Hypothesis bucket_set : bucket <> EmptyString.

Local Abbreviation store := (store_weather_data_endpoint storage_client (Some bucket)).

Lemma upload_to_gcs_calls :
  forall b k data (w w' : world) r,
    upload_to_gcs storage_client b k data w = (r, w') ->
    calls w' = calls w \/ exists c, calls w' = c :: calls w.
Proof.
  intros b k data w w' r. unfold upload_to_gcs.
  destruct storage_client; simpl.
  - run. destruct (blob_upload_from_string b k data _ (remote w)) as [[u | ex] q]; simpl;
      intros H; inversion H; right; eexists; reflexivity.
  - unfold ret. intros H; inversion H. left; reflexivity.
Qed.

(** A validated request is answered 502, 201 or 500, or dies of an exception
    after the fetch; in every case the archive API has been called. *)
Lemma store_validated_outcome :
  forall req_data latitude longitude start_date end_date (w w' : world) r,
    validated req_data latitude longitude start_date end_date ->
    store (Ret req_data) w = (r, w') ->
    (forall resp, r = Ret resp -> status resp = 502 \/ status resp = 201 \/ status resp = 500)
    /\ In (HttpGet BASE_URL
            (query_params latitude longitude (PStr start_date) (PStr end_date)) 10)
          (calls w').
Proof.
  intros req la lo s e w w' r Hv.
  rewrite (store_validated storage_client bucket bucket_set _ _ _ _ _ w Hv).
  unfold bind at 1.
  destruct (fetch_weather_data la lo (PStr s) (PStr e) w) as [[v | ex] w1] eqn:F;
    pose proof (fetch_weather_data_calls _ _ _ _ _ _ _ F) as Hc.
  2:{ intros H; inversion H; subst. split; [discriminate | rewrite Hc; left; reflexivity]. }
  destruct (is_none v).
  { unfold ret. intros H; inversion H; subst.
    split; [intros ? E; inversion E; left; reflexivity | rewrite Hc; left; reflexivity]. }
  unfold bind at 1, lift at 1.
  destruct (generate_filename la lo (PStr s) (PStr e)) as [file_name | ex].
  2:{ intros H; inversion H; subst. split; [discriminate | rewrite Hc; left; reflexivity]. }
  unfold bind at 1, lift at 1.
  destruct (json_dumps_indent2 v) as [data | ex].
  2:{ intros H; inversion H; subst. split; [discriminate | rewrite Hc; left; reflexivity]. }
  unfold bind at 1.
  destruct (upload_to_gcs storage_client bucket file_name data w1) as [[up | ex] w2] eqn:U;
    pose proof (upload_to_gcs_calls _ _ _ _ _ _ U) as Hu.
  2:{ intros H; inversion H; subst. split; [discriminate |].
      destruct Hu as [-> | [c ->]]; rewrite Hc; simpl; auto. }
  assert (Hin : In (HttpGet BASE_URL (query_params la lo (PStr s) (PStr e)) 10) (calls w2)).
  { destruct Hu as [-> | [c ->]]; rewrite Hc; simpl; auto. }
  destruct up; unfold ret; intros H; inversion H; subst; (split; [| exact Hin]);
    intros ? E; inversion E; simpl; auto.
Qed.

Lemma format_2f_bool :
  forall b, format_2f (PBool b) = Ret (if b then "1.00" else "0.00").
Proof. intros []; vm_compute; reflexivity. Qed.

(** C9. A request whose latitude or longitude is a JSON boolean, the other
    coordinate a number and the dates valid, is not answered with the
    invalid-type response: [isinstance(True, (int, float))] holds, the checks
    pass and the archive API is called with the boolean. In the storage key
    [True] is written "1_00" and [False] "0_00". *)
Theorem boolean_coordinate_is_accepted :
  forall d (b : bool) (other : pyval) (start_date end_date : string) (w : world),
    isinstance_int_float other = true ->
    dict_lookup d "start_date" = Some (PStr start_date) ->
    dict_lookup d "end_date" = Some (PStr end_date) ->
    validate_date_format (PStr start_date) = Ret true ->
    validate_date_format (PStr end_date) = Ret true ->
    forall latitude longitude,
      (latitude = PBool b /\ longitude = other) \/ (latitude = other /\ longitude = PBool b) ->
      dict_lookup d "latitude" = Some latitude ->
      dict_lookup d "longitude" = Some longitude ->
      isinstance_int_float (PBool b) = true
      /\ fst (store (Ret (PDict d)) w) <> Ret invalid_type_response
      /\ In (HttpGet BASE_URL
              (query_params latitude longitude (PStr start_date) (PStr end_date)) 10)
            (calls (snd (store (Ret (PDict d)) w)))
      /\ format_2f (PBool b) = Ret (if b then "1.00" else "0.00")
      /\ (forall txt,
            format_2f other = Ret txt ->
            generate_filename (PBool b) other (PStr start_date) (PStr end_date)
              = Ret (compose_key (if b then "1_00" else "0_00") (str_replace "." "_" txt)
                       (strip_hyphens start_date) (strip_hyphens end_date))
            /\ generate_filename other (PBool b) (PStr start_date) (PStr end_date)
              = Ret (compose_key (str_replace "." "_" txt) (if b then "1_00" else "0_00")
                       (strip_hyphens start_date) (strip_hyphens end_date))).
Proof.
  intros d b other s e w To Hs He Vs Ve la lo Hcase Hla Hlo.
  assert (Tb : isinstance_int_float (PBool b) = true) by reflexivity.
  assert (Hv : validated (PDict d) la lo s e).
  { exists d. repeat split; try assumption;
      destruct Hcase as [[-> ->] | [-> ->]]; assumption. }
  destruct (store (Ret (PDict d)) w) as [r w'] eqn:E.
  destruct (store_validated_outcome _ _ _ _ _ _ _ _ Hv E) as [Hst Hin].
  split; [exact Tb |].
  split.
  { simpl. intros ->. destruct (Hst _ eq_refl) as [H | [H | H]]; discriminate. }
  split; [exact Hin |].
  split; [apply format_2f_bool |].
  intros txt Ht. unfold generate_filename. simpl py_replace.
  rewrite format_2f_bool, Ht. simpl rbind. rewrite !str_replace_hyphens.
  split; destruct b; reflexivity.
Qed.

End Booleans.

(** ** The date validator *)

Section Dates.

Lemma match_seq_sound :
  forall ks s w r, match_seq ks s = Some (w, r) -> s = w ++ r /\ seq_matches ks w = true.
Proof.
  induction ks as [| k ks IH]; intros s w r; simpl.
  - intros H; inversion H; subst. split; reflexivity.
  - destruct s as [| c s]; [discriminate |].
    destruct (cclass_test k c) eqn:T; [| discriminate].
    destruct (match_seq ks s) as [[w' r'] |] eqn:E; [| discriminate].
    intros H; inversion H; subst.
    destruct (IH _ _ _ E) as [-> Hm]. simpl. rewrite T, Hm. split; reflexivity.
Qed.

Lemma first_match_sound :
  forall (A : Type) (f : list cclass -> option A) alts x,
    first_match f alts = Some x -> exists a, In a alts /\ f a = Some x.
Proof.
  intros A f alts x. induction alts as [| a alts IH]; simpl; [discriminate |].
  destruct (f a) eqn:E.
  - intros H; inversion H; subst. exists a; auto.
  - intros H. destruct (IH H) as (a' & Hin & Hf). exists a'; auto.
Qed.

(** Whatever [re_match] returns is a word of the pattern followed by the rest. *)
Lemma re_match_sound :
  forall p s caps rest,
    re_match p s = Some (caps, rest) ->
    exists w, s = w ++ rest /\ pattern_matches p w caps.
Proof.
  induction p as [| [c | n alts] p IH]; intros s caps rest; simpl.
  - intros H; inversion H; subst. exists EmptyString. split; [reflexivity | constructor].
  - destruct s as [| c' s]; [discriminate |].
    destruct (Ascii.eqb_spec c' c) as [-> |]; [| discriminate].
    intros H. destruct (IH _ _ _ H) as (w & -> & Hw).
    exists (String c w). split; [reflexivity | constructor; exact Hw].
  - intros H. apply first_match_sound in H as (a & Hin & Ha).
    destruct (match_seq a s) as [[g r] |] eqn:E; [| discriminate].
    destruct (re_match p r) as [[caps' rest'] |] eqn:R; [| discriminate].
    inversion Ha; subst.
    destruct (match_seq_sound _ _ _ _ E) as [-> Hg].
    destruct (IH _ _ _ R) as (w & -> & Hw).
    exists (g ++ w). split; [symmetry; apply string_app_assoc |].
    econstructor; eassumption.
Qed.

Lemma crange_chars :
  forall lo hi c, cclass_test (CRange lo hi) c = true -> In c (chars_between lo hi).
Proof.
  intros lo hi c H. simpl in H. apply andb_true_iff in H as [H1 H2].
  apply N.leb_le in H1, H2. unfold chars_between.
  rewrite <- (ascii_nat_embedding c). apply in_map. apply in_seq. lia.
Qed.

Lemma is_digit_chars : forall c, is_digit c = true -> In c (chars_between "0" "9").
Proof. intros c H. apply crange_chars. exact H. Qed.

Lemma lookup_text_In : forall texts g n, lookup_text texts g = Some n -> In (g, n) texts.
Proof.
  induction texts as [| [t k] texts IH]; simpl; [discriminate |].
  intros g n. destruct (String.eqb_spec t g) as [-> |].
  - intros H; inversion H; auto.
  - intros H. right. apply IH. exact H.
Qed.

Lemma month_group_sound :
  forall a g,
    In a [[CLit "1"; CRange "0" "2"]; [CLit "0"; CRange "1" "9"]; [CRange "1" "9"]] ->
    seq_matches a g = true ->
    exists m, In (g, m) month_texts /\ py_int g = Ret m.
Proof.
  intros a g Ha Hg.
  assert (L : exists m, lookup_text month_texts g = Some m /\ py_int g = Ret m).
  { simpl in Ha. destruct Ha as [<- | [<- | [<- | []]]].
    - destruct g as [| c1 [| c2 [| c3 g]]]; group_cases Hg.
      apply Ascii.eqb_eq in T. subst c1. apply crange_chars in T0.
      enumerate T0; eexists; split; vm_compute; reflexivity.
    - destruct g as [| c1 [| c2 [| c3 g]]]; group_cases Hg.
      apply Ascii.eqb_eq in T. subst c1. apply crange_chars in T0.
      enumerate T0; eexists; split; vm_compute; reflexivity.
    - destruct g as [| c1 [| c2 g]]; group_cases Hg.
      apply crange_chars in T.
      enumerate T; eexists; split; vm_compute; reflexivity. }
  destruct L as (m & Hl & Hp). exists m. split; [apply lookup_text_In; exact Hl | exact Hp].
Qed.

Lemma day_group_sound :
  forall a g,
    In a [[CLit "3"; CRange "0" "1"]; [CRange "1" "2"; CDigit]; [CLit "0"; CRange "1" "9"];
          [CRange "1" "9"]; [CLit " "; CRange "1" "9"]] ->
    seq_matches a g = true ->
    exists d, In (g, d) day_texts /\ py_int g = Ret d.
Proof.
  intros a g Ha Hg.
  assert (L : exists d, lookup_text day_texts g = Some d /\ py_int g = Ret d).
  { simpl in Ha. destruct Ha as [<- | [<- | [<- | [<- | [<- | []]]]]].
    - destruct g as [| c1 [| c2 [| c3 g]]]; group_cases Hg.
      apply Ascii.eqb_eq in T. subst c1. apply crange_chars in T0.
      enumerate T0; eexists; split; vm_compute; reflexivity.
    - destruct g as [| c1 [| c2 [| c3 g]]]; group_cases Hg.
      apply crange_chars in T. apply is_digit_chars in T0.
      enumerate T; enumerate T0; eexists; split; vm_compute; reflexivity.
    - destruct g as [| c1 [| c2 [| c3 g]]]; group_cases Hg.
      apply Ascii.eqb_eq in T. subst c1. apply crange_chars in T0.
      enumerate T0; eexists; split; vm_compute; reflexivity.
    - destruct g as [| c1 [| c2 g]]; group_cases Hg.
      apply crange_chars in T.
      enumerate T; eexists; split; vm_compute; reflexivity.
    - destruct g as [| c1 [| c2 [| c3 g]]]; group_cases Hg.
      apply Ascii.eqb_eq in T. subst c1. apply crange_chars in T0.
      enumerate T0; eexists; split; vm_compute; reflexivity. }
  destruct L as (d & Hl & Hp). exists d. split; [apply lookup_text_In; exact Hl | exact Hp].
Qed.

Lemma year_group_sound :
  forall a g,
    In a [[CDigit; CDigit; CDigit; CDigit]] ->
    seq_matches a g = true ->
    exists y1 y2 y3 y4,
      g = String y1 (String y2 (String y3 (String y4 EmptyString)))
      /\ is_digit y1 = true /\ is_digit y2 = true /\ is_digit y3 = true /\ is_digit y4 = true.
Proof.
  intros a g [<- | []] Hg.
  destruct g as [| y1 [| y2 [| y3 [| y4 [| y5 g]]]]]; group_cases Hg.
  exists y1, y2, y3, y4. auto.
Qed.

Lemma lstrip_spaces_digit :
  forall c s, is_digit c = true -> lstrip_spaces (String c s) = String c s.
Proof.
  intros c s H. apply is_digit_chars in H. enumerate H; reflexivity.
Qed.

Lemma py_int_year :
  forall y1 y2 y3 y4,
    is_digit y1 = true -> is_digit y2 = true -> is_digit y3 = true -> is_digit y4 = true ->
    py_int (String y1 (String y2 (String y3 (String y4 EmptyString))))
    = Ret (1000 * digit_value y1 + 100 * digit_value y2 + 10 * digit_value y3 + digit_value y4).
Proof.
  intros y1 y2 y3 y4 H1 H2 H3 H4. unfold py_int.
  rewrite (lstrip_spaces_digit _ _ H1). cbn [int_of_digits].
  rewrite H1, H2, H3, H4. f_equal. ring.
Qed.

(** The year group consumes four digits and hands the rest to the rest of
    the pattern. *)
Lemma re_match_year :
  forall y1 y2 y3 y4 t,
    is_digit y1 = true -> is_digit y2 = true -> is_digit y3 = true -> is_digit y4 = true ->
    re_match format_regex (String y1 (String y2 (String y3 (String y4 t))))
    = match re_match month_day_regex t with
      | Some (caps, rest) =>
          Some (("Y", String y1 (String y2 (String y3 (String y4 EmptyString)))) :: caps, rest)
      | None => None
      end.
Proof.
  intros y1 y2 y3 y4 t H1 H2 H3 H4.
  unfold month_day_regex, format_regex. cbn [tl].
  generalize (ILit "-"
              :: IGroup "m" [[CLit "1"; CRange "0" "2"]; [CLit "0"; CRange "1" "9"];
                             [CRange "1" "9"]]
              :: ILit "-"
              :: IGroup "d" [[CLit "3"; CRange "0" "1"]; [CRange "1" "2"; CDigit];
                             [CLit "0"; CRange "1" "9"]; [CRange "1" "9"];
                             [CLit " "; CRange "1" "9"]] :: nil).
  intros p.
  cbn [re_match first_match match_seq cclass_test]. rewrite H1, H2, H3, H4.
  destruct (re_match p t) as [[caps rest] |]; reflexivity.
Qed.

Lemma month_day_all_ok :
  forallb (fun Mm => forallb (month_day_ok Mm) day_texts) month_texts = true.
Proof. vm_compute. reflexivity. Qed.

Lemma padded_months_incl : forall x, In x padded_months -> In x month_texts.
Proof. intros x H. unfold month_texts. apply in_or_app; auto. Qed.

Lemma padded_days_incl : forall x, In x padded_days -> In x day_texts.
Proof. intros x H. unfold day_texts. apply in_or_app; auto. Qed.

(** Every text of the accepted form is accepted. *)
Lemma accepted_date_text_validates :
  forall s, accepted_date_text s -> validate_date_format (PStr s) = Ret true.
Proof.
  intros s (y1 & y2 & y3 & y4 & M & D & m & d & H1 & H2 & H3 & H4 & HM & HD & -> & Hok).
  pose proof month_day_all_ok as A.
  rewrite forallb_forall in A. specialize (A _ HM).
  rewrite forallb_forall in A. specialize (A _ HD).
  unfold month_day_ok in A. simpl fst in A. simpl snd in A.
  unfold validate_date_format, strptime_ymd.
  rewrite (re_match_year _ _ _ _ _ H1 H2 H3 H4).
  destruct (re_match month_day_regex ("-" ++ M ++ "-" ++ D))
    as [[[| [n1 M'] [| [n2 D'] [| ? ?]]] [| ? ?]] |]; try discriminate.
  repeat match goal with
         | H : (_ && _) = true |- _ => apply andb_true_iff in H; destruct H
         | H : String.eqb _ _ = true |- _ => apply String.eqb_eq in H; subst
         end.
  cbn [String.eqb negb]. simpl group.
  rewrite (py_int_year _ _ _ _ H1 H2 H3 H4). cbn [rbind].
  destruct (py_int M) as [m' |]; [| discriminate].
  destruct (py_int D) as [d' |]; [| discriminate].
  repeat match goal with
         | H : res_is Z.eqb (Ret _) _ = true |- _ => simpl in H; apply Z.eqb_eq in H; subst
         end.
  cbn [rbind]. rewrite Hok. reflexivity.
Qed.

(** Every accepted text is of the accepted form. *)
Lemma validates_accepted_date_text :
  forall s, validate_date_format (PStr s) = Ret true -> accepted_date_text s.
Proof.
  intros s. unfold validate_date_format, strptime_ymd.
  destruct (re_match format_regex s) as [[found rest] |] eqn:R; [| discriminate].
  destruct (String.eqb_spec rest "") as [-> |]; [| discriminate]. cbn [negb].
  apply re_match_sound in R as (w & -> & Hw).
  unfold format_regex in Hw.
  inversion Hw as [| | n alts aY gY p1 w1 caps1 HaY HgY Hw1]; subst; clear Hw.
  inversion Hw1 as [| c p2 w2 caps2 Hw2 |]; subst; clear Hw1.
  inversion Hw2 as [| | n alts aM gM p3 w3 caps3 HaM HgM Hw3]; subst; clear Hw2.
  inversion Hw3 as [| c p4 w4 caps4 Hw4 |]; subst; clear Hw3.
  inversion Hw4 as [| | n alts aD gD p5 w5 caps5 HaD HgD Hw5]; subst; clear Hw4.
  inversion Hw5; subst; clear Hw5.
  destruct (year_group_sound _ _ HaY HgY) as (y1 & y2 & y3 & y4 & -> & H1 & H2 & H3 & H4).
  destruct (month_group_sound _ _ HaM HgM) as (m & HM & Pm).
  destruct (day_group_sound _ _ HaD HgD) as (d & HD & Pd).
  simpl group. rewrite (py_int_year _ _ _ _ H1 H2 H3 H4), Pm, Pd. cbn [rbind].
  destruct (date_ok _ m d) eqn:Hok; [| discriminate]. intros _.
  exists y1, y2, y3, y4, gM, gD, m, d.
  repeat (split; [assumption |]). split; [| exact Hok].
  simpl. rewrite !string_app_assoc. simpl.
  assert (E : forall x, x ++ EmptyString = x)
    by (induction x; simpl; [| rewrite IHx]; reflexivity).
  rewrite !E. reflexivity.
Qed.

(** The validator accepts a text exactly when it is a four-digit year, a
    month and a day, each zero-padded or a single digit (the day also a blank
    and a digit), hyphens between, naming a real day. *)
Lemma validate_date_format_accepts_iff :
  forall s, validate_date_format (PStr s) = Ret true <-> accepted_date_text s.
Proof.
  intros s. split; [apply validates_accepted_date_text | apply accepted_date_text_validates].
Qed.

(** On a string the validator never raises: it answers true or false. *)
Lemma validate_date_format_total :
  forall s, exists b, validate_date_format (PStr s) = Ret b.
Proof.
  intros s. unfold validate_date_format, strptime_ymd.
  destruct (re_match format_regex s) as [[found rest] |]; [| eexists; reflexivity].
  destruct (negb (String.eqb rest "")); [eexists; reflexivity |].
  assert (P : forall t, exists r, py_int t = r /\ (r = Raise ValueError \/ exists n, r = Ret n)).
  { intros t. eexists; split; [reflexivity |]. unfold py_int.
    assert (Q : forall u acc, int_of_digits acc u = Raise ValueError
                              \/ exists n, int_of_digits acc u = Ret n).
    { induction u as [| c u IH]; intros acc; simpl; [right; eexists; reflexivity |].
      destruct (is_digit c); [apply IH | left; reflexivity]. }
    destruct (lstrip_spaces t); [left; reflexivity | apply Q]. }
  destruct (P (group found "Y")) as (? & -> & [-> | [y ->]]); [eexists; reflexivity |].
  destruct (P (group found "m")) as (? & -> & [-> | [m ->]]); [eexists; reflexivity |].
  destruct (P (group found "d")) as (? & -> & [-> | [d ->]]); [eexists; reflexivity |].
  simpl. destruct (date_ok y m d); eexists; reflexivity.
Qed.

(** Every zero-padded real date is accepted. *)
Lemma iso_date_text_validates :
  forall s, iso_date_text s -> validate_date_format (PStr s) = Ret true.
Proof.
  intros s (y1 & y2 & y3 & y4 & M & D & m & d & H1 & H2 & H3 & H4 & HM & HD & E & Hok).
  apply accepted_date_text_validates.
  exists y1, y2, y3, y4, M, D, m, d.
  repeat (split; [assumption |]).
  split; [apply padded_months_incl; exact HM |].
  split; [apply padded_days_incl; exact HD |]. split; assumption.
Qed.

End Dates.

Lemma padded_text_length :
  forall texts M m,
    texts = padded_months \/ texts = padded_days -> In (M, m) texts -> String.length M = 2%nat.
Proof.
  intros texts M m [-> | ->] H; vm_compute in H;
    repeat (destruct H as [H | H]; [inversion H; reflexivity |]); contradiction.
Qed.

(** A zero-padded date text has ten characters. *)
Lemma iso_date_text_length : forall s, iso_date_text s -> String.length s = 10%nat.
Proof.
  intros s (y1 & y2 & y3 & y4 & M & D & m & d & _ & _ & _ & _ & HM & HD & -> & _).
  pose proof (padded_text_length _ _ _ (or_introl eq_refl) HM) as LM.
  pose proof (padded_text_length _ _ _ (or_intror eq_refl) HD) as LD.
  destruct M as [| a [| b [| ? ?]]]; try discriminate.
  destruct D as [| a' [| b' [| ? ?]]]; try discriminate.
  reflexivity.
Qed.

(** The examples of the specification: the validator accepts "2023-03-01" and
    rejects "2023-15-01", "01-03-2023" and "2023/03/01"; the check of the
    endpoint, [isinstance(v, str) and validate_date_format(v)], rejects what
    is not a string, where the bare validator raises [TypeError]. *)
Lemma date_validator_examples :
  validate_date_format (PStr "2023-03-01") = Ret true
  /\ validate_date_format (PStr "2023-15-01") = Ret false
  /\ validate_date_format (PStr "01-03-2023") = Ret false
  /\ validate_date_format (PStr "2023/03/01") = Ret false
  /\ (forall v, isinstance_str v = false ->
        date_field_ok v = Ret false /\ validate_date_format v = Raise TypeError).
Proof.
  repeat split; try (vm_compute; reflexivity);
    destruct v; try discriminate; reflexivity.
Qed.

Section InvalidDate.

Context {J : Json} {O : Outside}.
Variable storage_client : bool.
Variable bucket : string.
Hypothesis bucket_set : bucket <> EmptyString.

(** With the four keys present and the coordinates numbers, a date field that
    fails the check is answered 400 "Invalid date format", before any call. *)
Lemma failed_date_check_is_400 :
  forall d latitude longitude start_date end_date (w : world),
    dict_lookup d "latitude" = Some latitude ->
    dict_lookup d "longitude" = Some longitude ->
    dict_lookup d "start_date" = Some start_date ->
    dict_lookup d "end_date" = Some end_date ->
    isinstance_int_float latitude = true ->
    isinstance_int_float longitude = true ->
    start_date <> PNone -> end_date <> PNone ->
    date_field_ok start_date = Ret false \/ date_field_ok end_date = Ret false ->
    store_weather_data_endpoint storage_client (Some bucket) (Ret (PDict d)) w
    = (Ret invalid_date_response, w).
Proof.
  intros d la lo sd ed w Hla Hlo Hs He Tla Tlo Ns Ne Hbad.
  unfold store_weather_data_endpoint.
  rewrite (configured_bucket_set _ bucket_set).
  assert (Ht : truthy (PDict d) = true) by (destruct d; [discriminate | reflexivity]).
  rewrite Ht. simpl negb. cbv iota.
  assert (G : forall k v, dict_lookup d k = Some v -> py_get (PDict d) k = Ret v)
    by (intros k v E; simpl; rewrite E; reflexivity).
  unfold bind at 1, lift at 1. rewrite (G _ _ Hla).
  unfold bind at 1, lift at 1. rewrite (G _ _ Hlo).
  unfold bind at 1, lift at 1. rewrite (G _ _ Hs).
  unfold bind at 1, lift at 1. rewrite (G _ _ He).
  assert (Hm : missing_params (required_params la lo sd ed) = []).
  { unfold missing_params, required_params. simpl.
    destruct la; try discriminate; destruct lo; try discriminate;
      destruct sd; try contradiction; destruct ed; try contradiction; reflexivity. }
  rewrite Hm, Tla, Tlo. simpl negb. cbv iota.
  assert (Hd : forall v, exists b, date_field_ok v = Ret b).
  { intros v. unfold date_field_ok. destruct v; simpl; try (eexists; reflexivity).
    apply validate_date_format_total. }
  unfold bind at 1, lift at 1.
  destruct (Hd sd) as [bs Es]. rewrite Es.
  destruct bs.
  - destruct Hbad as [Hbad | Hbad]; [congruence |].
    unfold bind at 1, lift at 1. rewrite Hbad. reflexivity.
  - reflexivity.
Qed.

End InvalidDate.

(** C2. The validator accepts "2023-3-1", a date whose month and day are not
    zero-padded, and the endpoint lets the request through to the archive API
    (here answered 502, the archive being unreachable) instead of answering
    400 "Invalid date format ... Use YYYY-MM-DD". So do "2023-03- 1", with a
    blank for the zero. Two different accepted dates, "2023-1-11" and
    "2023-11-1", then give the same storage key. *)
Theorem unpadded_date_is_accepted :
  validate_date_format (PStr "2023-3-1") = Ret true
  /\ ~ iso_date_text "2023-3-1"
  /\ validate_date_format (PStr "2023-03- 1") = Ret true
  /\ store_weather_data_endpoint (J := InMemory.json) (O := InMemory.outside) true
       (Some "weather-bucket") (Ret unpadded_request) sample_world
     = (Ret upstream_failed_response,
        @Build_world InMemory.outside sample_store
          [HttpGet BASE_URL
             (query_params (PFloat (float_lit 5252 100)) (PFloat (float_lit 1341 100))
                (PStr "2023-3-1") (PStr "2023-03-03")) 10])
  /\ validate_date_format (PStr "2023-1-11") = Ret true
  /\ validate_date_format (PStr "2023-11-1") = Ret true
  /\ generate_filename (PInt 52) (PInt 13) (PStr "2023-1-11") (PStr "2023-12-31")
     = generate_filename (PInt 52) (PInt 13) (PStr "2023-11-1") (PStr "2023-12-31").
Proof.
  split; [vm_compute; reflexivity |].
  split; [intros H; apply iso_date_text_length in H; discriminate |].
  repeat split; vm_compute; reflexivity.
Qed.

(** ** Round trip *)

Section RoundTrip.

Context {J : Json} {O : Outside}.
Variable storage_client : bool.

(** Once [upload_to_gcs] has stored the pretty-printed text of [w] under the
    key [K], [get_gcs_file_content] on [K] returns [w]: the client writes the
    text it is given under the key it is given, and reads and parses the same
    object. *)
Lemma upload_then_get :
  forall (w : pyval) (bucket K text : string) (w0 w1 : world),
    json_representable w ->
    read_after_write O ->
    json_dumps_indent2 w = Ret text ->
    upload_to_gcs storage_client bucket K text w0 = (Ret true, w1) ->
    exists w2, get_gcs_file_content storage_client bucket K w1 = (Ret w, w2).
Proof.
  intros w b K text w0 w1 (text' & Hd & Hl) Hraw Hd' Hup.
  assert (text' = text) by congruence. subst text'.
  unfold upload_to_gcs in Hup. unfold get_gcs_file_content.
  destruct storage_client; simpl in *; [| inversion Hup].
  run.
  destruct (blob_upload_from_string b K text "application/json" (remote w0))
    as [[[] | ex] q] eqn:U; simpl in Hup; inversion Hup; subst; clear Hup.
  simpl. destruct (Hraw _ _ _ _ _ _ U) as (c1 & c2 & He & Hdl).
  rewrite He. simpl. rewrite Hdl. simpl. rewrite Hl. simpl.
  eexists; reflexivity.
Qed.

End RoundTrip.


(** ** From the POST to the GET *)

Section Served.

Context {J : Json} {O : Outside}.
Variable storage_client : bool.
Variable bucket : string.
Hypothesis bucket_set : bucket <> EmptyString.

Lemma generate_filename_nonempty :
  forall latitude longitude start_date end_date file_name,
    generate_filename latitude longitude start_date end_date = Ret file_name ->
    file_name <> EmptyString.
Proof.
  intros la lo s e fn. unfold generate_filename.
  destruct (py_replace s "-" ""); [| discriminate].
  destruct (py_replace e "-" ""); [| discriminate].
  destruct (format_2f la); [| discriminate].
  destruct (format_2f lo); [| discriminate].
  simpl. intros H; inversion H. discriminate.
Qed.

(** A record stored by a successful POST is what the GET of its [file_name]
    returns, when the record survives JSON and the bucket gives back what was
    put. *)
Lemma stored_record_is_served :
  forall req_data latitude longitude start_date end_date (w w1 : world) r,
    validated req_data latitude longitude start_date end_date ->
    read_after_write O ->
    store_weather_data_endpoint storage_client (Some bucket) (Ret req_data) w = (Ret r, w1) ->
    status r = 201 ->
    exists record file_name w0,
      fetch_weather_data latitude longitude (PStr start_date) (PStr end_date) w
        = (Ret record, w0)
      /\ generate_filename latitude longitude (PStr start_date) (PStr end_date)
          = Ret file_name
      /\ dict_lookup (match body r with PDict d => d | _ => [] end) "file_name"
          = Some (PStr file_name)
      /\ (json_representable record ->
          exists w2,
            weather_file_content_endpoint storage_client (Some bucket) file_name w1
            = (Ret {| body := record; status := 200 |}, w2)).
Proof.
  intros req la lo s e w w1 r Hv Hraw.
  rewrite (store_validated storage_client bucket bucket_set _ _ _ _ _ w Hv).
  unfold bind at 1.
  destruct (fetch_weather_data la lo (PStr s) (PStr e) w) as [[v | ex] w0] eqn:F;
    [| discriminate].
  destruct (is_none v) eqn:Nv.
  { unfold ret. intros H; inversion H; subst. discriminate. }
  unfold bind at 1, lift at 1.
  destruct (generate_filename la lo (PStr s) (PStr e)) as [fn | ex] eqn:G; [| discriminate].
  unfold bind at 1, lift at 1.
  destruct (json_dumps_indent2 v) as [data | ex] eqn:D; [| discriminate].
  unfold bind at 1.
  destruct (upload_to_gcs storage_client bucket fn data w0) as [[up | ex] w'] eqn:U;
    [| discriminate].
  destruct up; unfold ret; intros H; inversion H; subst; [| discriminate].
  intros _. exists v, fn, w0.
  repeat split; try reflexivity.
  intros Hrep.
  destruct (upload_then_get storage_client v bucket fn data w0 w1 Hrep Hraw D U)
    as [w2 Hg].
  exists w2. unfold weather_file_content_endpoint.
  rewrite (configured_bucket_set _ bucket_set).
  destruct (String.eqb_spec fn "") as [E | _];
    [exfalso; exact (generate_filename_nonempty _ _ _ _ _ G E) |].
  unfold bind. rewrite Hg, Nv. reflexivity.
Qed.

End Served.

(** ** The reference codec reads back what it writes *)

Section Codec.

Import InMemory.

Lemma pyval_nested_ind :
  forall P : pyval -> Prop,
    P PNone -> (forall b, P (PBool b)) -> (forall n, P (PInt n)) -> (forall x, P (PFloat x)) ->
    (forall s, P (PStr s)) ->
    (forall l, Forall P l -> P (PList l)) ->
    (forall d, Forall (fun kv => P (snd kv)) d -> P (PDict d)) ->
    forall v, P v.
Proof.
  intros P HN HB HI HF HS HL HD.
  fix IH 1.
  intros [| b | n | x | s | l | d];
    [apply HN | apply HB | apply HI | apply HF | apply HS | | ].
  - apply HL. induction l as [| x l IHl]; constructor; [apply IH | exact IHl].
  - apply HD. induction d as [| [k x] d IHd]; constructor; [apply IH | exact IHd].
Qed.

Lemma string_app_nil : forall s : string, s ++ EmptyString = s.
Proof. induction s; simpl; [| rewrite IHs]; reflexivity. Qed.

Lemma string_length_app :
  forall a b : string, String.length (a ++ b) = (String.length a + String.length b)%nat.
Proof. induction a; intros; simpl; [| rewrite IHa]; reflexivity. Qed.

Lemma skip_ws_spaces : forall n s, skip_ws (spaces n ++ s) = skip_ws s.
Proof. induction n; intros s; simpl; [reflexivity | apply IHn]. Qed.

Lemma skip_ws_line : forall k s, skip_ws (line k ++ s) = skip_ws s.
Proof. intros k s. unfold line. simpl. apply skip_ws_spaces. Qed.

Lemma skip_ws_start :
  forall c t, is_ws c = false -> skip_ws (String c t) = String c t.
Proof. intros c t H. simpl. unfold is_ws in H. rewrite H. reflexivity. Qed.

Lemma value_start_chars :
  forall c, value_start c = true ->
    In c (dquote :: list_ascii_of_string "[{-ntf0123456789").
Proof.
  intros c H. unfold value_start in H. apply existsb_exists in H as (x & Hin & Hx).
  apply Ascii.eqb_eq in Hx. subst; exact Hin.
Qed.

Lemma value_start_not_ws : forall c, value_start c = true -> is_ws c = false.
Proof. intros c H. apply value_start_chars in H. enumerate H; reflexivity. Qed.

Lemma is_digit_value_start : forall c, is_digit c = true -> value_start c = true.
Proof. intros c H. apply is_digit_chars in H. enumerate H; reflexivity. Qed.

Lemma decode_value_ws :
  forall fuel a b, skip_ws a = skip_ws b -> decode_value fuel a = decode_value fuel b.
Proof. intros [| fuel] a b H; simpl; [reflexivity | rewrite H; reflexivity]. Qed.

Lemma skip_ws_idem : forall s, skip_ws (skip_ws s) = skip_ws s.
Proof.
  induction s as [| c s IH]; simpl; [reflexivity |].
  destruct ((N_of_ascii c =? 32) || (N_of_ascii c =? 9) || (N_of_ascii c =? 10)
            || (N_of_ascii c =? 13))%N eqn:E; [exact IH |].
  simpl. rewrite E. reflexivity.
Qed.

(** *** Strings *)

Lemma scan_escape_char :
  forall c t,
    scan_string (escape_char c ++ t)
    = (let! r := scan_string t in Ret (String c (fst r), snd r)).
Proof.
  intros c t.
  destruct c as [[] [] [] [] [] [] [] []]; reflexivity.
Qed.

Lemma scan_string_escape :
  forall s rest, scan_string (escape s ++ String dquote rest) = Ret (s, rest).
Proof.
  induction s as [| c s IH]; intros rest.
  - reflexivity.
  - simpl escape. rewrite string_app_assoc, scan_escape_char, IH. reflexivity.
Qed.


(** *** Integers *)

Lemma digits_first :
  forall k, exists c t, digits k = String c t /\ is_digit c = true.
Proof.
  intros k. pose proof (digits_nonempty k) as Hn. pose proof (digits_all_digits k) as Hd.
  destruct (digits k) as [| c t]; [contradiction |].
  simpl in Hd. apply andb_true_iff in Hd as [Hc _]. exists c, t. auto.
Qed.

Lemma tail_ok_no_fraction : forall rest, tail_ok rest = true -> starts_fraction rest = false.
Proof.
  intros [| c t]; [reflexivity |]. unfold tail_ok. intros H.
  apply andb_true_iff in H as [_ H]. apply negb_true_iff in H. exact H.
Qed.

Lemma take_digits_app :
  forall d rest,
    all_chars is_digit d = true -> tail_ok rest = true ->
    take_digits (d ++ rest) = (d, rest).
Proof.
  induction d as [| c d IH]; intros rest Hd Hr; simpl.
  - destruct rest as [| c t]; [reflexivity |]. simpl.
    unfold tail_ok in Hr. apply andb_true_iff in Hr as [Hc _].
    apply negb_true_iff in Hc. rewrite Hc. reflexivity.
  - simpl in Hd. apply andb_true_iff in Hd as [Hc Hd]. rewrite Hc, (IH _ Hd Hr). reflexivity.
Qed.

Lemma nzhead_not_D0 : forall u l, Decimal.nzhead u <> Decimal.D0 l.
Proof. induction u; intros l; simpl; try discriminate. apply IHu. Qed.

Lemma leading_zero_digits : forall k, leading_zero (digits k) = false.
Proof.
  intros k. unfold digits. set (n := Z.to_N k).
  assert (U : Decimal.unorm (N.to_uint n) = N.to_uint n).
  { rewrite <- (DecimalN.Unsigned.to_of (N.to_uint n)).
    rewrite DecimalN.Unsigned.of_to. reflexivity. }
  destruct (N.to_uint n) as [| u | u | u | u | u | u | u | u | u | u];
    try reflexivity;
    try (simpl; destruct (NilEmpty.string_of_uint u); reflexivity).
  unfold Decimal.unorm in U. simpl Decimal.nzhead in U.
  destruct (Decimal.nzhead u) eqn:E;
    try (exfalso; apply (nzhead_not_D0 u u); rewrite E; exact U);
    try discriminate.
  inversion U; subst. reflexivity.
Qed.

Lemma int_of_digits_step :
  forall c acc s,
    is_digit c = true ->
    int_of_digits acc (String c s) = int_of_digits (10 * acc + digit_value c) s.
Proof. intros c acc s H. simpl. rewrite H. reflexivity. Qed.

Ltac digit_step :=
  cbn [NilEmpty.string_of_uint Pos.of_uint_acc Pos.of_uint];
  rewrite int_of_digits_step by reflexivity;
  match goal with
  | |- context [digit_value ?c] =>
      let v := eval vm_compute in (digit_value c) in change (digit_value c) with v
  end.

Lemma int_of_digits_acc :
  forall l acc,
    int_of_digits (Zpos acc) (NilEmpty.string_of_uint l) = Ret (Zpos (Pos.of_uint_acc l acc)).
Proof.
  induction l; intros acc; [reflexivity | ..];
    digit_step;
    match goal with
    | |- int_of_digits ?z _ = Ret (Zpos (Pos.of_uint_acc _ ?a)) =>
        replace z with (Zpos a) by lia
    end; apply IHl.
Qed.

Lemma int_of_digits_uint :
  forall l, int_of_digits 0 (NilEmpty.string_of_uint l) = Ret (Z.of_N (Pos.of_uint l)).
Proof.
  induction l; [reflexivity | ..]; digit_step; [exact IHl | ..];
    match goal with
    | |- int_of_digits ?z _ = Ret (Z.of_N (Npos (Pos.of_uint_acc _ ?a))) =>
        replace z with (Zpos a) by lia
    end; apply int_of_digits_acc.
Qed.

Lemma int_of_digits_digits : forall k, 0 <= k -> int_of_digits 0 (digits k) = Ret k.
Proof.
  intros k Hk. unfold digits. rewrite int_of_digits_uint.
  change (Pos.of_uint (N.to_uint (Z.to_N k))) with (N.of_uint (N.to_uint (Z.to_N k))).
  rewrite DecimalN.Unsigned.of_to, Z2N.id by exact Hk. reflexivity.
Qed.

Lemma scan_int_digits :
  forall neg k rest,
    0 <= k -> tail_ok rest = true ->
    scan_int neg (digits k ++ rest) = Ret (PInt (if neg then - k else k), rest).
Proof.
  intros neg k rest Hk Hr. unfold scan_int.
  rewrite (take_digits_app _ _ (digits_all_digits k) Hr).
  destruct (String.eqb_spec (digits k) "") as [E | _];
    [exfalso; exact (digits_nonempty k E) |].
  rewrite leading_zero_digits, (tail_ok_no_fraction _ Hr), (int_of_digits_digits _ Hk).
  reflexivity.
Qed.

(** *** One step of [decode_value], by the first character *)

Lemma decode_value_digit :
  forall fuel s c t,
    skip_ws s = String c t -> is_digit c = true ->
    decode_value (S fuel) s = scan_int false (String c t).
Proof.
  intros fuel s c t Hs Hc. simpl. rewrite Hs.
  apply is_digit_chars in Hc. enumerate Hc; reflexivity.
Qed.

Lemma decode_value_minus :
  forall fuel s t, skip_ws s = String "-" t -> decode_value (S fuel) s = scan_int true t.
Proof. intros fuel s t Hs. simpl. rewrite Hs. reflexivity. Qed.

Lemma decode_value_quote :
  forall fuel s t,
    skip_ws s = String dquote t ->
    decode_value (S fuel) s = (let! r := scan_string t in Ret (PStr (fst r), snd r)).
Proof. intros fuel s t Hs. simpl. rewrite Hs. reflexivity. Qed.

Lemma decode_value_bracket :
  forall fuel s t,
    skip_ws s = String "[" t ->
    decode_value (S fuel) s
    = match skip_ws t with
      | String c2 t' =>
          if Ascii.eqb c2 "]" then Ret (PList [], t')
          else decode_items (decode_value fuel) (String.length t) [] t
      | EmptyString => Raise JSONDecodeError
      end.
Proof. intros fuel s t Hs. simpl. rewrite Hs. reflexivity. Qed.

Lemma decode_value_brace :
  forall fuel s t,
    skip_ws s = String "{" t ->
    decode_value (S fuel) s
    = match skip_ws t with
      | String c2 t' =>
          if Ascii.eqb c2 "}" then Ret (PDict [], t')
          else decode_members (decode_value fuel) (String.length t) [] t
      | EmptyString => Raise JSONDecodeError
      end.
Proof. intros fuel s t Hs. simpl. rewrite Hs. reflexivity. Qed.


(** *** The text of a value *)

Lemma res_map_Forall2 :
  forall (A B : Type) (f : A -> res B) l items,
    res_map f l = Ret items -> Forall2 (fun x t => f x = Ret t) l items.
Proof.
  intros A B f. induction l as [| x l IH]; intros items; simpl.
  - intros H; inversion H; constructor.
  - destruct (f x) as [t |] eqn:E; [| discriminate]. simpl.
    destruct (res_map f l) as [ts |]; [| discriminate]. simpl.
    intros H; inversion H; subst. constructor; [exact E | apply IH; reflexivity].
Qed.

Lemma encode_list_eq :
  forall lvl x l,
    encode lvl (PList (x :: l))
    = (let! items := res_map (encode (S lvl)) (x :: l) in
       Ret ("[" ++ line (S lvl) ++ String.concat ("," ++ line (S lvl)) items
            ++ line lvl ++ "]")).
Proof. reflexivity. Qed.

Lemma encode_dict_eq :
  forall lvl kv d,
    encode lvl (PDict (kv :: d))
    = (let! items :=
         res_map (fun kv => let! t := encode (S lvl) (snd kv) in
                            Ret (quote (fst kv) ++ ": " ++ t)) (kv :: d) in
       Ret ("{" ++ line (S lvl) ++ String.concat ("," ++ line (S lvl)) items
            ++ line lvl ++ "}")).
Proof. reflexivity. Qed.

Lemma encode_start :
  forall lvl v text,
    encode lvl v = Ret text -> exists c t, text = String c t /\ value_start c = true.
Proof.
  intros lvl [| [] | n | x | s | [| x l] | [| kv d]] text H.
  - inversion H. eexists; eexists; split; reflexivity.
  - inversion H. eexists; eexists; split; reflexivity.
  - inversion H. eexists; eexists; split; reflexivity.
  - inversion H; subst. unfold int_text. destruct (n <? 0).
    + eexists; eexists; split; reflexivity.
    + destruct (digits_first n) as (c & t & E & Hc). rewrite E.
      exists c, t. split; [reflexivity | apply is_digit_value_start; exact Hc].
  - discriminate.
  - inversion H. eexists; eexists; split; reflexivity.
  - inversion H. eexists; eexists; split; reflexivity.
  - rewrite encode_list_eq in H.
    destruct (res_map (encode (S lvl)) (x :: l)); [| discriminate].
    inversion H. eexists; eexists; split; reflexivity.
  - inversion H. eexists; eexists; split; reflexivity.
  - rewrite encode_dict_eq in H.
    destruct (res_map _ (kv :: d)); [| discriminate].
    inversion H. eexists; eexists; split; reflexivity.
Qed.

Lemma skip_ws_encoded :
  forall lvl v text rest, encode lvl v = Ret text -> skip_ws (text ++ rest) = text ++ rest.
Proof.
  intros lvl v text rest H. destruct (encode_start _ _ _ H) as (c & t & -> & Hc).
  simpl. apply skip_ws_start. apply value_start_not_ws. exact Hc.
Qed.

Lemma tail_ok_line : forall k s, tail_ok (line k ++ s) = true.
Proof. reflexivity. Qed.

Lemma concat_single : forall sep (a : string), String.concat sep [a] = a.
Proof. reflexivity. Qed.

Lemma concat_cons2 :
  forall sep (a b : string) l,
    String.concat sep (a :: b :: l) = a ++ sep ++ String.concat sep (b :: l).
Proof. reflexivity. Qed.

(** *** Arrays *)

Lemma decode_items_encoded :
  forall (value : string -> res (pyval * string)) lvl rest l items,
    Forall2 (fun x t => encode (S lvl) x = Ret t) l items ->
    (forall x t tail s,
        In x l -> encode (S lvl) x = Ret t -> tail_ok tail = true ->
        skip_ws s = t ++ tail -> value s = Ret (x, tail)) ->
    l <> [] ->
    forall acc n,
      (List.length l <= n)%nat ->
      decode_items value n acc
        (line (S lvl) ++ String.concat ("," ++ line (S lvl)) items
         ++ line lvl ++ "]" ++ rest)
      = Ret (PList (rev acc ++ l), rest).
Proof.
  intros value lvl rest l items HF.
  induction HF as [| x t l ts Hx HF IH]; intros Hv Hne acc n Hn; [contradiction |].
  destruct n as [| n]; [simpl in Hn; lia |].
  destruct HF as [| x2 t2 l ts Hx2 HF].
  - (* the last item *)
    simpl String.concat. cbn [decode_items].
    match goal with
    | |- context [value ?s] =>
        rewrite (Hv x t (line lvl ++ "]" ++ rest) s);
          [| left; reflexivity | exact Hx | apply tail_ok_line
           | rewrite skip_ws_line; apply (skip_ws_encoded _ _ _ _ Hx)]
    end.
    cbn [rbind snd fst]. rewrite skip_ws_line. reflexivity.
  - rewrite concat_cons2. cbn [decode_items].
    rewrite !string_app_assoc.
    match goal with
    | |- context [value ?s] =>
        rewrite (Hv x t ("," ++ line (S lvl) ++ String.concat ("," ++ line (S lvl)) (t2 :: ts)
                         ++ line lvl ++ "]" ++ rest) s);
          [| left; reflexivity | exact Hx | reflexivity
           | rewrite skip_ws_line; apply (skip_ws_encoded _ _ _ _ Hx)]
    end.
    cbn [rbind snd fst].
    change (skip_ws ("," ++ ?x)) with ("," ++ x).
    cbn [append]. cbv iota. cbn [Ascii.eqb Bool.eqb]. cbv iota.
    assert (Hv' : forall x0 t0 tail s,
               In x0 (x2 :: l) -> encode (S lvl) x0 = Ret t0 -> tail_ok tail = true ->
               skip_ws s = t0 ++ tail -> value s = Ret (x0, tail))
      by (intros x0 t0 tail s Hin; apply Hv; right; exact Hin).
    pose proof (IH Hv' ltac:(discriminate) (x :: acc) n ltac:(simpl in *; lia)) as E.
    etransitivity; [exact E |]. simpl. rewrite <- app_assoc. reflexivity.
Qed.


(** *** Objects *)

Lemma distinct_app_fresh :
  forall a k b,
    distinct (a ++ k :: b)%list = true -> forall k', In k' a -> String.eqb k' k = false.
Proof.
  induction a as [| k0 a IH]; intros k b H k' Hin; [contradiction |].
  simpl in H. apply andb_true_iff in H as [H0 H].
  destruct Hin as [<- | Hin]; [| apply (IH _ _ H _ Hin)].
  apply negb_true_iff in H0.
  destruct (String.eqb_spec k0 k) as [-> |]; [| reflexivity].
  rewrite existsb_app in H0. simpl in H0. rewrite String.eqb_refl in H0.
  rewrite orb_true_r in H0. discriminate.
Qed.

Lemma dict_set_fresh :
  forall acc k v,
    (forall k', In k' (map fst acc) -> String.eqb k' k = false) ->
    dict_set acc k v = (acc ++ [(k, v)])%list.
Proof.
  induction acc as [| [k0 v0] acc IH]; intros k v H; simpl; [reflexivity |].
  rewrite (H k0) by (left; reflexivity).
  rewrite IH; [reflexivity |]. intros k' Hin. apply H. right. exact Hin.
Qed.

Lemma scan_string_quote :
  forall k rest, scan_string (escape k ++ String dquote EmptyString ++ rest) = Ret (k, rest).
Proof. intros k rest. apply scan_string_escape. Qed.

Ltac input_is T :=
  match goal with
  | |- context [skip_ws ?s] =>
      replace s with T
        by (reflexivity
            || (unfold quote;
                repeat (progress (cbn [append]) || rewrite string_app_assoc);
                reflexivity))
  end.

Lemma decode_members_encoded :
  forall (value : string -> res (pyval * string)) lvl rest d items,
    Forall2 (fun kv t =>
               (let! tv := encode (S lvl) (snd kv) in Ret (quote (fst kv) ++ ": " ++ tv))
               = Ret t) d items ->
    (forall kv tv tail s,
        In kv d -> encode (S lvl) (snd kv) = Ret tv -> tail_ok tail = true ->
        skip_ws s = tv ++ tail -> value s = Ret (snd kv, tail)) ->
    d <> [] ->
    forall acc n,
      (List.length d <= n)%nat ->
      distinct (map fst (acc ++ d)%list) = true ->
      decode_members value n acc
        (line (S lvl) ++ String.concat ("," ++ line (S lvl)) items
         ++ line lvl ++ "}" ++ rest)
      = Ret (PDict (acc ++ d), rest).
Proof.
  intros value lvl rest d items HF.
  induction HF as [| [k x] t d ts Hx HF IH]; intros Hv Hne acc n Hn Hd; [contradiction |].
  destruct n as [| n]; [simpl in Hn; lia |].
  simpl fst in Hx. simpl snd in Hx.
  destruct (encode (S lvl) x) as [tv |] eqn:Ex; [| discriminate].
  cbn [rbind] in Hx. injection Hx as <-.
  assert (Hfresh : dict_set acc k x = (acc ++ [(k, x)])%list).
  { apply dict_set_fresh. intros k' Hin.
    rewrite map_app in Hd. simpl in Hd. apply (distinct_app_fresh _ _ _ Hd _ Hin). }
  assert (Hstep : forall tail,
             tail_ok tail = true ->
             skip_ws (line (S lvl) ++ (quote k ++ ": " ++ tv) ++ tail)
             = String dquote (escape k ++ String dquote (": " ++ tv ++ tail))
             /\ value (" " ++ tv ++ tail) = Ret (x, tail)).
  { intros tail Ht. split.
    - rewrite skip_ws_line. unfold quote. cbn [append].
      rewrite skip_ws_start by reflexivity.
      rewrite !string_app_assoc. reflexivity.
    - apply (Hv (k, x) tv tail); [left; reflexivity | exact Ex | exact Ht |].
      cbn [append]. change (skip_ws (String " " ?u)) with (skip_ws u).
      apply (skip_ws_encoded _ _ _ _ Ex). }
  destruct HF as [| [k2 x2] t2 d ts Hx2 HF].
  - (* the last member *)
    rewrite concat_single. cbn [decode_members].
    destruct (Hstep (line lvl ++ "}" ++ rest) (tail_ok_line _ _)) as [E1 E2].
    input_is (line (S lvl) ++ (quote k ++ ": " ++ tv) ++ line lvl ++ "}" ++ rest).
    rewrite E1. cbv beta iota. rewrite Ascii.eqb_refl, scan_string_escape.
    cbn [rbind snd fst].
    change (skip_ws (": " ++ ?u)) with (String ":" (" " ++ u)).
    cbv beta iota. rewrite Ascii.eqb_refl, E2.
    cbn [rbind snd fst]. rewrite skip_ws_line. rewrite Hfresh. reflexivity.
  - rewrite concat_cons2. cbn [decode_members].
    destruct (Hstep ("," ++ line (S lvl) ++ String.concat ("," ++ line (S lvl)) (t2 :: ts)
                     ++ line lvl ++ "}" ++ rest) eq_refl) as [E1 E2].
    input_is (line (S lvl) ++ (quote k ++ ": " ++ tv) ++ "," ++ line (S lvl)
              ++ String.concat ("," ++ line (S lvl)) (t2 :: ts) ++ line lvl ++ "}" ++ rest).
    rewrite E1. cbv beta iota. rewrite Ascii.eqb_refl, scan_string_escape.
    cbn [rbind snd fst].
    change (skip_ws (": " ++ ?u)) with (String ":" (" " ++ u)).
    cbv beta iota. rewrite Ascii.eqb_refl, E2.
    cbn [rbind snd fst]. rewrite Hfresh.
    change (skip_ws ("," ++ ?u)) with ("," ++ u).
    cbn [append]. cbv beta iota. rewrite Ascii.eqb_refl.
    assert (Hv' : forall kv tv0 tail s,
               In kv ((k2, x2) :: d) -> encode (S lvl) (snd kv) = Ret tv0 ->
               tail_ok tail = true -> skip_ws s = tv0 ++ tail -> value s = Ret (snd kv, tail))
      by (intros kv tv0 tail s Hin; apply Hv; right; exact Hin).
    pose proof (IH Hv' ltac:(discriminate) (acc ++ [(k, x)])%list n ltac:(simpl in *; lia)) as E.
    rewrite <- app_assoc in E. simpl app in E. specialize (E Hd).
    etransitivity; [exact E |]. reflexivity.
Qed.


(** *** Values *)

Lemma max_depth_bound :
  forall (A : Type) (f : A -> nat) (l : list A) (b : nat),
    (fold_right (fun x m => Nat.max (f x) m) O l <= b)%nat ->
    forall x, In x l -> (f x <= b)%nat.
Proof.
  intros A f l b. induction l as [| y l IH]; intros H x Hin; [contradiction |].
  simpl in H. destruct Hin as [<- | Hin]; [lia | apply IH; [lia | exact Hin]].
Qed.

Lemma concat_length_items :
  forall sep items,
    Forall (fun t => t <> EmptyString) items ->
    (List.length items <= String.length (String.concat sep items))%nat.
Proof.
  intros sep items H. induction H as [| t items Ht H IH]; [simpl; lia |].
  destruct items as [| t2 items].
  - simpl. destruct t; [contradiction | simpl; lia].
  - rewrite concat_cons2, !string_length_app. cbn [List.length] in *.
    destruct t; [contradiction | cbn [String.length]; lia].
Qed.

Lemma encoded_items_nonempty :
  forall (A : Type) (g : A -> pyval) (wrap : A -> string -> string) lvl l items,
    (forall a t, wrap a t = EmptyString -> t = EmptyString) ->
    Forall2 (fun a t => exists tv, encode lvl (g a) = Ret tv /\ t = wrap a tv) l items ->
    List.length l = List.length items /\ Forall (fun t => t <> EmptyString) items.
Proof.
  intros A g wrap lvl l items Hw H. induction H as [| a t l items (tv & Ea & ->) H [IH1 IH2]].
  - split; [reflexivity | constructor].
  - split; [simpl; rewrite IH1; reflexivity |]. constructor; [| exact IH2].
    intros E. apply Hw in E. subst tv.
    destruct (encode_start _ _ _ Ea) as (c & t' & E' & _). discriminate.
Qed.

(** The parser reads a value back from its text, whatever admissible text
    follows, given fuel above the depth of the value. *)
Lemma decode_value_encode :
  forall v,
    plain_json v = true ->
    forall lvl text rest fuel s,
      encode lvl v = Ret text ->
      tail_ok rest = true ->
      (depth v < fuel)%nat ->
      skip_ws s = text ++ rest ->
      decode_value fuel s = Ret (v, rest).
Proof.
  induction v as [| b | n | x | str | l IHl | d IHd] using pyval_nested_ind;
    intros Hp lvl text rest fuel s He Hr Hf Hs;
    (destruct fuel as [| fuel]; [lia |]).
  - inversion He; subst. simpl. rewrite Hs. reflexivity.
  - destruct b; inversion He; subst; simpl; rewrite Hs; reflexivity.
  - inversion He; subst. unfold int_text in Hs. destruct (Z.ltb_spec n 0).
    + rewrite (decode_value_minus _ _ _ Hs).
      rewrite scan_int_digits by (lia || assumption). f_equal. f_equal. f_equal. lia.
    + destruct (digits_first n) as (c & t & E & Hc).
      assert (Hs2 : skip_ws s = String c (t ++ rest)) by (rewrite Hs, E; reflexivity).
      rewrite (decode_value_digit _ _ _ _ Hs2 Hc).
      pose proof (scan_int_digits false n rest ltac:(lia) Hr) as G.
      rewrite E in G. exact G.
  - discriminate.
  - inversion He; subst. unfold quote in Hs. cbn [append] in Hs.
    rewrite (decode_value_quote _ _ _ Hs).
    rewrite string_app_assoc. cbn [append]. rewrite scan_string_escape. reflexivity.
  - destruct l as [| x l].
    + inversion He; subst. rewrite (decode_value_bracket _ _ _ Hs). reflexivity.
    + rewrite encode_list_eq in He.
      destruct (res_map (encode (S lvl)) (x :: l)) as [items |] eqn:Em; [| discriminate].
      cbn [rbind] in He. injection He as <-.
      pose proof (res_map_Forall2 _ _ _ _ _ Em) as HF.
      assert (Hs' : skip_ws s
                    = String "[" (line (S lvl) ++ String.concat ("," ++ line (S lvl)) items
                                  ++ line lvl ++ "]" ++ rest)).
      { rewrite Hs. repeat (progress (cbn [append]) || rewrite string_app_assoc).
        reflexivity. }
      rewrite (decode_value_bracket _ _ _ Hs').
      assert (Hlen : List.length (x :: l) = List.length items
                     /\ Forall (fun t => t <> EmptyString) items).
      { apply (encoded_items_nonempty pyval (fun a => a) (fun _ t => t) (S lvl)).
        - intros; assumption.
        - clear -HF. induction HF; constructor; [eexists; split; [eassumption | reflexivity] |
                                                 assumption]. }
      destruct Hlen as [Hlen Hne].
      assert (Hfirst : exists c t,
                 skip_ws (line (S lvl) ++ String.concat ("," ++ line (S lvl)) items
                          ++ line lvl ++ "]" ++ rest) = String c t
                 /\ Ascii.eqb c "]" = false).
      { rewrite skip_ws_line. inversion HF as [| ? t0 ? ts0 Hx0 HF0]; subst.
        destruct (encode_start _ _ _ Hx0) as (c & t' & -> & Hc).
        exists c. destruct ts0; [rewrite concat_single | rewrite concat_cons2];
          cbn [append]; rewrite (skip_ws_start _ _ (value_start_not_ws _ Hc));
          eexists; (split; [reflexivity |]);
          apply value_start_chars in Hc; enumerate Hc; reflexivity. }
      destruct Hfirst as (c & t & Ec & Hc). rewrite Ec, Hc.
      rewrite (decode_items_encoded (decode_value fuel) lvl rest (x :: l) items HF).
      * reflexivity.
      * intros x0 t0 tail s0 Hin Hx0 Ht Hs0.
        rewrite Forall_forall in IHl.
        apply (IHl x0 Hin) with (lvl := S lvl) (text := t0); try assumption.
        -- change (forallb plain_json (x :: l) = true) in Hp.
           rewrite forallb_forall in Hp. apply (Hp x0 Hin).
        -- simpl in Hf.
           pose proof (max_depth_bound _ depth (x :: l) _ (Nat.le_refl _) x0 Hin).
           simpl in H. lia.
      * discriminate.
      * rewrite !string_length_app. rewrite Hlen.
        pose proof (concat_length_items ("," ++ line (S lvl)) items Hne). lia.
  - destruct d as [| kv d].
    + inversion He; subst. rewrite (decode_value_brace _ _ _ Hs). reflexivity.
    + rewrite encode_dict_eq in He.
      destruct (res_map _ (kv :: d)) as [items |] eqn:Em; [| discriminate].
      cbn [rbind] in He. injection He as <-.
      pose proof (res_map_Forall2 _ _ _ _ _ Em) as HF.
      assert (Hs' : skip_ws s
                    = String "{" (line (S lvl) ++ String.concat ("," ++ line (S lvl)) items
                                  ++ line lvl ++ "}" ++ rest)).
      { rewrite Hs. repeat (progress (cbn [append]) || rewrite string_app_assoc).
        reflexivity. }
      rewrite (decode_value_brace _ _ _ Hs').
      assert (Hlen : List.length (kv :: d) = List.length items
                     /\ Forall (fun t => t <> EmptyString) items).
      { apply (encoded_items_nonempty (string * pyval) snd
                 (fun a t => quote (fst a) ++ ": " ++ t) (S lvl)).
        - intros a t E. unfold quote in E. discriminate.
        - clear -HF. induction HF as [| a t ? ? Ha]; constructor; [| assumption].
          destruct (encode (S lvl) (snd a)) as [tv |]; [| discriminate].
          cbn [rbind] in Ha. injection Ha as <-. eexists; split; reflexivity. }
      destruct Hlen as [Hlen Hne].
      assert (Hfirst : exists t,
                 skip_ws (line (S lvl) ++ String.concat ("," ++ line (S lvl)) items
                          ++ line lvl ++ "}" ++ rest) = String dquote t).
      { rewrite skip_ws_line. inversion HF as [| ? t0 ? ts0 Hx0 HF0]; subst.
        destruct (encode (S lvl) (snd kv)) as [tv |]; [| discriminate].
        cbn [rbind] in Hx0. injection Hx0 as <-.
        destruct ts0; [rewrite concat_single | rewrite concat_cons2];
          unfold quote; cbn [append]; rewrite skip_ws_start by reflexivity;
          eexists; reflexivity. }
      destruct Hfirst as (t & Ec). rewrite Ec.
      change (Ascii.eqb dquote "}") with false. cbv iota.
      rewrite (decode_members_encoded (decode_value fuel) lvl rest (kv :: d) items HF).
      * reflexivity.
      * intros kv0 tv0 tail s0 Hin Hx0 Ht Hs0.
        rewrite Forall_forall in IHd.
        apply (IHd kv0 Hin) with (lvl := S lvl) (text := tv0); try assumption.
        -- change (distinct (map fst (kv :: d))
                   && forallb (fun kv => plain_json (snd kv)) (kv :: d) = true) in Hp.
           apply andb_true_iff in Hp as [_ Hp].
           rewrite forallb_forall in Hp. apply (Hp kv0 Hin).
        -- simpl in Hf.
           pose proof (max_depth_bound _ (fun kv => depth (snd kv)) (kv :: d) _
                         (Nat.le_refl _) kv0 Hin).
           simpl in H. lia.
      * discriminate.
      * rewrite !string_length_app. rewrite Hlen.
        pose proof (concat_length_items ("," ++ line (S lvl)) items Hne). lia.
      * change (distinct (map fst (kv :: d))
                && forallb (fun kv => plain_json (snd kv)) (kv :: d) = true) in Hp.
        apply andb_true_iff in Hp as [Hp _]. exact Hp.
Qed.


Lemma max_depth_concat :
  forall (A : Type) (g : A -> pyval) sep (l : list A) items,
    Forall2 (fun a t => (depth (g a) <= String.length t)%nat) l items ->
    (fold_right (fun a m => Nat.max (depth (g a)) m) O l
     <= String.length (String.concat sep items))%nat.
Proof.
  intros A g sep l items H. induction H as [| a t l items Ha H IH]; [simpl; lia |].
  destruct H as [| a2 t2 l items Ha2 H].
  - rewrite concat_single. simpl. lia.
  - rewrite concat_cons2, !string_length_app.
    change (fold_right (fun a m => Nat.max (depth (g a)) m) O (a :: a2 :: l))
      with (Nat.max (depth (g a))
              (fold_right (fun a m => Nat.max (depth (g a)) m) O (a2 :: l))).
    lia.
Qed.

Lemma depth_le_length :
  forall v lvl text, encode lvl v = Ret text -> (depth v <= String.length text)%nat.
Proof.
  induction v as [| b | n | x | str | l IHl | d IHd] using pyval_nested_ind;
    intros lvl text He; try (simpl; lia).
  - destruct l as [| x l]; [inversion He; simpl; lia |].
    rewrite encode_list_eq in He.
    destruct (res_map (encode (S lvl)) (x :: l)) as [items |] eqn:Em; [| discriminate].
    assert (E : text = "[" ++ line (S lvl) ++ String.concat ("," ++ line (S lvl)) items
                       ++ line lvl ++ "]") by (inversion He; reflexivity).
    clear He.
    pose proof (res_map_Forall2 _ _ _ _ _ Em) as HF.
    assert (HD : Forall2 (fun a t => (depth a <= String.length t)%nat) (x :: l) items).
    { clear -HF IHl. induction HF as [| a t ? ? Ha HF IH]; constructor.
      - inversion IHl; subst. eauto.
      - apply IH. inversion IHl; assumption. }
    pose proof (max_depth_concat pyval (fun a => a) ("," ++ line (S lvl)) _ _ HD) as Hm.
    change (depth (PList (x :: l)))
      with (S (fold_right (fun a m => Nat.max (depth a) m) O (x :: l))).
    cbv beta in Hm. rewrite E, !string_length_app. cbn [String.length]. lia.
  - destruct d as [| kv d]; [inversion He; simpl; lia |].
    rewrite encode_dict_eq in He.
    destruct (res_map _ (kv :: d)) as [items |] eqn:Em; [| discriminate].
    assert (E : text = "{" ++ line (S lvl) ++ String.concat ("," ++ line (S lvl)) items
                       ++ line lvl ++ "}") by (inversion He; reflexivity).
    clear He.
    pose proof (res_map_Forall2 _ _ _ _ _ Em) as HF.
    assert (HD : Forall2 (fun a t => (depth (snd a) <= String.length t)%nat) (kv :: d) items).
    { clear -HF IHd. induction HF as [| a t ? ? Ha HF IH]; constructor.
      - inversion IHd; subst.
        destruct (encode (S lvl) (snd a)) as [tv |] eqn:Ea; [| discriminate].
        cbn [rbind] in Ha.
        assert (Et : t = quote (fst a) ++ ": " ++ tv) by (inversion Ha; reflexivity).
        rewrite Et, !string_length_app.
        match goal with H : forall _ _, _ -> _ |- _ => pose proof (H _ _ Ea) end. lia.
      - apply IH. inversion IHd; assumption. }
    pose proof (max_depth_concat _ snd ("," ++ line (S lvl)) _ _ HD) as Hm.
    change (depth (PDict (kv :: d)))
      with (S (fold_right (fun a m => Nat.max (depth (snd a)) m) O (kv :: d))).
    cbv beta in Hm. rewrite E, !string_length_app. cbn [String.length]. lia.
Qed.

Lemma res_map_total :
  forall (A B : Type) (f : A -> res B) l,
    Forall (fun a => exists t, f a = Ret t) l -> exists items, res_map f l = Ret items.
Proof.
  intros A B f l H. induction H as [| a l (t & Ha) H (items & IH)]; simpl.
  - eexists; reflexivity.
  - rewrite Ha, IH. eexists; reflexivity.
Qed.

(** Every value without floats has a text. *)
Lemma encode_plain :
  forall v, plain_json v = true -> forall lvl, exists text, encode lvl v = Ret text.
Proof.
  induction v as [| b | n | x | str | l IHl | d IHd] using pyval_nested_ind;
    intros Hp lvl; try (eexists; reflexivity); try discriminate.
  - destruct b; eexists; reflexivity.
  - destruct l as [| x l]; [eexists; reflexivity |].
    rewrite encode_list_eq.
    change (forallb plain_json (x :: l) = true) in Hp. rewrite forallb_forall in Hp.
    destruct (res_map_total _ _ (encode (S lvl)) (x :: l)) as (items & ->);
      [| eexists; reflexivity].
    rewrite Forall_forall in *. intros a Hin. apply (IHl a Hin (Hp a Hin)).
  - destruct d as [| kv d]; [eexists; reflexivity |].
    rewrite encode_dict_eq.
    change (distinct (map fst (kv :: d))
            && forallb (fun kv => plain_json (snd kv)) (kv :: d) = true) in Hp.
    apply andb_true_iff in Hp as [_ Hp]. rewrite forallb_forall in Hp.
    match goal with
    | |- context [res_map ?f (kv :: d)] =>
        destruct (res_map_total _ _ f (kv :: d)) as (items & ->); [| eexists; reflexivity]
    end.
    rewrite Forall_forall in *. intros a Hin.
    destruct (IHd a Hin (Hp a Hin) (S lvl)) as (t & ->). eexists; reflexivity.
Qed.

(** The codec reads back what it writes. *)
Lemma decode_encode :
  forall v text, plain_json v = true -> encode 0 v = Ret text -> decode text = Ret v.
Proof.
  intros v text Hp He. unfold decode.
  rewrite (decode_value_encode v Hp 0%nat text EmptyString (S (String.length text)) text He
             eq_refl).
  - reflexivity.
  - pose proof (depth_le_length _ _ _ He). lia.
  - pose proof (skip_ws_encoded _ _ _ EmptyString He) as E.
    rewrite string_app_nil in *. exact E.
Qed.

(** Every JSON value without floats survives the reference codec. *)
Lemma plain_json_representable :
  forall v, plain_json v = true -> json_representable (J := InMemory.json) v.
Proof.
  intros v Hp. destruct (encode_plain v Hp 0%nat) as (text & He).
  exists text. split; [exact He | apply decode_encode; assumption].
Qed.

End Codec.

(** ** Round trip, in general and in the reference world *)

Lemma find_put_object :
  forall objs k data, InMemory.find_object (InMemory.put_object objs k data) k = Some data.
Proof.
  induction objs as [| [k' d'] objs IH]; intros k data; simpl.
  - rewrite String.eqb_refl. reflexivity.
  - destruct (String.eqb_spec k' k) as [-> | Hne]; simpl.
    + rewrite String.eqb_refl. reflexivity.
    + destruct (String.eqb_spec k' k); [contradiction | apply IH].
Qed.

Lemma find_set_bucket :
  forall bs b objs objs',
    InMemory.find_bucket bs b = Some objs ->
    InMemory.find_bucket (InMemory.set_bucket bs b objs') b = Some objs'.
Proof.
  induction bs as [| [b' o] bs IH]; intros b objs objs'; simpl; [discriminate |].
  destruct (String.eqb_spec b' b) as [-> | Hne]; simpl.
  - rewrite String.eqb_refl. reflexivity.
  - destruct (String.eqb_spec b' b); [contradiction | apply IH].
Qed.

(** The buckets held in memory give back what was put. *)
Lemma in_memory_read_after_write : read_after_write InMemory.outside.
Proof.
  intros b k data ct c c'. simpl. unfold InMemory.upload.
  destruct (InMemory.find_bucket (InMemory.buckets c) b) as [objs |] eqn:F; [| discriminate].
  intros H; inversion H; subst; clear H.
  exists {| InMemory.archive_answer := InMemory.archive_answer c;
            InMemory.buckets := InMemory.set_bucket (InMemory.buckets c) b
                                  (InMemory.put_object objs k data) |}.
  eexists.
  unfold InMemory.exists_, InMemory.download. simpl.
  rewrite (find_set_bucket _ _ _ _ F), find_put_object. split; reflexivity.
Qed.

(** In the reference world every JSON value without floats makes the round
    trip through every existing bucket. *)
Lemma in_memory_upload_then_get :
  forall (w : pyval) (bucket K : string) (w0 : @world InMemory.outside)
         (objs : list (string * string)),
    plain_json w = true ->
    InMemory.find_bucket (InMemory.buckets (remote w0)) bucket = Some objs ->
    exists text w1 w2,
      json_dumps_indent2 (Json := InMemory.json) w = Ret text
      /\ upload_to_gcs (O := InMemory.outside) true bucket K text w0 = (Ret true, w1)
      /\ get_gcs_file_content (J := InMemory.json) (O := InMemory.outside) true bucket K w1
         = (Ret w, w2).
Proof.
  intros w b K w0 objs Hp Hb.
  pose proof (plain_json_representable w Hp) as Hrep.
  destruct Hrep as (text & He & Hd).
  destruct (upload_to_gcs (O := InMemory.outside) true b K text w0) as [r w1] eqn:U.
  assert (Hr : r = Ret true).
  { revert U. unfold upload_to_gcs. simpl. run. unfold InMemory.upload. rewrite Hb.
    simpl. intros U; inversion U; reflexivity. }
  subst r.
  destruct (upload_then_get (J := InMemory.json) (O := InMemory.outside) true w b K text w0 w1
              (ex_intro _ text (conj He Hd)) in_memory_read_after_write He U) as [w2 H2].
  exists text, w1, w2. auto.
Qed.

(** C8. For a value that survives JSON (its pretty-printed text parses back
    to it) and a bucket that gives back what was put: once [upload_to_gcs] has
    stored the text of [w] under the key [K], [get_gcs_file_content] on [K]
    returns [w]. In the reference world, with buckets in memory and the JSON
    codec above, this holds for every JSON value without floats and every
    existing bucket. *)
Theorem write_then_read_round_trip :
  (forall (J : Json) (O : Outside) (storage_client : bool) (w : pyval)
          (bucket K text : string) (w0 w1 : world),
      json_representable w ->
      read_after_write O ->
      json_dumps_indent2 w = Ret text ->
      upload_to_gcs storage_client bucket K text w0 = (Ret true, w1) ->
      exists w2, get_gcs_file_content storage_client bucket K w1 = (Ret w, w2))
  /\ (forall (w : pyval) (bucket K : string) (w0 : @world InMemory.outside)
             (objs : list (string * string)),
        plain_json w = true ->
        InMemory.find_bucket (InMemory.buckets (remote w0)) bucket = Some objs ->
        exists text w1 w2,
          json_dumps_indent2 (Json := InMemory.json) w = Ret text
          /\ upload_to_gcs (O := InMemory.outside) true bucket K text w0 = (Ret true, w1)
          /\ get_gcs_file_content (J := InMemory.json) (O := InMemory.outside) true bucket K w1
             = (Ret w, w2)).
Proof.
  split.
  - intros J O sc. apply upload_then_get.
  - apply in_memory_upload_then_get.
Qed.

(** ** The statements at work in the reference world *)

Lemma bucket_name_set : "weather-bucket" <> EmptyString.
Proof. discriminate. Qed.

Lemma sample_request_validated :
  validated sample_request (PFloat (float_lit 5252 100)) (PFloat (float_lit 1341 100))
    "2023-03-01" "2023-03-03".
Proof.
  exists [ ("latitude", PFloat (float_lit 5252 100)); ("longitude", PFloat (float_lit 1341 100));
           ("start_date", PStr "2023-03-01"); ("end_date", PStr "2023-03-03") ].
  repeat split; vm_compute; reflexivity.
Qed.

Lemma empty_object_not_answered_missing_parameters :
  fst (store_weather_data_endpoint (J := InMemory.json) (O := InMemory.outside) true
         (Some "weather-bucket") (Ret (PDict [])) sample_world)
  <> Ret (missing_parameters_response four_keys).
Proof. vm_compute. intros H; inversion H. Qed.

Lemma empty_object_is_no_payload_missing_keys_are_named_witness :
  store_weather_data_endpoint (J := InMemory.json) (O := InMemory.outside) true
    (Some "weather-bucket") (Ret (PDict [])) sample_world
  = (Ret no_payload_response, sample_world)
  /\ store_weather_data_endpoint (J := InMemory.json) (O := InMemory.outside) true
       (Some "weather-bucket") (Ret (PDict [("city", PStr "Berlin"); ("latitude", PNone)]))
       sample_world
     = (Ret (missing_parameters_response four_keys), sample_world).
Proof.
  destruct (empty_object_is_no_payload_missing_keys_are_named (J := InMemory.json)
              true "weather-bucket" bucket_name_set sample_world) as (H1 & _ & H2).
  split; [exact H1 |].
  apply (H2 [("city", PStr "Berlin"); ("latitude", PNone)]).
  - discriminate.
  - intros k Hk. simpl in Hk.
    destruct Hk as [<- | [<- | [<- | [<- | []]]]]; vm_compute; auto.
Defined.

Lemma generate_filename_derivation_witness :
  exists LAT LON,
    generate_filename (PFloat (float_lit 134 10)) (PInt (-7)) (PStr "2023-03-01")
      (PStr "2023-03-03")
    = Ret (compose_key LAT LON (strip_hyphens "2023-03-01") (strip_hyphens "2023-03-03"))
    /\ two_places_underscore (float_lit 134 10) LAT
    /\ two_places_underscore (S754_finite true 7881299347898368 (-50)) LON.
Proof.
  destruct generate_filename_derivation as [H _].
  apply (H (PFloat (float_lit 134 10)) (PInt (-7)) "2023-03-01" "2023-03-03"
           (float_lit 134 10) (S754_finite true 7881299347898368 (-50))); vm_compute; reflexivity.
Defined.

Lemma fetch_failure_is_502_without_upload_witness :
  store_weather_data_endpoint (J := InMemory.json) (O := InMemory.outside) true
    (Some "weather-bucket") (Ret sample_request) sample_world
  = (Ret upstream_failed_response,
     @Build_world InMemory.outside sample_store
       [HttpGet BASE_URL
          (query_params (PFloat (float_lit 5252 100)) (PFloat (float_lit 1341 100))
             (PStr "2023-03-01") (PStr "2023-03-03")) 10]).
Proof.
  apply (fetch_failure_is_502_without_upload (J := InMemory.json) true "weather-bucket"
           bucket_name_set sample_request _ _ _ _ sample_world _ sample_request_validated).
  vm_compute. reflexivity.
Defined.

Lemma truthy_non_object_body_raises_witness :
  store_weather_data_endpoint (J := InMemory.json) (O := InMemory.outside) true
    (Some "weather-bucket") (Ret (PList [PInt 1])) sample_world
  = (Raise AttributeError, sample_world).
Proof.
  apply (truthy_non_object_body_raises (J := InMemory.json) true "weather-bucket"
           bucket_name_set (PList [PInt 1]) sample_world); reflexivity.
Defined.

Lemma file_content_none_is_404_else_verbatim_witness :
  exists content w',
    get_gcs_file_content (J := InMemory.json) true "weather-bucket" "weather_old.json"
      sample_world = (Ret content, w')
    /\ weather_file_content_endpoint (J := InMemory.json) true (Some "weather-bucket")
         "weather_old.json" sample_world
       = (Ret (file_content_response "weather_old.json" content), w')
    /\ content = PNone.
Proof.
  destruct (file_content_none_is_404_else_verbatim (J := InMemory.json) true "weather-bucket"
              bucket_name_set "weather_old.json" sample_world ltac:(discriminate))
    as (content & w' & Hg & He & _ & _ & _ & _ & _ & Hbad & _).
  exists content, w'. split; [exact Hg |]. split; [exact He |].
  apply (Hbad sample_store sample_store "not json" JSONDecodeError); reflexivity.
Defined.

Lemma listing_none_is_500_empty_is_200_witness :
  exists files w',
    list_weather_files_endpoint (O := InMemory.outside) true (Some "weather-bucket")
      empty_bucket_world
    = (Ret (listing_response "weather-bucket" files), w')
    /\ files = Some [].
Proof.
  destruct (listing_none_is_500_empty_is_200 (O := InMemory.outside) true "weather-bucket"
              bucket_name_set empty_bucket_world)
    as (files & w' & _ & He & _ & _ & _ & Hempty).
  exists files, w'. split; [exact He |].
  apply (Hempty (remote empty_bucket_world)); reflexivity.
Defined.

Lemma boolean_coordinate_is_accepted_witness :
  fst (store_weather_data_endpoint (J := InMemory.json) (O := InMemory.outside) true
         (Some "weather-bucket") (Ret boolean_request) sample_world)
  <> Ret invalid_type_response
  /\ generate_filename (PBool true) (PFloat (float_lit 1341 100)) (PStr "2023-03-01")
       (PStr "2023-03-03")
     = Ret "weather_lat1_00_lon13_41_from20230301_to20230303.json".
Proof.
  destruct (boolean_coordinate_is_accepted (J := InMemory.json) (O := InMemory.outside)
              true "weather-bucket" bucket_name_set
              [ ("latitude", PBool true); ("longitude", PFloat (float_lit 1341 100));
                ("start_date", PStr "2023-03-01"); ("end_date", PStr "2023-03-03") ]
              true (PFloat (float_lit 1341 100)) "2023-03-01" "2023-03-03" sample_world
              eq_refl eq_refl eq_refl
              ltac:(vm_compute; reflexivity) ltac:(vm_compute; reflexivity)
              (PBool true) (PFloat (float_lit 1341 100))
              (or_introl (conj eq_refl eq_refl)) eq_refl eq_refl)
    as (_ & Hne & _ & _ & Hkey).
  split; [exact Hne |].
  destruct (Hkey "13.41" ltac:(vm_compute; reflexivity)) as [Hk _].
  rewrite Hk. vm_compute. reflexivity.
Defined.

Lemma write_then_read_round_trip_witness :
  exists text w1 w2,
    json_dumps_indent2 (Json := InMemory.json) sample_record = Ret text
    /\ upload_to_gcs (O := InMemory.outside) true "weather-bucket" "weather_k.json" text
         sample_world = (Ret true, w1)
    /\ get_gcs_file_content (J := InMemory.json) true "weather-bucket" "weather_k.json" w1
       = (Ret sample_record, w2).
Proof.
  destruct write_then_read_round_trip as [General _].
  destruct (InMemory.encode 0 sample_record) as [text |] eqn:E;
    [| vm_compute in E; discriminate].
  destruct (upload_to_gcs (O := InMemory.outside) true "weather-bucket" "weather_k.json" text
              sample_world) as [r w1] eqn:U.
  assert (Hr : r = Ret true).
  { vm_compute in E. inversion E; subst text. vm_compute in U. inversion U. reflexivity. }
  subst r.
  assert (Hrep : json_representable (J := InMemory.json) sample_record)
    by (apply plain_json_representable; reflexivity).
  destruct (General InMemory.json InMemory.outside true
              sample_record "weather-bucket" "weather_k.json" text sample_world w1
              Hrep in_memory_read_after_write E U) as [w2 H2].
  exists text, w1, w2. split; [exact E |]. split; [exact U | exact H2].
Defined.

(** * Further properties of the code *)

(** ** The store endpoint, whatever the request *)

Section StoreEndpoint.

Context {J : Json} {O : Outside}.
Variable storage_client : bool.
Variable bucket : string.
Hypothesis bucket_set : bucket <> EmptyString.

Local Abbreviation store := (store_weather_data_endpoint storage_client (Some bucket)).

Lemma py_get_dict :
  forall d k, py_get (PDict d) k = Ret (lookup_or_none d k).
Proof. reflexivity. Qed.

Lemma missing_params_keys :
  forall d,
    missing_params (required_params (lookup_or_none d "latitude") (lookup_or_none d "longitude")
                      (lookup_or_none d "start_date") (lookup_or_none d "end_date"))
    = missing_keys d.
Proof.
  intros d. unfold missing_params, required_params, missing_keys, four_keys. simpl.
  destruct (is_none (lookup_or_none d "latitude"));
    destruct (is_none (lookup_or_none d "longitude"));
    destruct (is_none (lookup_or_none d "start_date"));
    destruct (is_none (lookup_or_none d "end_date")); reflexivity.
Qed.

Lemma missing_keys_nil :
  forall d k, missing_keys d = [] -> In k four_keys -> is_none (lookup_or_none d k) = false.
Proof.
  intros d k H Hin. unfold missing_keys in H.
  destruct (is_none (lookup_or_none d k)) eqn:E; [| reflexivity].
  assert (Hf : In k (filter (fun k => is_none (lookup_or_none d k)) four_keys))
    by (apply filter_In; split; assumption).
  rewrite H in Hf. contradiction.
Qed.

Lemma lookup_or_none_some :
  forall d k, is_none (lookup_or_none d k) = false ->
    dict_lookup d k = Some (lookup_or_none d k).
Proof.
  intros d k. unfold lookup_or_none. destruct (dict_lookup d k); [reflexivity | discriminate].
Qed.

(** The first steps of the endpoint on an object: the four lookups and the
    three checks, up to the fetch. *)
(** The four lookups and the three checks of the endpoint on a non-empty
    object; past them come the fetch and the upload. *)
Lemma store_object_checks :
  forall d (w : world),
    d <> [] ->
    store (Ret (PDict d)) w
    = match missing_keys d with
      | _ :: _ => (Ret (missing_parameters_response (missing_keys d)), w)
      | [] =>
          if negb (isinstance_int_float (lookup_or_none d "latitude")
                   && isinstance_int_float (lookup_or_none d "longitude"))
          then (Ret invalid_type_response, w)
          else
            match date_field_ok (lookup_or_none d "start_date") with
            | Raise e => (Raise e, w)
            | Ret false => (Ret invalid_date_response, w)
            | Ret true =>
                match date_field_ok (lookup_or_none d "end_date") with
                | Raise e => (Raise e, w)
                | Ret false => (Ret invalid_date_response, w)
                | Ret true =>
                    bind (fetch_weather_data (lookup_or_none d "latitude")
                            (lookup_or_none d "longitude") (lookup_or_none d "start_date")
                            (lookup_or_none d "end_date"))
                      (fun weather_api_data =>
                         if is_none weather_api_data then ret upstream_failed_response
                         else
                           bind (lift (generate_filename (lookup_or_none d "latitude")
                                         (lookup_or_none d "longitude")
                                         (lookup_or_none d "start_date")
                                         (lookup_or_none d "end_date")))
                             (fun file_name =>
                                bind (lift (json_dumps_indent2 weather_api_data))
                                  (fun data =>
                                     bind (upload_to_gcs storage_client bucket file_name data)
                                       (fun uploaded =>
                                          if uploaded
                                          then ret (created_response bucket file_name)
                                          else ret storage_failed_response))))
                      w
                end
            end
      end.
Proof.
  intros d w Hd.
  assert (Ht : truthy (PDict d) = true) by (destruct d; [contradiction | reflexivity]).
  unfold store_weather_data_endpoint.
  rewrite (configured_bucket_set _ bucket_set), Ht. simpl negb. cbv iota.
  unfold bind at 1, lift at 1. rewrite py_get_dict.
  unfold bind at 1, lift at 1. rewrite py_get_dict.
  unfold bind at 1, lift at 1. rewrite py_get_dict.
  unfold bind at 1, lift at 1. rewrite py_get_dict.
  cbv beta iota zeta.
  rewrite missing_params_keys.
  destruct (missing_keys d) eqn:Em; [| reflexivity].
  destruct (negb (isinstance_int_float (lookup_or_none d "latitude")
                  && isinstance_int_float (lookup_or_none d "longitude"))) eqn:Et;
    [reflexivity |].
  unfold bind at 1, lift at 1.
  destruct (date_field_ok (lookup_or_none d "start_date")) as [[|] | ex] eqn:Es;
    [| reflexivity | reflexivity].
  unfold bind at 1, lift at 1.
  destruct (date_field_ok (lookup_or_none d "end_date")) as [[|] | ex] eqn:Ee;
    [| reflexivity | reflexivity].
  reflexivity.
Qed.

Lemma date_field_ok_cases :
  forall v,
    (exists s, v = PStr s /\ validate_date_format (PStr s) = Ret true /\ date_field_ok v = Ret true)
    \/ date_field_ok v = Ret false.
Proof.
  intros v. unfold date_field_ok.
  destruct v; simpl; try (right; reflexivity).
  destruct (validate_date_format_total s) as [[|] E]; rewrite E.
  - left. exists s. auto.
  - right. reflexivity.
Qed.

(** Before the fetch the endpoint has either answered 400 or died at
    [req_data.get], the world untouched, or the request is a validated one. *)
Lemma store_early_or_validated :
  forall get_json (w : world),
    (exists r, store get_json w = (r, w)
               /\ (r = Raise AttributeError \/ exists resp, r = Ret resp /\ status resp = 400))
    \/ (exists req latitude longitude start_date end_date,
           get_json = Ret req /\ validated req latitude longitude start_date end_date).
Proof.
  intros [req | ex] w.
  2:{ left. eexists. unfold store_weather_data_endpoint.
      rewrite (configured_bucket_set _ bucket_set).
      split; [reflexivity |]. right. eexists; split; reflexivity. }
  destruct (truthy req) eqn:Ht.
  2:{ left. eexists. unfold store_weather_data_endpoint.
      rewrite (configured_bucket_set _ bucket_set), Ht.
      split; [reflexivity |]. right. eexists; split; reflexivity. }
  destruct req as [| b | n | x | s | l | d];
    try (left; eexists; unfold store_weather_data_endpoint;
         rewrite (configured_bucket_set _ bucket_set), Ht;
         split; [reflexivity | left; reflexivity]).
  assert (Hd : d <> []) by (destruct d; [discriminate | discriminate]).
  rewrite (store_object_checks d w Hd).
  destruct (missing_keys d) eqn:Em.
  2:{ left. eexists. split; [reflexivity |]. right. eexists; split; reflexivity. }
  destruct (negb (isinstance_int_float (lookup_or_none d "latitude")
                  && isinstance_int_float (lookup_or_none d "longitude"))) eqn:Et.
  { left. eexists. split; [reflexivity |]. right. eexists; split; reflexivity. }
  apply negb_false_iff in Et. apply andb_true_iff in Et as [Tla Tlo].
  destruct (date_field_ok_cases (lookup_or_none d "start_date")) as [(s & Es & Vs & Ds) | Ds];
    rewrite Ds.
  2:{ left. eexists. split; [reflexivity |]. right. eexists; split; reflexivity. }
  destruct (date_field_ok_cases (lookup_or_none d "end_date")) as [(e & Ee & Ve & De) | De];
    rewrite De.
  2:{ left. eexists. split; [reflexivity |]. right. eexists; split; reflexivity. }
  right. exists (PDict d), (lookup_or_none d "latitude"), (lookup_or_none d "longitude"), s, e.
  split; [reflexivity |]. exists d.
  assert (K : forall k, In k four_keys -> dict_lookup d k = Some (lookup_or_none d k))
    by (intros k Hin; apply lookup_or_none_some, (missing_keys_nil d k Em Hin)).
  split; [reflexivity |].
  split; [apply K; simpl; auto |].
  split; [apply K; simpl; auto |].
  split; [rewrite <- Es; apply K; simpl; auto |].
  split; [rewrite <- Ee; apply K; simpl; auto 6 |].
  auto.
Qed.


Lemma upload_to_gcs_run :
  forall b k data (w : world),
    upload_to_gcs storage_client b k data w
    = if storage_client then
        match blob_upload_from_string b k data "application/json" (remote w) with
        | (Ret _, q) =>
            (Ret true,
             {| remote := q; calls := UploadFromString b k data "application/json" :: calls w |})
        | (Raise _, q) =>
            (Ret false,
             {| remote := q; calls := UploadFromString b k data "application/json" :: calls w |})
        end
      else (Ret false, w).
Proof.
  intros b k data w. unfold upload_to_gcs.
  destruct storage_client; simpl; [| reflexivity].
  unfold bind, attempt, outside_call, ret.
  destruct (blob_upload_from_string b k data "application/json" (remote w)) as [[u | ex] q];
    reflexivity.
Qed.

(** A validated request, step by step: the fetch, the key, the text, the
    upload. *)
Lemma store_validated_run :
  forall req_data latitude longitude start_date end_date (w : world),
    validated req_data latitude longitude start_date end_date ->
    store (Ret req_data) w
    = match fetch_weather_data latitude longitude (PStr start_date) (PStr end_date) w with
      | (Raise ex, w0) => (Raise ex, w0)
      | (Ret record, w0) =>
          if is_none record then (Ret upstream_failed_response, w0)
          else
            match generate_filename latitude longitude (PStr start_date) (PStr end_date) with
            | Raise ex => (Raise ex, w0)
            | Ret file_name =>
                match json_dumps_indent2 record with
                | Raise ex => (Raise ex, w0)
                | Ret data =>
                    if storage_client then
                      match blob_upload_from_string bucket file_name data "application/json"
                              (remote w0) with
                      | (Ret _, q) =>
                          (Ret (created_response bucket file_name),
                           {| remote := q;
                              calls := UploadFromString bucket file_name data "application/json"
                                       :: calls w0 |})
                      | (Raise _, q) =>
                          (Ret storage_failed_response,
                           {| remote := q;
                              calls := UploadFromString bucket file_name data "application/json"
                                       :: calls w0 |})
                      end
                    else (Ret storage_failed_response, w0)
                end
            end
      end.
Proof.
  intros req la lo s e w Hv.
  rewrite (store_validated storage_client bucket bucket_set _ _ _ _ _ w Hv).
  unfold bind at 1.
  destruct (fetch_weather_data la lo (PStr s) (PStr e) w) as [[record | ex] w0];
    [| reflexivity].
  destruct (is_none record); [reflexivity |].
  unfold bind at 1, lift at 1.
  destruct (generate_filename la lo (PStr s) (PStr e)) as [file_name | ex]; [| reflexivity].
  unfold bind at 1, lift at 1.
  destruct (json_dumps_indent2 record) as [data | ex]; [| reflexivity].
  unfold bind at 1. rewrite upload_to_gcs_run.
  destruct storage_client; [| reflexivity].
  destruct (blob_upload_from_string bucket file_name data "application/json" (remote w0))
    as [[u | ex] q]; reflexivity.
Qed.

Lemma cons_neq : forall (A : Type) (l1 l : list A), l1 <> [] -> (l1 ++ l)%list <> l.
Proof.
  intros A l1 l H E. apply (f_equal (@List.length A)) in E.
  rewrite length_app in E. destruct l1; [contradiction | simpl in E; lia].
Qed.

(** X1. Whatever [request.get_json()] raises is answered 400 "Malformed
    JSON", and every falsy body (null, false, 0, the empty string, array or
    object) 400 "No JSON payload received", in both cases without a call. *)
Theorem payload_guard_answers_400 :
  forall w : world,
    (forall ex, store (Raise ex) w = (Ret malformed_json_response, w))
    /\ (forall req_data, truthy req_data = false ->
          store (Ret req_data) w = (Ret no_payload_response, w))
    /\ status malformed_json_response = 400
    /\ status no_payload_response = 400.
Proof.
  intros w. unfold store_weather_data_endpoint.
  rewrite (configured_bucket_set _ bucket_set).
  split; [reflexivity |]. split; [| split; reflexivity].
  intros req Ht. rewrite Ht. reflexivity.
Qed.

(** X2. A non-empty object that leaves out some required key, or sets it to
    null, is answered 400 "Missing parameters: ..." naming exactly those
    keys, in the order latitude, longitude, start_date, end_date, whatever
    the other fields hold; no call is made. *)
Theorem missing_keys_are_named_in_order :
  forall d (w : world),
    d <> [] ->
    missing_keys d <> [] ->
    store (Ret (PDict d)) w = (Ret (missing_parameters_response (missing_keys d)), w)
    /\ status (missing_parameters_response (missing_keys d)) = 400.
Proof.
  intros d w Hd Hm. split; [| reflexivity].
  rewrite (store_object_checks d w Hd).
  destruct (missing_keys d); [contradiction | reflexivity].
Qed.

(** X3. With the four keys present, a latitude or longitude that is not a
    number (a string such as "52.52", an array, an object) is answered 400
    "Invalid data type for latitude or longitude", before the dates are
    looked at and without a call. *)
Theorem non_numeric_coordinate_is_400 :
  forall d (w : world),
    missing_keys d = [] ->
    isinstance_int_float (lookup_or_none d "latitude") = false
    \/ isinstance_int_float (lookup_or_none d "longitude") = false ->
    store (Ret (PDict d)) w = (Ret invalid_type_response, w)
    /\ status invalid_type_response = 400.
Proof.
  intros d w Hm Ht. split; [| reflexivity].
  assert (Hd : d <> []).
  { intros ->. vm_compute in Hm. discriminate. }
  rewrite (store_object_checks d w Hd), Hm.
  destruct Ht as [-> | ->]; [reflexivity |].
  rewrite andb_false_r. reflexivity.
Qed.


(** X5. Whatever the request, the endpoint leaves one of three traces. It
    makes no call and answers 400 or dies of the [AttributeError] of a body
    that is no object. Or it makes the GET and nothing else, and answers 502,
    or 500 for want of a storage client, or dies. Or it makes the GET and
    then one upload to the configured bucket with content type
    application/json, and answers 201 or 500. It never uploads before the
    archive has answered, and never calls twice. *)
Theorem store_endpoint_call_discipline :
  forall get_json (w w' : world) r,
    store get_json w = (r, w') ->
    (w' = w
     /\ (r = Raise AttributeError \/ exists resp, r = Ret resp /\ status resp = 400))
    \/ (exists params,
          calls w' = HttpGet BASE_URL params 10 :: calls w
          /\ (r = Ret upstream_failed_response
              \/ (r = Ret storage_failed_response /\ storage_client = false)
              \/ exists ex, r = Raise ex))
    \/ (exists params file_name data,
          calls w' = UploadFromString bucket file_name data "application/json"
                     :: HttpGet BASE_URL params 10 :: calls w
          /\ storage_client = true
          /\ (r = Ret (created_response bucket file_name) \/ r = Ret storage_failed_response)).
Proof.
  intros get_json w w' r H.
  destruct (store_early_or_validated get_json w)
    as [(r0 & E & Hr) | (req & la & lo & s & e & -> & Hv)].
  { left. rewrite E in H. inversion H; subst. split; [reflexivity | exact Hr]. }
  right. rewrite (store_validated_run _ _ _ _ _ w Hv) in H.
  destruct (fetch_weather_data la lo (PStr s) (PStr e) w) as [[record | ex] w0] eqn:F;
    pose proof (fetch_weather_data_calls _ _ _ _ _ _ _ F) as Hc.
  2:{ left. inversion H; subst. eexists. split; [exact Hc |]. right; right. eexists; reflexivity. }
  destruct (is_none record).
  { left. inversion H; subst. eexists. split; [exact Hc |]. left; reflexivity. }
  destruct (generate_filename la lo (PStr s) (PStr e)) as [file_name | ex].
  2:{ left. inversion H; subst. eexists. split; [exact Hc |]. right; right. eexists; reflexivity. }
  destruct (json_dumps_indent2 record) as [data | ex].
  2:{ left. inversion H; subst. eexists. split; [exact Hc |]. right; right. eexists; reflexivity. }
  destruct storage_client.
  2:{ left. inversion H; subst. eexists. split; [exact Hc |]. right; left. split; reflexivity. }
  right.
  destruct (blob_upload_from_string bucket file_name data "application/json" (remote w0))
    as [[u | ex] q]; inversion H; subst; simpl; rewrite Hc;
    eexists; eexists; eexists; (split; [reflexivity | split; [reflexivity |]]); auto.
Qed.

(** X6. The archive API is called exactly for the requests that pass the
    four checks, and then with the coordinates and the dates of the request
    as they came. *)
Theorem archive_called_iff_validated :
  forall get_json (w w' : world) r,
    store get_json w = (r, w') ->
    (calls w' <> calls w
     <-> exists req_data latitude longitude start_date end_date,
           get_json = Ret req_data
           /\ validated req_data latitude longitude start_date end_date)
    /\ (forall req_data latitude longitude start_date end_date,
          get_json = Ret req_data ->
          validated req_data latitude longitude start_date end_date ->
          In (HttpGet BASE_URL
                (query_params latitude longitude (PStr start_date) (PStr end_date)) 10)
             (calls w')).
Proof.
  intros get_json w w' r H. split.
  - split.
    + intros Hne.
      destruct (store_early_or_validated get_json w) as [(r0 & E & _) | Hv]; [| exact Hv].
      rewrite E in H. inversion H; subst. contradiction.
    + intros (req & la & lo & s & e & -> & Hv).
      destruct (store_validated_outcome storage_client bucket bucket_set
                  _ _ _ _ _ _ _ _ Hv H) as [_ Hin].
      rewrite (store_validated_run _ _ _ _ _ w Hv) in H.
      destruct (fetch_weather_data la lo (PStr s) (PStr e) w) as [[record | ex] w0] eqn:F;
        pose proof (fetch_weather_data_calls _ _ _ _ _ _ _ F) as Hc.
      2:{ inversion H; subst. rewrite Hc. apply (cons_neq _ [_]). discriminate. }
      destruct (is_none record).
      { inversion H; subst. rewrite Hc. apply (cons_neq _ [_]). discriminate. }
      destruct (generate_filename la lo (PStr s) (PStr e)) as [file_name | ex].
      2:{ inversion H; subst. rewrite Hc. apply (cons_neq _ [_]). discriminate. }
      destruct (json_dumps_indent2 record) as [data | ex].
      2:{ inversion H; subst. rewrite Hc. apply (cons_neq _ [_]). discriminate. }
      destruct storage_client.
      2:{ inversion H; subst. rewrite Hc. apply (cons_neq _ [_]). discriminate. }
      destruct (blob_upload_from_string bucket file_name data "application/json" (remote w0))
        as [[u | ex] q]; inversion H; subst; simpl; rewrite Hc;
        apply (cons_neq _ [_; _]); discriminate.
  - intros req la lo s e -> Hv.
    exact (proj2 (store_validated_outcome storage_client bucket bucket_set
                    _ _ _ _ _ _ _ _ Hv H)).
Qed.

(** X7. A 201 tells the truth about the bucket: the request passed the
    checks, the archive returned a record, the storage client accepted one
    upload, under the key [generate_filename] derives from the request, of
    the text [json.dumps(record, indent=2)], with content type
    application/json; the response names that key and its gs:// path. *)
Theorem created_response_describes_the_upload :
  forall get_json (w w1 : world) resp,
    store get_json w = (Ret resp, w1) ->
    status resp = 201 ->
    exists req_data latitude longitude start_date end_date record w0 file_name data,
      get_json = Ret req_data
      /\ validated req_data latitude longitude start_date end_date
      /\ fetch_weather_data latitude longitude (PStr start_date) (PStr end_date) w
         = (Ret record, w0)
      /\ record <> PNone
      /\ generate_filename latitude longitude (PStr start_date) (PStr end_date) = Ret file_name
      /\ json_dumps_indent2 record = Ret data
      /\ storage_client = true
      /\ blob_upload_from_string bucket file_name data "application/json" (remote w0)
         = (Ret tt, remote w1)
      /\ calls w1 = UploadFromString bucket file_name data "application/json" :: calls w0
      /\ resp = created_response bucket file_name.
Proof.
  intros get_json w w1 resp H Hs.
  destruct (store_early_or_validated get_json w)
    as [(r0 & E & Hr) | (req & la & lo & s & e & -> & Hv)].
  { rewrite E in H. inversion H; subst.
    destruct Hr as [Hr | (resp' & Hr & Hst)]; [discriminate |].
    inversion Hr; subst. rewrite Hst in Hs. discriminate. }
  rewrite (store_validated_run _ _ _ _ _ w Hv) in H.
  destruct (fetch_weather_data la lo (PStr s) (PStr e) w) as [[record | ex] w0] eqn:F;
    [| discriminate].
  destruct (is_none record) eqn:Nr.
  { inversion H; subst. discriminate. }
  destruct (generate_filename la lo (PStr s) (PStr e)) as [file_name | ex] eqn:G;
    [| discriminate].
  destruct (json_dumps_indent2 record) as [data | ex] eqn:D; [| discriminate].
  destruct storage_client eqn:Sc.
  2:{ inversion H; subst. discriminate. }
  destruct (blob_upload_from_string bucket file_name data "application/json" (remote w0))
    as [[[] | ex] q] eqn:U; inversion H; subst; [| discriminate].
  exists req, la, lo, s, e, record, w0, file_name, data.
  repeat split; try reflexivity; try assumption.
  intros ->. discriminate.
Qed.

(** X8. An integer coordinate too large for a double passes the type check
    and is sent to the archive; when the archive returns a record, the key
    derivation then raises [OverflowError]: the endpoint has made the GET,
    uploads nothing and returns no response. *)
Theorem overflowing_coordinate_raises_after_fetch :
  forall req_data n longitude start_date end_date record (w w0 : world),
    validated req_data (PInt n) longitude start_date end_date ->
    float_of_int n = Raise OverflowError ->
    fetch_weather_data (PInt n) longitude (PStr start_date) (PStr end_date) w
      = (Ret record, w0) ->
    record <> PNone ->
    store (Ret req_data) w = (Raise OverflowError, w0)
    /\ calls w0 = HttpGet BASE_URL
                    (query_params (PInt n) longitude (PStr start_date) (PStr end_date)) 10
                  :: calls w.
Proof.
  intros req n lo s e record w w0 Hv Ho F Hr.
  split; [| exact (fetch_weather_data_calls _ _ _ _ _ _ _ F)].
  rewrite (store_validated_run _ _ _ _ _ w Hv), F.
  destruct record; try contradiction; simpl is_none; cbv iota;
    unfold generate_filename, format_2f; simpl py_replace; simpl as_float;
    rewrite Ho; reflexivity.
Qed.

End StoreEndpoint.

Lemma payload_guard_answers_400_witness :
  store_weather_data_endpoint (J := InMemory.json) (O := InMemory.outside) true
    (Some "weather-bucket") (Raise BadRequest) sample_world
  = (Ret malformed_json_response, sample_world)
  /\ store_weather_data_endpoint (J := InMemory.json) (O := InMemory.outside) true
       (Some "weather-bucket") (Ret (PInt 0)) sample_world
     = (Ret no_payload_response, sample_world).
Proof.
  destruct (payload_guard_answers_400 (J := InMemory.json) true "weather-bucket"
              bucket_name_set sample_world) as (H1 & H2 & _).
  split; [apply H1 | apply H2; reflexivity].
Defined.

Lemma missing_keys_are_named_in_order_witness :
  store_weather_data_endpoint (J := InMemory.json) (O := InMemory.outside) true
    (Some "weather-bucket")
    (Ret (PDict [("end_date", PNone); ("latitude", PInt 52); ("city", PStr "Berlin")]))
    sample_world
  = (Ret (jsonify_error "Missing parameters: longitude, start_date, end_date" 400),
     sample_world).
Proof.
  apply (missing_keys_are_named_in_order (J := InMemory.json) true "weather-bucket"
           bucket_name_set
           [("end_date", PNone); ("latitude", PInt 52); ("city", PStr "Berlin")] sample_world);
    vm_compute; discriminate.
Defined.

Lemma non_numeric_coordinate_is_400_witness :
  store_weather_data_endpoint (J := InMemory.json) (O := InMemory.outside) true
    (Some "weather-bucket")
    (Ret (PDict [ ("latitude", PStr "52.52"); ("longitude", PInt 13);
                  ("start_date", PInt 20230301); ("end_date", PStr "2023-03-03") ]))
    sample_world
  = (Ret invalid_type_response, sample_world).
Proof.
  apply (non_numeric_coordinate_is_400 (J := InMemory.json) true "weather-bucket"
           bucket_name_set
           [ ("latitude", PStr "52.52"); ("longitude", PInt 13);
             ("start_date", PInt 20230301); ("end_date", PStr "2023-03-03") ] sample_world).
  - reflexivity.
  - left. reflexivity.
Defined.


Lemma store_endpoint_call_discipline_witness :
  exists params file_name data,
    calls (snd (store_weather_data_endpoint (J := InMemory.json) (O := InMemory.outside) true
                  (Some "weather-bucket") (Ret sample_request) answering_world))
    = [ UploadFromString "weather-bucket" file_name data "application/json";
        HttpGet BASE_URL params 10 ].
Proof.
  destruct (store_weather_data_endpoint (J := InMemory.json) (O := InMemory.outside) true
              (Some "weather-bucket") (Ret sample_request) answering_world) as [r w'] eqn:E.
  destruct (store_endpoint_call_discipline (J := InMemory.json) true "weather-bucket"
              bucket_name_set _ _ _ _ E)
    as [[Hw _] | [(params & Hc & _) | (params & file_name & data & Hc & _)]].
  - exfalso. subst w'. vm_compute in E. inversion E.
  - exfalso. vm_compute in E. inversion E as [[Hr Hw]]. rewrite <- Hw in Hc.
    vm_compute in Hc. discriminate Hc.
  - exists params, file_name, data. exact Hc.
Defined.

Lemma archive_called_iff_validated_witness :
  calls (snd (store_weather_data_endpoint (J := InMemory.json) (O := InMemory.outside) true
                (Some "weather-bucket") (Ret sample_request) sample_world))
  <> calls sample_world.
Proof.
  destruct (store_weather_data_endpoint (J := InMemory.json) (O := InMemory.outside) true
              (Some "weather-bucket") (Ret sample_request) sample_world) as [r w'] eqn:E.
  destruct (archive_called_iff_validated (J := InMemory.json) true "weather-bucket"
              bucket_name_set _ _ _ _ E) as [[_ H] _].
  apply H. exists sample_request. do 4 eexists. split; [reflexivity |].
  exact sample_request_validated.
Defined.

Lemma created_response_describes_the_upload_witness :
  exists (w0 w1 : @world InMemory.outside) data,
    store_weather_data_endpoint (J := InMemory.json) (O := InMemory.outside) true
      (Some "weather-bucket") (Ret sample_request) answering_world
    = (Ret (created_response "weather-bucket"
              "weather_lat52_52_lon13_41_from20230301_to20230303.json"), w1)
    /\ json_dumps_indent2 (Json := InMemory.json) (PList [PInt 12; PInt (-3); PNone]) = Ret data
    /\ calls w1 = UploadFromString "weather-bucket"
                    "weather_lat52_52_lon13_41_from20230301_to20230303.json" data
                    "application/json" :: calls w0.
Proof.
  destruct (store_weather_data_endpoint (J := InMemory.json) (O := InMemory.outside) true
              (Some "weather-bucket") (Ret sample_request) answering_world) as [r w1] eqn:E.
  assert (Hr : r = Ret (created_response "weather-bucket"
                          "weather_lat52_52_lon13_41_from20230301_to20230303.json")).
  { vm_compute in E. inversion E. reflexivity. }
  subst r.
  destruct (created_response_describes_the_upload (J := InMemory.json) true "weather-bucket"
              bucket_name_set _ _ _ _ E eq_refl)
    as (req & la & lo & s & e & record & w0 & file_name & data
        & Hreq & Hv & F & _ & G & D & _ & _ & Hc & Hresp).
  assert (Hrec : record = PList [PInt 12; PInt (-3); PNone]).
  { inversion Hreq; subst req.
    destruct Hv as (d & Hd & Hla & Hlo & Hs & He & _).
    inversion Hd; subst d. vm_compute in Hla, Hlo, Hs, He.
    inversion Hla; inversion Hlo; inversion Hs; inversion He; subst.
    vm_compute in F. inversion F. reflexivity. }
  assert (Hk : file_name = "weather_lat52_52_lon13_41_from20230301_to20230303.json").
  { unfold created_response in Hresp. inversion Hresp. reflexivity. }
  subst record file_name.
  exists w0, w1, data. split; [reflexivity |]. split; [exact D | exact Hc].
Defined.

Lemma overflowing_coordinate_raises_after_fetch_witness :
  fst (store_weather_data_endpoint (J := InMemory.json) (O := InMemory.outside) true
         (Some "weather-bucket") (Ret huge_request) answering_world)
  = Raise OverflowError.
Proof.
  destruct (fetch_weather_data (J := InMemory.json) (O := InMemory.outside) (PInt (2 ^ 1024)) (PInt 13)
              (PStr "2023-03-01") (PStr "2023-03-03") answering_world) as [f w0] eqn:F.
  assert (Hf : f = Ret (PList [PInt 12; PInt (-3); PNone])).
  { vm_compute in F. inversion F. reflexivity. }
  subst f.
  assert (Hv : validated huge_request (PInt (2 ^ 1024)) (PInt 13) "2023-03-01" "2023-03-03").
  { eexists. repeat split; vm_compute; reflexivity. }
  destruct (overflowing_coordinate_raises_after_fetch (J := InMemory.json) true "weather-bucket"
              bucket_name_set huge_request (2 ^ 1024) (PInt 13) "2023-03-01" "2023-03-03"
              _ answering_world w0 Hv ltac:(vm_compute; reflexivity) F ltac:(discriminate))
    as [H _].
  rewrite H. reflexivity.
Defined.

(** ** The archive client *)

Section ArchiveClient.

Context {J : Json} {O : Outside}.


End ArchiveClient.

Section ArchiveTimeout.

Context {J : Json} {O : Outside}.
Variable storage_client : bool.
Variable bucket : string.
Hypothesis bucket_set : bucket <> EmptyString.

(** X10. When the GET times out, [fetch_weather_data] does not return
    [None]: its handler prints [response.text] while [response] is unbound,
    so an [UnboundLocalError] leaves the function, and the store endpoint,
    instead of answering 502, returns no response. Nothing is uploaded. *)
Theorem timeout_raises_unbound_local_error :
  forall req_data latitude longitude start_date end_date (w : world) q,
    validated req_data latitude longitude start_date end_date ->
    requests_get BASE_URL (query_params latitude longitude (PStr start_date) (PStr end_date))
      10 (remote w) = (Raise Timeout, q) ->
    let w' := {| remote := q;
                 calls := HttpGet BASE_URL
                            (query_params latitude longitude (PStr start_date) (PStr end_date))
                            10 :: calls w |} in
    fetch_weather_data latitude longitude (PStr start_date) (PStr end_date) w
      = (Raise UnboundLocalError, w')
    /\ store_weather_data_endpoint storage_client (Some bucket) (Ret req_data) w
      = (Raise UnboundLocalError, w').
Proof.
  intros req la lo s e w q Hv Hq w'.
  assert (F : fetch_weather_data la lo (PStr s) (PStr e) w = (Raise UnboundLocalError, w')).
  { unfold fetch_weather_data, bind, attempt, outside_call. rewrite Hq. reflexivity. }
  split; [exact F |].
  rewrite (store_validated storage_client bucket bucket_set _ _ _ _ _ w Hv).
  unfold bind at 1. rewrite F. reflexivity.
Qed.

End ArchiveTimeout.

Lemma timeout_raises_unbound_local_error_witness :
  store_weather_data_endpoint (J := InMemory.json) (O := InMemory.outside) true
    (Some "weather-bucket") (Ret sample_request) timeout_world
  = (Raise UnboundLocalError,
     @Build_world InMemory.outside (remote timeout_world)
       [HttpGet BASE_URL
          (query_params (PFloat (float_lit 5252 100)) (PFloat (float_lit 1341 100))
             (PStr "2023-03-01") (PStr "2023-03-03")) 10]).
Proof.
  apply (timeout_raises_unbound_local_error (J := InMemory.json) true "weather-bucket"
           bucket_name_set sample_request _ _ _ _ timeout_world (remote timeout_world)
           sample_request_validated).
  reflexivity.
Defined.

(** ** The storage client *)

Section StorageClient.

Context {J : Json} {O : Outside}.
Variable storage_client : bool.

(** X11. [upload_to_gcs] and [list_gcs_files] never raise. The upload makes
    at most one call, with content type application/json, and returns [True]
    exactly when there is a storage client and that call returned; the
    listing makes at most one call and returns the names the client yields,
    as they come, exactly when that call returned. Every exception of the
    client becomes [False] or [None]. *)
Theorem upload_and_listing_contain_every_failure :
  forall b k data p (w : world),
    (exists ok w',
        upload_to_gcs storage_client b k data w = (Ret ok, w')
        /\ (ok = true <->
            storage_client = true
            /\ exists q, blob_upload_from_string b k data "application/json" (remote w)
                         = (Ret tt, q))
        /\ (calls w' = calls w
            \/ calls w' = UploadFromString b k data "application/json" :: calls w))
    /\ (exists files w',
          list_gcs_files storage_client b p w = (Ret files, w')
          /\ (forall names,
                files = Some names <->
                storage_client = true
                /\ exists q, client_list_blobs b p (remote w) = (Ret names, q))
          /\ (calls w' = calls w \/ calls w' = ListBlobs b p :: calls w)).
Proof.
  intros b k data p w. split.
  - unfold upload_to_gcs. destruct storage_client; simpl.
    + unfold bind, attempt, outside_call, ret.
      destruct (blob_upload_from_string b k data "application/json" (remote w))
        as [[[] | ex] q]; eexists; eexists; (split; [reflexivity |]);
        (split; [| right; reflexivity]).
      * split; [intros _; split; [reflexivity | eexists; reflexivity] | reflexivity].
      * split; [discriminate | intros [_ [q' E]]; discriminate E].
    + unfold ret. eexists; eexists. split; [reflexivity |].
      split; [| left; reflexivity].
      split; [discriminate | intros [E _]; discriminate E].
  - unfold list_gcs_files. destruct storage_client; simpl.
    + unfold bind, attempt, outside_call, ret.
      destruct (client_list_blobs b p (remote w)) as [[names | ex] q];
        eexists; eexists; (split; [reflexivity |]); (split; [| right; reflexivity]).
      * intros names'. split.
        -- intros E; inversion E; subst. split; [reflexivity | eexists; reflexivity].
        -- intros [_ [q' E]]. inversion E. reflexivity.
      * intros names'. split; [discriminate | intros [_ [q' E]]; discriminate E].
    + unfold ret. eexists; eexists. split; [reflexivity |].
      split; [| left; reflexivity].
      intros names. split; [discriminate | intros [E _]; discriminate E].
Qed.

Lemma get_gcs_file_content_run :
  forall b k (w : world),
    get_gcs_file_content storage_client b k w
    = if storage_client then
        match blob_exists b k (remote w) with
        | (Ret true, q) =>
            match blob_download_as_text b k q with
            | (Ret body_text, q') =>
                (Ret match json_loads body_text with Ret v => v | Raise _ => PNone end,
                 {| remote := q';
                    calls := DownloadAsText b k :: BlobExists b k :: calls w |})
            | (Raise _, q') =>
                (Ret PNone,
                 {| remote := q';
                    calls := DownloadAsText b k :: BlobExists b k :: calls w |})
            end
        | (_, q) => (Ret PNone, {| remote := q; calls := BlobExists b k :: calls w |})
        end
      else (Ret PNone, w).
Proof.
  intros b k w. unfold get_gcs_file_content. destruct storage_client; simpl; [| reflexivity].
  run.
  destruct (blob_exists b k (remote w)) as [[[|] | ex] q]; simpl; try reflexivity.
  destruct (blob_download_as_text b k q) as [[body_text | ex] q']; simpl; try reflexivity.
  destruct (json_loads body_text); reflexivity.
Qed.

(** X12. [get_gcs_file_content] never raises and only reads: it asks whether
    the object exists, and downloads it only when the answer is yes. A
    refusal or a failure of the first call ends the function after that
    call. *)
Theorem get_gcs_file_content_asks_before_it_downloads :
  forall b k (w : world),
    exists content w',
      get_gcs_file_content storage_client b k w = (Ret content, w')
      /\ (storage_client = false -> w' = w /\ content = PNone)
      /\ (storage_client = true ->
          (fst (blob_exists b k (remote w)) = Ret true ->
           calls w' = DownloadAsText b k :: BlobExists b k :: calls w)
          /\ (fst (blob_exists b k (remote w)) <> Ret true ->
              calls w' = BlobExists b k :: calls w /\ content = PNone)).
Proof.
  intros b k w. rewrite get_gcs_file_content_run. destruct storage_client.
  - destruct (blob_exists b k (remote w)) as [[[|] | ex] q]; cbn [fst].
    + destruct (blob_download_as_text b k q) as [[body_text | ex] q'];
        eexists; eexists; (split; [reflexivity |]); (split; [discriminate |]); intros _;
        (split; [intros _; reflexivity | intros H; contradiction]).
    + eexists; eexists; (split; [reflexivity |]); (split; [discriminate |]); intros _.
      split; [discriminate | intros _; split; reflexivity].
    + eexists; eexists; (split; [reflexivity |]); (split; [discriminate |]); intros _.
      split; [discriminate | intros _; split; reflexivity].
  - eexists; eexists. split; [reflexivity |].
    split; [intros _; split; reflexivity | discriminate].
Qed.

End StorageClient.

(** ** The read endpoints *)

Section ReadEndpoints.

Context {J : Json} {O : Outside}.
Variable storage_client : bool.
Variable bucket : string.
Hypothesis bucket_set : bucket <> EmptyString.

(** X13. The listing endpoint makes one listing call, on the configured
    bucket with the prefix "weather_", and answers with the names the client
    yields, in its order, none left out or added, beside the bucket name; an
    exception of the client is answered 500. *)
Theorem listing_endpoint_passes_names_on :
  forall (w : world),
    storage_client = true ->
    list_weather_files_endpoint storage_client (Some bucket) w
    = (Ret match fst (client_list_blobs bucket (Some "weather_") (remote w)) with
           | Ret names =>
               {| body := PDict [("files", PList (map PStr names)); ("bucket", PStr bucket)];
                  status := 200 |}
           | Raise _ => list_failed_response
           end,
       {| remote := snd (client_list_blobs bucket (Some "weather_") (remote w));
          calls := ListBlobs bucket (Some "weather_") :: calls w |}).
Proof.
  intros w Hsc. unfold list_weather_files_endpoint.
  rewrite (configured_bucket_set _ bucket_set).
  unfold list_gcs_files. rewrite Hsc. simpl negb. cbv iota.
  unfold bind, attempt, outside_call, ret.
  destruct (client_list_blobs bucket (Some "weather_") (remote w)) as [[names | ex] q];
    reflexivity.
Qed.

(** X14. The content endpoint always answers, with 400, 404 or 200: 400
    exactly for the empty file name, and then without a call. It only reads:
    the calls it makes ask for the existence of that object in the configured
    bucket and download it. *)
Theorem content_endpoint_only_reads :
  forall file_name (w : world),
    exists resp w',
      weather_file_content_endpoint storage_client (Some bucket) file_name w = (Ret resp, w')
      /\ (status resp = 400 \/ status resp = 404 \/ status resp = 200)
      /\ (status resp = 400 <-> file_name = EmptyString)
      /\ (file_name = EmptyString -> resp = empty_file_name_response /\ w' = w)
      /\ (status resp = 200 -> body resp <> PNone)
      /\ (forall c, In c (calls w') ->
            In c (calls w) \/ c = BlobExists bucket file_name
            \/ c = DownloadAsText bucket file_name).
Proof.
  intros k w. unfold weather_file_content_endpoint.
  rewrite (configured_bucket_set _ bucket_set).
  destruct (String.eqb_spec k "") as [-> | Hk].
  { eexists; eexists. split; [reflexivity |]. simpl.
    repeat split; auto; try discriminate. }
  destruct (get_gcs_file_content storage_client bucket k w) as [g w'] eqn:Hg.
  assert (Hc : (exists content, g = Ret content)
               /\ forall c, In c (calls w') ->
                    In c (calls w) \/ c = BlobExists bucket k \/ c = DownloadAsText bucket k).
  { rewrite get_gcs_file_content_run in Hg. destruct storage_client.
    - destruct (blob_exists bucket k (remote w)) as [[[|] | ex] q].
      + destruct (blob_download_as_text bucket k q) as [[body_text | ex] q'];
          inversion Hg; subst; (split; [eexists; reflexivity |]);
          intros c [<- | [<- | Hin]]; auto.
      + inversion Hg; subst. split; [eexists; reflexivity |]. intros c [<- | Hin]; auto.
      + inversion Hg; subst. split; [eexists; reflexivity |]. intros c [<- | Hin]; auto.
    - inversion Hg; subst. split; [eexists; reflexivity | auto]. }
  destruct Hc as [[content ->] Hcalls].
  unfold bind. rewrite Hg.
  destruct (is_none content) eqn:Nc; eexists; eexists; (split; [reflexivity |]); simpl.
  - split; [auto |]. split; [split; [discriminate | contradiction] |].
    split; [contradiction |]. split; [discriminate | exact Hcalls].
  - split; [auto |]. split; [split; [discriminate | contradiction] |].
    split; [contradiction |]. split; [| exact Hcalls].
    intros _ ->. discriminate.
Qed.

(** X15. A stored object whose text is the JSON value [null] is answered
    404 "not found or unable to retrieve/parse content", although it exists
    and parses: the client returns the parsed [None], which the endpoint
    reads as failure. *)
Theorem stored_null_is_answered_404 :
  forall file_name body_text (w : world) q q',
    storage_client = true ->
    file_name <> EmptyString ->
    blob_exists bucket file_name (remote w) = (Ret true, q) ->
    blob_download_as_text bucket file_name q = (Ret body_text, q') ->
    json_loads body_text = Ret PNone ->
    weather_file_content_endpoint storage_client (Some bucket) file_name w
    = (Ret (not_found_response file_name),
       {| remote := q';
          calls := DownloadAsText bucket file_name :: BlobExists bucket file_name :: calls w |})
    /\ status (not_found_response file_name) = 404.
Proof.
  intros k body_text w q q' Hsc Hk He Hd Hj. split; [| reflexivity].
  unfold weather_file_content_endpoint.
  rewrite (configured_bucket_set _ bucket_set).
  destruct (String.eqb_spec k "") as [E | _]; [contradiction |].
  unfold bind. rewrite get_gcs_file_content_run, Hsc, He, Hd, Hj. reflexivity.
Qed.


End ReadEndpoints.

Lemma listing_endpoint_passes_names_on_witness :
  list_weather_files_endpoint (O := InMemory.outside) true (Some "weather-bucket") sample_world
  = (Ret {| body := PDict [ ("files", PList [PStr "weather_old.json"]);
                            ("bucket", PStr "weather-bucket") ];
            status := 200 |},
     @Build_world InMemory.outside sample_store [ListBlobs "weather-bucket" (Some "weather_")]).
Proof.
  apply (listing_endpoint_passes_names_on (O := InMemory.outside) true "weather-bucket"
           bucket_name_set sample_world).
  reflexivity.
Defined.

Lemma content_endpoint_only_reads_witness :
  exists resp w',
    weather_file_content_endpoint (J := InMemory.json) (O := InMemory.outside) true
      (Some "weather-bucket") "" sample_world = (Ret resp, w')
    /\ status resp = 400.
Proof.
  destruct (content_endpoint_only_reads (J := InMemory.json) (O := InMemory.outside) true
              "weather-bucket" bucket_name_set "" sample_world)
    as (resp & w' & He & _ & Hs & _).
  exists resp, w'. split; [exact He |]. apply Hs. reflexivity.
Defined.

Lemma stored_null_is_answered_404_witness :
  fst (weather_file_content_endpoint (J := InMemory.json) (O := InMemory.outside) true
         (Some "weather-bucket") "weather_null.json" null_object_world)
  = Ret (not_found_response "weather_null.json").
Proof.
  destruct (stored_null_is_answered_404 (J := InMemory.json) (O := InMemory.outside) true
              "weather-bucket" bucket_name_set "weather_null.json" "null" null_object_world
              (remote null_object_world) (remote null_object_world)
              eq_refl ltac:(discriminate) eq_refl eq_refl ltac:(vm_compute; reflexivity))
    as [H _].
  rewrite H. reflexivity.
Defined.


(** ** The date validator on zero-padded texts *)

Section PaddedDates.

Lemma padded_month_day_all_ok :
  forallb (fun m1 => forallb (fun m2 => forallb (fun d1 => forallb (fun d2 =>
     padded_month_day_ok m1 m2 d1 d2)
     (chars_between "0" "9")) (chars_between "0" "9")) (chars_between "0" "9"))
     (chars_between "0" "9") = true.
Proof. vm_compute. reflexivity. Qed.

Lemma days_in_month_le : forall y m, days_in_month y m <= 31.
Proof.
  intros y m. unfold days_in_month. destruct (is_leap y);
    repeat match goal with
           | |- context [match ?x with _ => _ end] => destruct x
           end; lia.
Qed.

Lemma date_ok_range :
  forall y m d, date_ok y m d = true -> 1 <= m <= 12 /\ 1 <= d <= 31.
Proof.
  intros y m d H. unfold date_ok in H.
  repeat match goal with
         | H : (_ && _) = true |- _ => apply andb_true_iff in H; destruct H
         | H : (_ <=? _) = true |- _ => apply Z.leb_le in H
         end.
  pose proof (days_in_month_le y m). lia.
Qed.

(** X17. On a text of four, two and two digits with hyphens between,
    [validate_date_format] is the calendar check: it accepts exactly when the
    year is at least 1, the month from 1 to 12 and the day from 1 to the
    length of that month, February having 29 days in the years divisible by
    4 and not by 100, or by 400. *)
Theorem padded_date_validates_iff_calendar_date :
  forall y1 y2 y3 y4 m1 m2 d1 d2,
    is_digit y1 = true -> is_digit y2 = true -> is_digit y3 = true -> is_digit y4 = true ->
    is_digit m1 = true -> is_digit m2 = true -> is_digit d1 = true -> is_digit d2 = true ->
    validate_date_format (PStr (padded_date y1 y2 y3 y4 m1 m2 d1 d2))
    = Ret (date_ok (1000 * digit_value y1 + 100 * digit_value y2 + 10 * digit_value y3
                    + digit_value y4)
                   (two_digit_value m1 m2) (two_digit_value d1 d2)).
Proof.
  intros y1 y2 y3 y4 m1 m2 d1 d2 Y1 Y2 Y3 Y4 M1 M2 D1 D2.
  pose proof padded_month_day_all_ok as A.
  rewrite forallb_forall in A. specialize (A _ (is_digit_chars _ M1)).
  rewrite forallb_forall in A. specialize (A _ (is_digit_chars _ M2)).
  rewrite forallb_forall in A. specialize (A _ (is_digit_chars _ D1)).
  rewrite forallb_forall in A. specialize (A _ (is_digit_chars _ D2)).
  unfold padded_month_day_ok in A. cbv zeta in A.
  unfold validate_date_format, strptime_ymd, padded_date.
  rewrite (re_match_year _ _ _ _ _ Y1 Y2 Y3 Y4).
  set (Y := 1000 * digit_value y1 + 100 * digit_value y2 + 10 * digit_value y3
            + digit_value y4).
  assert (Out : negb ((1 <=? two_digit_value m1 m2) && (two_digit_value m1 m2 <=? 12)
                      && (1 <=? two_digit_value d1 d2) && (two_digit_value d1 d2 <=? 31))
                = true ->
                date_ok Y (two_digit_value m1 m2) (two_digit_value d1 d2) = false).
  { intros N. destruct (date_ok Y _ _) eqn:E; [| reflexivity].
    apply date_ok_range in E.
    apply negb_true_iff in N. exfalso.
    assert (T : (1 <=? two_digit_value m1 m2) && (two_digit_value m1 m2 <=? 12)
                && (1 <=? two_digit_value d1 d2) && (two_digit_value d1 d2 <=? 31) = true).
    { repeat (apply andb_true_iff; split); apply Z.leb_le; lia. }
    congruence. }
  destruct (re_match month_day_regex _) as [[found rest] |].
  - destruct (String.eqb rest "") eqn:Er; cbn [negb].
    + cbn [group String.eqb Ascii.eqb Bool.eqb]. cbv iota.
      rewrite (py_int_year _ _ _ _ Y1 Y2 Y3 Y4). cbn [rbind]. fold Y.
      apply andb_true_iff in A as [Am Ad].
      destruct (py_int (group found "m")) as [m |]; [| discriminate Am].
      destruct (py_int (group found "d")) as [d |]; [| discriminate Ad].
      simpl in Am, Ad. apply Z.eqb_eq in Am, Ad. subst m d. cbn [rbind].
      destruct (date_ok Y _ _); reflexivity.
    + rewrite (Out A). reflexivity.
  - rewrite (Out A). reflexivity.
Qed.


End PaddedDates.

Lemma padded_date_validates_iff_calendar_date_witness :
  validate_date_format (PStr "2024-02-29") = Ret true
  /\ validate_date_format (PStr "2023-02-29") = Ret false
  /\ validate_date_format (PStr "1900-02-29") = Ret false
  /\ validate_date_format (PStr "0000-01-01") = Ret false.
Proof.
  split; [| split; [| split]].
  - exact (padded_date_validates_iff_calendar_date "2" "0" "2" "4" "0" "2" "2" "9"
             eq_refl eq_refl eq_refl eq_refl eq_refl eq_refl eq_refl eq_refl).
  - exact (padded_date_validates_iff_calendar_date "2" "0" "2" "3" "0" "2" "2" "9"
             eq_refl eq_refl eq_refl eq_refl eq_refl eq_refl eq_refl eq_refl).
  - exact (padded_date_validates_iff_calendar_date "1" "9" "0" "0" "0" "2" "2" "9"
             eq_refl eq_refl eq_refl eq_refl eq_refl eq_refl eq_refl eq_refl).
  - exact (padded_date_validates_iff_calendar_date "0" "0" "0" "0" "0" "1" "0" "1"
             eq_refl eq_refl eq_refl eq_refl eq_refl eq_refl eq_refl eq_refl).
Defined.

(** ** The storage key: which requests share one *)

Section KeyInjective.

Lemma digits_prefix_unique :
  forall a b (c c' : ascii) x y,
    all_chars is_digit a = true -> all_chars is_digit b = true ->
    is_digit c = false -> is_digit c' = false ->
    a ++ String c x = b ++ String c' y ->
    a = b /\ x = y.
Proof.
  induction a as [| p a IH]; intros [| p' b] c c' x y Ha Hb Hc Hc' E; simpl in *.
  - inversion E; auto.
  - inversion E; subst. apply andb_true_iff in Hb as [Hp _]. congruence.
  - inversion E; subst. apply andb_true_iff in Ha as [Hp _]. congruence.
  - apply andb_true_iff in Ha as [_ Ha]. apply andb_true_iff in Hb as [_ Hb].
    inversion E; subst. destruct (IH _ _ _ _ _ Ha Hb Hc Hc' H1) as [-> ->]. auto.
Qed.

(** The two-place text with the point replaced. *)
Lemma fixed2_underscore :
  forall neg h,
    str_replace "." "_" (fixed2 neg h)
    = (if neg then "-" else "") ++ digits (h / 100) ++ String "_" (two_digits (h mod 100)).
Proof.
  intros neg h. destruct (two_digits_range h) as [R1 R2].
  unfold fixed2, two_digits. rewrite !str_replace_app.
  rewrite (str_replace_digits "." "_" (digits (h / 100)))
    by (reflexivity || apply digits_all_digits).
  assert (Es : str_replace "." "_" (if neg then "-" else "") = (if neg then "-" else ""))
    by (destruct neg; reflexivity).
  rewrite Es. f_equal. f_equal. simpl.
  rewrite (is_digit_not _ "."%char (is_digit_digit_char _ R1) eq_refl).
  rewrite (is_digit_not _ "."%char (is_digit_digit_char _ R2) eq_refl).
  reflexivity.
Qed.

Lemma digits_head :
  forall n, exists c t, digits n = String c t /\ is_digit c = true.
Proof.
  intros n. pose proof (digits_nonempty n) as N. pose proof (digits_all_digits n) as A.
  destruct (digits n) as [| c t]; [contradiction |].
  simpl in A. apply andb_true_iff in A as [Hc _]. exists c, t. auto.
Qed.

(** Where a two-place text ends can be told from the text: the texts of two
    numbers, each followed by anything, agree only if the numbers print alike
    and what follows is the same. *)
Lemma fixed2_prefix_unique :
  forall neg h neg' h' r r',
    str_replace "." "_" (fixed2 neg h) ++ r = str_replace "." "_" (fixed2 neg' h') ++ r' ->
    fixed2 neg h = fixed2 neg' h' /\ r = r'.
Proof.
  intros neg h neg' h' r r'. rewrite !fixed2_underscore.
  unfold fixed2, two_digits. rewrite !string_app_assoc.
  destruct (digits_head (h / 100)) as (c & t & Ec & Hc).
  destruct (digits_head (h' / 100)) as (c' & t' & Ec' & Hc').
  pose proof (digits_all_digits (h / 100)) as A.
  pose proof (digits_all_digits (h' / 100)) as A'.
  assert (G : forall x y,
             digits (h / 100) ++ String "_" x = digits (h' / 100) ++ String "_" y ->
             digits (h / 100) = digits (h' / 100) /\ x = y).
  { intros x y E. apply (digits_prefix_unique _ _ "_" "_" x y A A' eq_refl eq_refl E). }
  destruct neg, neg'; simpl; intros E.
  - inversion E as [E1]. destruct (G _ _ E1) as [-> E2].
    inversion E2. subst. rewrite H0, H1. auto.
  - exfalso. rewrite Ec' in E. simpl in E. inversion E; subst. discriminate Hc'.
  - exfalso. rewrite Ec in E. simpl in E. inversion E; subst. discriminate Hc.
  - destruct (G _ _ E) as [-> E2].
    inversion E2. subst. rewrite H0, H1. auto.
Qed.

Lemma finite_format_fixed2 :
  forall x, is_finite x = true -> exists neg h, float_format_2f x = fixed2 neg h.
Proof.
  intros [s | s | | s m e] H; try discriminate; simpl; eexists; eexists; reflexivity.
Qed.

Lemma padded_text_shape :
  forall texts M m,
    texts = padded_months \/ texts = padded_days -> In (M, m) texts ->
    exists a b, M = String a (String b EmptyString) /\ is_digit a = true /\ is_digit b = true.
Proof.
  intros texts M m [-> | ->] H; vm_compute in H;
    repeat (destruct H as [H | H];
            [inversion H; eexists; eexists; split; [reflexivity | split; reflexivity] |]);
    contradiction.
Qed.

Lemma iso_date_text_shape :
  forall s, iso_date_text s ->
    exists y1 y2 y3 y4 m1 m2 d1 d2,
      s = padded_date y1 y2 y3 y4 m1 m2 d1 d2
      /\ all_chars is_digit
           (String y1 (String y2 (String y3 (String y4
              (String m1 (String m2 (String d1 (String d2 EmptyString)))))))) = true.
Proof.
  intros s (y1 & y2 & y3 & y4 & M & D & m & d & H1 & H2 & H3 & H4 & HM & HD & -> & _).
  destruct (padded_text_shape _ _ _ (or_introl eq_refl) HM) as (m1 & m2 & -> & M1 & M2).
  destruct (padded_text_shape _ _ _ (or_intror eq_refl) HD) as (d1 & d2 & -> & D1 & D2).
  exists y1, y2, y3, y4, m1, m2, d1, d2. split; [reflexivity |].
  simpl. rewrite H1, H2, H3, H4, M1, M2, D1, D2. reflexivity.
Qed.

Lemma padded_date_stripped :
  forall y1 y2 y3 y4 m1 m2 d1 d2,
    all_chars is_digit
      (String y1 (String y2 (String y3 (String y4
         (String m1 (String m2 (String d1 (String d2 EmptyString)))))))) = true ->
    str_replace "-" "" (padded_date y1 y2 y3 y4 m1 m2 d1 d2)
    = String y1 (String y2 (String y3 (String y4
        (String m1 (String m2 (String d1 (String d2 EmptyString))))))).
Proof.
  intros y1 y2 y3 y4 m1 m2 d1 d2 H. simpl in H.
  repeat match goal with
         | H : (_ && _) = true |- _ => apply andb_true_iff in H; destruct H
         end.
  unfold padded_date. cbn [str_replace].
  repeat match goal with
         | H : is_digit ?c = true |- _ =>
             rewrite (is_digit_not c "-"%char H eq_refl); clear H
         end.
  reflexivity.
Qed.

(** X19. For finite coordinates and zero-padded dates the key tells the
    request: two requests get the same key only if their dates are the same
    and their coordinates print alike to two decimal places. *)
Theorem same_key_same_dates_and_two_place_coordinates :
  forall latitude longitude start_date end_date latitude' longitude' start_date' end_date'
         x y x' y' key,
    as_float latitude = Ret x -> is_finite x = true ->
    as_float longitude = Ret y -> is_finite y = true ->
    as_float latitude' = Ret x' -> is_finite x' = true ->
    as_float longitude' = Ret y' -> is_finite y' = true ->
    iso_date_text start_date -> iso_date_text end_date ->
    iso_date_text start_date' -> iso_date_text end_date' ->
    generate_filename latitude longitude (PStr start_date) (PStr end_date) = Ret key ->
    generate_filename latitude' longitude' (PStr start_date') (PStr end_date') = Ret key ->
    format_2f latitude = format_2f latitude'
    /\ format_2f longitude = format_2f longitude'
    /\ start_date = start_date'
    /\ end_date = end_date'.
Proof.
  intros la lo s e la' lo' s' e' x y x' y' key Hx Fx Hy Fy Hx' Fx' Hy' Fy' Is Ie Is' Ie'.
  unfold generate_filename, format_2f. simpl py_replace.
  rewrite Hx, Hy, Hx', Hy'. cbn [rbind].
  destruct (finite_format_fixed2 x Fx) as (n1 & h1 & ->).
  destruct (finite_format_fixed2 y Fy) as (n2 & h2 & ->).
  destruct (finite_format_fixed2 x' Fx') as (n1' & h1' & ->).
  destruct (finite_format_fixed2 y' Fy') as (n2' & h2' & ->).
  destruct (iso_date_text_shape _ Is) as (a1 & a2 & a3 & a4 & a5 & a6 & a7 & a8 & -> & As).
  destruct (iso_date_text_shape _ Ie) as (b1 & b2 & b3 & b4 & b5 & b6 & b7 & b8 & -> & Ae).
  destruct (iso_date_text_shape _ Is') as (c1 & c2 & c3 & c4 & c5 & c6 & c7 & c8 & -> & As').
  destruct (iso_date_text_shape _ Ie') as (g1 & g2 & g3 & g4 & g5 & g6 & g7 & g8 & -> & Ae').
  rewrite !padded_date_stripped by assumption.
  intros K K'. rewrite <- K' in K. clear K'. inversion K as [E]. clear K.
  cbn [append] in E. inversion E as [E1]. clear E.
  apply fixed2_prefix_unique in E1 as [L E1].
  cbn [append] in E1. inversion E1 as [E2]. clear E1.
  apply fixed2_prefix_unique in E2 as [L' E2].
  cbn [append] in E2. inversion E2. subst.
  rewrite L, L'. repeat split; reflexivity.
Qed.

(** X20. A non-finite double (JSON as Python reads it has [NaN] and
    [Infinity]) passes [isinstance(v, (int, float))] and is written into the
    key as "nan", "inf" or "-inf". *)
Theorem non_finite_coordinate_in_key :
  forall x longitude start_date end_date LON,
    is_finite x = false ->
    format_2f longitude = Ret LON ->
    isinstance_int_float (PFloat x) = true
    /\ generate_filename (PFloat x) longitude (PStr start_date) (PStr end_date)
       = Ret (compose_key
                match x with
                | S754_infinity true => "-inf"
                | S754_infinity false => "inf"
                | _ => "nan"
                end
                (str_replace "." "_" LON) (strip_hyphens start_date) (strip_hyphens end_date)).
Proof.
  intros x lo s e LON Hx Hlo. split; [reflexivity |].
  unfold generate_filename, format_2f at 1. simpl py_replace. cbn [rbind as_float].
  rewrite Hlo. cbn [rbind]. rewrite !str_replace_hyphens.
  destruct x as [? | [|] | | ? ? ?]; try discriminate; reflexivity.
Qed.

(** X21. [generate_filename] returns a key exactly when both dates are
    strings and both coordinates convert to a double. Otherwise it raises:
    [AttributeError] for a date that is not a string, and then, for the first
    coordinate that fails, [ValueError] for a string, [OverflowError] for an
    integer too large, [TypeError] for null, an array or an object. *)
Theorem generate_filename_returns_or_raises :
  forall latitude longitude start_date end_date,
    ((exists key, generate_filename latitude longitude start_date end_date = Ret key)
     <-> isinstance_str start_date = true /\ isinstance_str end_date = true
         /\ (exists x, as_float latitude = Ret x) /\ (exists y, as_float longitude = Ret y))
    /\ (isinstance_str start_date = false \/ isinstance_str end_date = false ->
        generate_filename latitude longitude start_date end_date = Raise AttributeError)
    /\ (isinstance_str start_date = true -> isinstance_str end_date = true ->
        forall ex, as_float latitude = Raise ex ->
          generate_filename latitude longitude start_date end_date = Raise ex)
    /\ (isinstance_str start_date = true -> isinstance_str end_date = true ->
        forall x ex, as_float latitude = Ret x -> as_float longitude = Raise ex ->
          generate_filename latitude longitude start_date end_date = Raise ex)
    /\ (forall v ex, as_float v = Raise ex ->
          match v with
          | PStr _ => ex = ValueError
          | PInt _ | PBool _ => ex = OverflowError
          | _ => ex = TypeError
          end).
Proof.
  intros la lo sd ed. unfold generate_filename, format_2f.
  split; [| split; [| split; [| split]]].
  - split.
    + intros [key H].
      destruct sd; try discriminate H; destruct ed; try discriminate H.
      simpl py_replace in H. cbn [rbind] in H.
      destruct (as_float la) as [x |]; [| discriminate H].
      destruct (as_float lo) as [y |]; [| discriminate H].
      repeat split; eexists; reflexivity.
    + intros (Hs & He & [x Hx] & [y Hy]).
      destruct sd; try discriminate Hs; destruct ed; try discriminate He.
      rewrite Hx, Hy. eexists; reflexivity.
  - intros [H | H].
    + destruct sd; try discriminate H; reflexivity.
    + destruct sd; try reflexivity; destruct ed; try discriminate H; reflexivity.
  - intros Hs He ex Hx.
    destruct sd; try discriminate Hs; destruct ed; try discriminate He.
    rewrite Hx. reflexivity.
  - intros Hs He x ex Hx Hy.
    destruct sd; try discriminate Hs; destruct ed; try discriminate He.
    rewrite Hx, Hy. reflexivity.
  - intros v ex H. destruct v as [| b | n | x | s | l | d]; simpl in H;
      try (inversion H; reflexivity).
    + unfold float_of_int in H.
      destruct (binary_normalize prec emax (if b then 1 else 0) 0 false);
        inversion H; reflexivity.
    + unfold float_of_int in H.
      destruct (binary_normalize prec emax n 0 false); inversion H; reflexivity.
Qed.

End KeyInjective.

Lemma march_dates_iso : iso_date_text "2023-03-01" /\ iso_date_text "2023-03-03".
Proof.
  split.
  - exists "2"%char, "0"%char, "2"%char, "3"%char, "03", "01", 3, 1.
    repeat (split; [reflexivity |]).
    split; [vm_compute; repeat (first [left; reflexivity | right]) |].
    split; [vm_compute; repeat (first [left; reflexivity | right]) |].
    split; reflexivity.
  - exists "2"%char, "0"%char, "2"%char, "3"%char, "03", "03", 3, 3.
    repeat (split; [reflexivity |]).
    split; [vm_compute; repeat (first [left; reflexivity | right]) |].
    split; [vm_compute; repeat (first [left; reflexivity | right]) |].
    split; reflexivity.
Qed.

Lemma same_key_same_dates_and_two_place_coordinates_witness :
  format_2f (PFloat (float_lit 5252 100)) = format_2f (PFloat (float_lit 52523 1000))
  /\ format_2f (PInt 13) = format_2f (PFloat (float_lit 13 1)).
Proof.
  destruct march_dates_iso as [Is Ie].
  destruct (same_key_same_dates_and_two_place_coordinates
              (PFloat (float_lit 5252 100)) (PInt 13) "2023-03-01" "2023-03-03"
              (PFloat (float_lit 52523 1000)) (PFloat (float_lit 13 1))
              "2023-03-01" "2023-03-03"
              (float_lit 5252 100) (S754_finite false 7318349394477056 (-49))
              (float_lit 52523 1000) (float_lit 13 1)
              "weather_lat52_52_lon13_00_from20230301_to20230303.json"
              eq_refl ltac:(vm_compute; reflexivity)
              ltac:(vm_compute; reflexivity) eq_refl
              eq_refl ltac:(vm_compute; reflexivity)
              eq_refl ltac:(vm_compute; reflexivity)
              Is Ie Is Ie
              ltac:(vm_compute; reflexivity) ltac:(vm_compute; reflexivity))
    as (H1 & H2 & _).
  split; [exact H1 | exact H2].
Defined.

Lemma non_finite_coordinate_in_key_witness :
  generate_filename (PFloat S754_nan) (PInt 13) (PStr "2023-03-01") (PStr "2023-03-03")
  = Ret "weather_latnan_lon13_00_from20230301_to20230303.json".
Proof.
  destruct (non_finite_coordinate_in_key S754_nan (PInt 13) "2023-03-01" "2023-03-03" "13.00"
              eq_refl ltac:(vm_compute; reflexivity)) as [_ H].
  rewrite H. vm_compute. reflexivity.
Defined.
